(** * AbilityConnect: treatment-plan pipeline and progress analytics

    A shallow embedding of the TypeScript sources

      - [src/services/openai.ts]
      - [src/components/Therapist/TreatmentPlanForm.tsx]
      - [src/components/Therapist/VoiceRecorder.tsx]
      - [src/components/Therapist/PatientList.tsx]
      - [src/components/Parent/ParentProfile.tsx]
      - [src/components/Parent/DailyTasks.tsx],
        [src/components/Therapist/TreatmentPlanView.tsx],
        [src/components/Therapist/VideoUpload.tsx]
      - [src/components/Parent/ProgressDashboard.tsx] (with [FeedbackForm])
      - [src/components/Therapist/TherapistFeedback.tsx]
      - [Chatbot]
      - [src/utils/progressData.ts]

    Conventions.  A JavaScript exception is a value [Thrown msg]; an [async]
    function is a computation in a state-and-exception monad whose state
    survives a throw.  External services (Firebase Storage, Firestore, the
    OpenAI client, [JSON.parse]) are oracles collected in a record, so that
    every handler can be run on concrete fakes; the prompts sent to the
    OpenAI client are kept as the kind of request and its variable parts.

    Numbers and time.  [Date] values are milliseconds since the epoch in
    [Z], and a calendar day is 24 hours.  A handler reads the clock several
    times during a run; the model gives it one reading [now].  JavaScript
    numbers that the code computes with are exact rationals in [Q]
    ([Math_round_near_percentage] shows that the rounding error of doubles
    does not change what is proved about percentages).  [Math.random] reads
    the next element of a stream of draws. *)

From Stdlib Require Import ZArith QArith Qround Qabs Qminmax List String Bool Lia Lqa Arith.
From Stdlib Require Import DecimalString.
From Stdlib Require DecimalZ DecimalPos.
From Stdlib Require Import Permutation Sorted.
Import ListNotations.

Set Implicit Arguments.

Local Open Scope string_scope.

(** ** JavaScript values shared by all components *)

Inductive result (A : Type) : Type :=
| Ok (value : A)
| Thrown (message : string).

Arguments Ok {A} value.
Arguments Thrown {A} message.

(** Template-literal interpolation of a number. *)
Definition show_Z (z : Z) : string := NilZero.string_of_int (Z.to_int z).
Definition show_nat (n : nat) : string := show_Z (Z.of_nat n).

(** [a || b] on strings: the empty string is falsy. *)
Definition or_else (a b : string) : string :=
  if String.eqb a "" then b else a.

(** [o || b] where [o] may be [undefined]/[null] or a string. *)
Definition opt_or_else (o : option string) (b : string) : string :=
  match o with
  | Some a => or_else a b
  | None => b
  end.

(** Truthiness of an optional string field. *)
Definition truthy (o : option string) : bool :=
  match o with
  | Some a => negb (String.eqb a "")
  | None => false
  end.

(** ** Data model ([src/types/index.ts]) *)

Record User := { uid : string }.

Record File := { file_name : string }.

(** A document of the [children] collection with its document id.  A
    therapist-created document has [parentId: '']; a parent-created one has
    no [therapistId]. *)
Record Child := {
  child_id : string;
  child_nationalId : string;
  child_name : string;
  child_parentId : string;
  child_therapistId : option string
}.

(** [category] of a weekly goal as the code reads it: a JSON string, JSON
    [null], or [undefined] when the key is absent. *)
Inductive Category : Type :=
| CatNull
| CatUndefined
| CatTag (tag : string).

(** [weeklyGoals: WeeklyGoal[] | string[]]: an entry is a bare string (old
    format) or an object with a [goal] key (new format). *)
Inductive WeeklyGoalEntry : Type :=
| GoalString (text : string)
| GoalObject (goal : string) (category : Category).

(** A task as the summarization JSON carries it. *)
Record RawTask := {
  raw_title : string;
  raw_description : string;
  raw_whyItMatters : string;
  raw_weeklyGoalIndex : Z
}.

Record DailyTask := {
  task_id : string;
  title : string;
  description : string;
  whyItMatters : string;
  weeklyGoalIndex : Z;
  demoVideoSuggestion : option string;
  demoVideoUrl : option string;
  editable : bool;
  task_createdAt : Z
}.

(** The parsed summarization payload.  [sum_dailyTasks = None] stands for a
    payload without a [dailyTasks] array. *)
Record SummaryJSON := {
  sum_summary : string;
  sum_therapyType : option string;
  sum_weeklyGoals : list WeeklyGoalEntry;
  sum_dailyTasks : option (list RawTask)
}.

(** A document of the [treatmentPlans] collection.  [plan_therapyType] is
    [None] when the writer does not store the field. *)
Record PlanDoc := {
  plan_childId : string;
  plan_therapistId : string;
  plan_voiceRecordingUrl : string;
  plan_transcription : string;
  plan_documentUrl : string;
  plan_summary : string;
  plan_therapyType : option string;
  plan_weeklyGoals : list WeeklyGoalEntry;
  plan_dailyTasks : list DailyTask;
  plan_createdAt : Z;
  plan_updatedAt : Z
}.

(** ** External services *)

Inductive ChatRequest : Type :=
| SummarizeRequest (isArabic : bool) (transcription : string)
| SuggestionRequest (isArabic : bool) (taskDescription : string).

(** Outcomes of the external calls.  [chat_create] answers with
    [response.choices[0].message.content], which may be [null]. *)
Record Services := {
  storage_uploadBytes : string -> File -> result unit;
  storage_getDownloadURL : string -> result string;
  whisper_create : File -> result string;
  chat_create : ChatRequest -> result (option string);
  JSON_parse : string -> result (option SummaryJSON);
  firestore_addDoc : PlanDoc -> result unit
}.

(** ** [src/services/openai.ts] *)

Module OpenAI.

(** [try { return (await create(...)).text } catch (e) { throw e }] *)
Definition transcribeAudio (sv : Services) (audioFile : File) : result string :=
  match whisper_create sv audioFile with
  | Ok text => Ok text
  | Thrown e => Thrown e
  end.

(** [return content ? JSON.parse(content) : null], errors rethrown. *)
Definition summarizeTreatmentPlan (sv : Services) (transcription language : string)
  : result (option SummaryJSON) :=
  let isArabic := String.eqb language "ar" in
  match chat_create sv (SummarizeRequest isArabic transcription) with
  | Ok content =>
      if truthy content then
        match JSON_parse sv (opt_or_else content "") with
        | Ok v => Ok v
        | Thrown e => Thrown e
        end
      else Ok None
  | Thrown e => Thrown e
  end.

(** [return response.choices[0].message.content || ''], errors rethrown. *)
Definition generateDemoVideoSuggestion (sv : Services) (taskDescription language : string)
  : result string :=
  let isArabic := String.eqb language "ar" in
  match chat_create sv (SuggestionRequest isArabic taskDescription) with
  | Ok content => Ok (opt_or_else content "")
  | Thrown e => Thrown e
  end.

(** What the dashboard sends for insights. *)
Record ProgressSummary := {
  totalSessions : nat;
  completionShare : Q;
  easySessions : nat;
  struggledSessions : nat;
  needsPracticeSessions : nat;
  happySessions : nat;
  neutralSessions : nat;
  frustratedSessions : nat
}.

(** [generateProgressInsights]: [return response.choices[0].message.content
    || ''], errors rethrown.  [client] is the answer of the chat client to
    the request built from [progressData]. *)
Definition generateProgressInsights
  (client : ProgressSummary -> result (option string)) (progressData : ProgressSummary)
  : result string :=
  match client progressData with
  | Ok content => Ok (opt_or_else content "")
  | Thrown e => Thrown e
  end.

(** A message of a conversation. *)
Inductive Role : Type := user | assistant.

Record ChatMessage := {
  role : Role;
  content : string
}.

(** What [chatWithAssistant] sends: the system prompt, given by the language
    branch taken and the user context that is serialized into it, followed
    by the messages.  [C] is the type of the user context. *)
Record ChatTurn (C : Type) := {
  turn_arabic : bool;
  turn_userContext : C;
  turn_messages : list ChatMessage
}.

(** [chatWithAssistant]: [return response.choices[0].message.content || ''],
    errors rethrown.  [client] is the answer of the chat client. *)
Definition chatWithAssistant {C} (client : ChatTurn C -> result (option string))
  (messages : list ChatMessage) (userContext : C) (language : string) : result string :=
  match client {| turn_arabic := String.eqb language "ar";
                  turn_userContext := userContext;
                  turn_messages := messages |} with
  | Ok content => Ok (opt_or_else content "")
  | Thrown e => Thrown e
  end.

End OpenAI.

(** ** Asynchronous handlers: state and exceptions *)

(** What a handler can change outside its component: the [treatmentPlans]
    and [children] collections and the objects of the storage bucket. *)
Record World (U : Type) := {
  plans : list PlanDoc;
  objects : list string;
  children : list Child;
  ui : U
}.

Definition Async (U A : Type) : Type := World U -> result A * World U.

Definition ret {U A} (a : A) : Async U A := fun w => (Ok a, w).

Definition bind {U A B} (m : Async U A) (k : A -> Async U B) : Async U B :=
  fun w =>
    match m w with
    | (Ok a, w') => k a w'
    | (Thrown e, w') => (Thrown e, w')
    end.

Definition throw {U A} (e : string) : Async U A := fun w => (Thrown e, w).

(** [await] of an external outcome. *)
Definition await {U A} (r : result A) : Async U A := fun w => (r, w).

(** [try { body } catch (err) { handler(err.message) }] *)
Definition try_catch {U A} (body : Async U A) (handler : string -> Async U A) : Async U A :=
  fun w =>
    match body w with
    | (Ok a, w') => (Ok a, w')
    | (Thrown e, w') => handler e w'
    end.

(** [try { body } finally { final }] *)
Definition try_finally {U A} (body : Async U A) (final : Async U unit) : Async U A :=
  fun w =>
    match body w with
    | (r, w') =>
        match final w' with
        | (Ok _, w'') => (r, w'')
        | (Thrown e, w'') => (Thrown e, w'')
        end
    end.

Definition modify_ui {U} (f : U -> U) : Async U unit :=
  fun w => (Ok tt, {| plans := plans w; objects := objects w; children := children w; ui := f (ui w) |}).

Declare Scope async_scope.
Delimit Scope async_scope with async.
Notation "x <- m ;; k" := (bind m (fun x => k))
  (at level 100, m at next level, right associativity) : async_scope.
Notation "m ;; k" := (bind m (fun _ => k))
  (at level 100, right associativity) : async_scope.
Local Open Scope async_scope.

(** [xs.map((x, index) => f(x, index))], counting from [index]. *)
Fixpoint map_indexed {A B} (f : A -> nat -> B) (index : nat) (xs : list A) : list B :=
  match xs with
  | [] => []
  | x :: rest => f x index :: map_indexed f (S index) rest
  end.

(** [Promise.all(promises)] on promises that do not touch the component:
    the list of the values when all fulfil, a rejection as soon as one
    rejects.  With oracles that answer at once the first rejection is the one
    of the smallest index, which is the message kept here. *)
Fixpoint Promise_all {A} (promises : list (result A)) : result (list A) :=
  match promises with
  | [] => Ok []
  | Ok a :: rest =>
      match Promise_all rest with
      | Ok values => Ok (a :: values)
      | Thrown e => Thrown e
      end
  | Thrown e :: _ => Thrown e
  end.

(** [await uploadBytes(ref(storage, path), file)] *)
Definition uploadBytes {U} (sv : Services) (path : string) (f : File) : Async U unit :=
  fun w =>
    match storage_uploadBytes sv path f with
    | Ok _ => (Ok tt, {| plans := plans w; objects := objects w ++ [path]; children := children w;
                   ui := ui w |})
    | Thrown e => (Thrown e, w)
    end.

Definition getDownloadURL {U} (sv : Services) (path : string) : Async U string :=
  await (storage_getDownloadURL sv path).

(** [await addDoc(collection(db, 'treatmentPlans'), doc)] *)
Definition addDoc {U} (sv : Services) (doc : PlanDoc) : Async U unit :=
  fun w =>
    match firestore_addDoc sv doc with
    | Ok _ => (Ok tt, {| plans := plans w ++ [doc]; objects := objects w; children := children w;
                   ui := ui w |})
    | Thrown e => (Thrown e, w)
    end.

(** The progress messages of the two forms, without their wording. *)
Inductive Status : Type :=
| NoStatus
| UploadingVoice
| Transcribing
| Summarizing
| GeneratingSuggestions
| UploadingDocument
| Saving
| Created.

(** [summary.dailyTasks.map(...)] on the value returned by the summarization
    stage: reading a property of [null], or calling [.map] on [undefined], is
    a [TypeError]. *)
Definition summary_dailyTasks {U} (summary : option SummaryJSON)
  : Async U (SummaryJSON * list RawTask) :=
  match summary with
  | None => throw "Cannot read properties of null (reading 'dailyTasks')"
  | Some s =>
      match sum_dailyTasks s with
      | None => throw "Cannot read properties of undefined (reading 'map')"
      | Some tasks => ret (s, tasks)
      end
  end.

(** The [async] callback of step 4, the same in both forms: ask for a
    suggestion, then build the task. *)
Definition enrichTask (sv : Services) (now : Z) (language : string)
  (task : RawTask) (index : nat) : result DailyTask :=
  match OpenAI.generateDemoVideoSuggestion sv (raw_description task) language with
  | Ok videoSuggestion =>
      Ok {| task_id := "task_" ++ show_Z now ++ "_" ++ show_nat index;
            title := raw_title task;
            description := raw_description task;
            whyItMatters := raw_whyItMatters task;
            weeklyGoalIndex := raw_weeklyGoalIndex task;
            demoVideoSuggestion := Some videoSuggestion;
            demoVideoUrl := None;
            editable := true;
            task_createdAt := now |}
  | Thrown e => Thrown e
  end.

(** [await Promise.all(summary.dailyTasks.map(async (task, index) => ...))] *)
Definition enrichTasks (sv : Services) (now : Z) (language : string)
  (tasks : list RawTask) : result (list DailyTask) :=
  Promise_all (map_indexed (enrichTask sv now language) 0 tasks).

(** ** [src/components/Therapist/TreatmentPlanForm.tsx] *)

Module TreatmentPlanForm.

Record State := {
  voiceFile : option File;
  documentFile : option File;
  loading : bool;
  status : Status;
  error : string;
  onCompleteScheduled : bool
}.

Definition setError (e : string) : Async State unit :=
  modify_ui (fun u => {| voiceFile := voiceFile u; documentFile := documentFile u;
                         loading := loading u; status := status u; error := e;
                         onCompleteScheduled := onCompleteScheduled u |}).

Definition setLoading (b : bool) : Async State unit :=
  modify_ui (fun u => {| voiceFile := voiceFile u; documentFile := documentFile u;
                         loading := b; status := status u; error := error u;
                         onCompleteScheduled := onCompleteScheduled u |}).

Definition setStatus (s : Status) : Async State unit :=
  modify_ui (fun u => {| voiceFile := voiceFile u; documentFile := documentFile u;
                         loading := loading u; status := s; error := error u;
                         onCompleteScheduled := onCompleteScheduled u |}).

Definition setVoiceFile (f : option File) : Async State unit :=
  modify_ui (fun u => {| voiceFile := f; documentFile := documentFile u;
                         loading := loading u; status := status u; error := error u;
                         onCompleteScheduled := onCompleteScheduled u |}).

Definition setDocumentFile (f : option File) : Async State unit :=
  modify_ui (fun u => {| voiceFile := voiceFile u; documentFile := f;
                         loading := loading u; status := status u; error := error u;
                         onCompleteScheduled := onCompleteScheduled u |}).

(** [setTimeout(() => onComplete(), 1500)] *)
Definition scheduleOnComplete : Async State unit :=
  modify_ui (fun u => {| voiceFile := voiceFile u; documentFile := documentFile u;
                         loading := loading u; status := status u; error := error u;
                         onCompleteScheduled := true |}).

(** [ref(storage, `voice-recordings/${Date.now()}_${voiceFile.name}`)] *)
Definition voiceRef (now : Z) (voiceFile : File) : string :=
  "voice-recordings/" ++ show_Z now ++ "_" ++ file_name voiceFile.

(** [ref(storage, `documents/${Date.now()}_${documentFile.name}`)] *)
Definition docRef (now : Z) (documentFile : File) : string :=
  "documents/" ++ show_Z now ++ "_" ++ file_name documentFile.

(** Steps 1 to 6 of [handleSubmit], the body of its [try] block. *)
Definition submitSteps (sv : Services) (now : Z) (language : string) (child : Child)
  (currentUser : User) (voiceFile : File) (documentFile : option File)
  (onComplete : bool) : Async State unit :=
  (* Step 1: upload voice recording *)
  setStatus UploadingVoice ;;
  uploadBytes sv (voiceRef now voiceFile) voiceFile ;;
  voiceUrl <- getDownloadURL sv (voiceRef now voiceFile) ;;
  (* Step 2: transcribe audio *)
  setStatus Transcribing ;;
  transcription <- await (OpenAI.transcribeAudio sv voiceFile) ;;
  (* Step 3: summarize *)
  setStatus Summarizing ;;
  summary <- await (OpenAI.summarizeTreatmentPlan sv transcription language) ;;
  (* Step 4: video suggestions for the tasks *)
  setStatus GeneratingSuggestions ;;
  st <- summary_dailyTasks summary ;;
  dailyTasksWithSuggestions <- await (enrichTasks sv now language (snd st)) ;;
  (* Step 5: upload document if provided *)
  documentUrl <-
    match documentFile with
    | Some doc =>
        setStatus UploadingDocument ;;
        uploadBytes sv (docRef now doc) doc ;;
        getDownloadURL sv (docRef now doc)
    | None => ret ""
    end ;;
  (* Step 6: save to Firestore *)
  setStatus Saving ;;
  addDoc sv {| plan_childId := child_id child;
               plan_therapistId := uid currentUser;
               plan_voiceRecordingUrl := voiceUrl;
               plan_transcription := transcription;
               plan_documentUrl := documentUrl;
               plan_summary := sum_summary (fst st);
               plan_therapyType := None;
               plan_weeklyGoals := sum_weeklyGoals (fst st);
               plan_dailyTasks := dailyTasksWithSuggestions;
               plan_createdAt := now;
               plan_updatedAt := now |} ;;
  setStatus Created ;;
  setVoiceFile None ;;
  setDocumentFile None ;;
  if onComplete then scheduleOnComplete else ret tt.

Definition handleSubmit (sv : Services) (now : Z) (language : string) (child : Child)
  (currentUser : option User) (onComplete : bool) : Async State unit :=
  fun w =>
    match currentUser, voiceFile (ui w) with
    | Some user, Some voice =>
        (setError "" ;;
         setLoading true ;;
         try_finally
           (try_catch
              (submitSteps sv now language child user voice (documentFile (ui w)) onComplete)
              (fun message => setError (or_else message "Failed to create treatment plan")))
           (setLoading false)) w
    | _, _ => (Ok tt, w)
    end.

End TreatmentPlanForm.

(** ** [src/components/Therapist/VoiceRecorder.tsx] *)

Module VoiceRecorder.

Inductive Mode : Type := RecordMode | UploadMode.

Record Blob := { blob_type : string }.

Record State := {
  mode : Mode;
  audioBlob : option Blob;
  uploadedFile : option File;
  documentFile : option File;
  processing : bool;
  status : Status;
  error : string;
  onCompleteScheduled : bool
}.

Definition setError (e : string) : Async State unit :=
  modify_ui (fun u => {| mode := mode u; audioBlob := audioBlob u;
                         uploadedFile := uploadedFile u; documentFile := documentFile u;
                         processing := processing u; status := status u; error := e;
                         onCompleteScheduled := onCompleteScheduled u |}).

Definition setProcessing (b : bool) : Async State unit :=
  modify_ui (fun u => {| mode := mode u; audioBlob := audioBlob u;
                         uploadedFile := uploadedFile u; documentFile := documentFile u;
                         processing := b; status := status u; error := error u;
                         onCompleteScheduled := onCompleteScheduled u |}).

Definition setStatus (s : Status) : Async State unit :=
  modify_ui (fun u => {| mode := mode u; audioBlob := audioBlob u;
                         uploadedFile := uploadedFile u; documentFile := documentFile u;
                         processing := processing u; status := s; error := error u;
                         onCompleteScheduled := onCompleteScheduled u |}).

(** [setTimeout(() => onComplete(child), 1500)] *)
Definition scheduleOnComplete : Async State unit :=
  modify_ui (fun u => {| mode := mode u; audioBlob := audioBlob u;
                         uploadedFile := uploadedFile u; documentFile := documentFile u;
                         processing := processing u; status := status u; error := error u;
                         onCompleteScheduled := true |}).

(** [mode === 'upload' ? uploadedFile : audioBlob], then the conversion of
    a recorded blob to a file named [recording.webm]. *)
Definition fileToProcess (u : State) : option File :=
  match mode u with
  | UploadMode => uploadedFile u
  | RecordMode =>
      match audioBlob u with
      | Some _ => Some {| file_name := "recording.webm" |}
      | None => None
      end
  end.

(** [ref(storage, `voice-recordings/${Date.now()}_${child.id}_${fileName}`)] *)
Definition voiceRef (now : Z) (child : Child) (audioFile : File) : string :=
  "voice-recordings/" ++ show_Z now ++ "_" ++ child_id child ++ "_" ++ file_name audioFile.

(** [ref(storage, `documents/${Date.now()}_${child.id}_${documentFile.name}`)] *)
Definition docRef (now : Z) (child : Child) (documentFile : File) : string :=
  "documents/" ++ show_Z now ++ "_" ++ child_id child ++ "_" ++ file_name documentFile.

(** Steps 1 to 6 of [handleSubmit], the body of its [try] block. *)
Definition submitSteps (sv : Services) (now : Z) (language : string) (child : Child)
  (currentUser : User) (audioFile : File) (documentFile : option File)
  : Async State unit :=
  (* Step 1: upload voice recording *)
  setStatus UploadingVoice ;;
  uploadBytes sv (voiceRef now child audioFile) audioFile ;;
  voiceUrl <- getDownloadURL sv (voiceRef now child audioFile) ;;
  (* Step 2: transcribe audio *)
  setStatus Transcribing ;;
  transcription <- await (OpenAI.transcribeAudio sv audioFile) ;;
  (* Step 3: summarize *)
  setStatus Summarizing ;;
  summary <- await (OpenAI.summarizeTreatmentPlan sv transcription language) ;;
  (* Step 4: video suggestions; the language argument is left to its default *)
  setStatus GeneratingSuggestions ;;
  st <- summary_dailyTasks summary ;;
  dailyTasksWithSuggestions <- await (enrichTasks sv now "en" (snd st)) ;;
  (* Step 5: upload document if provided *)
  documentUrl <-
    match documentFile with
    | Some doc =>
        setStatus UploadingDocument ;;
        uploadBytes sv (docRef now child doc) doc ;;
        getDownloadURL sv (docRef now child doc)
    | None => ret ""
    end ;;
  (* Step 6: save to Firestore *)
  setStatus Saving ;;
  addDoc sv {| plan_childId := child_id child;
               plan_therapistId := uid currentUser;
               plan_voiceRecordingUrl := voiceUrl;
               plan_transcription := transcription;
               plan_documentUrl := documentUrl;
               plan_summary := sum_summary (fst st);
               plan_therapyType := Some (opt_or_else (sum_therapyType (fst st)) "behavior");
               plan_weeklyGoals := sum_weeklyGoals (fst st);
               plan_dailyTasks := dailyTasksWithSuggestions;
               plan_createdAt := now;
               plan_updatedAt := now |} ;;
  setStatus Created ;;
  scheduleOnComplete.

Definition handleSubmit (sv : Services) (now : Z) (language : string) (child : Child)
  (currentUser : option User) : Async State unit :=
  fun w =>
    match currentUser, fileToProcess (ui w) with
    | Some user, Some audioFile =>
        (setError "" ;;
         setProcessing true ;;
         try_catch
           (submitSteps sv now language child user audioFile (documentFile (ui w)))
           (fun message =>
              setError (or_else message "Failed to process recording") ;;
              setProcessing false)) w
    | _, _ => (Ok tt, w)
    end.

End VoiceRecorder.

(** ** The [children] collection *)

(** What Firestore decides for the [children] collection: whether a query
    reaches the server, whether the deployed security rules let a user update
    or create a document, and the id given to a new document. *)
Record ChildrenStore := {
  getDocs_outcome : result unit;
  allow_update : User -> Child -> bool;
  allow_create : User -> bool;
  auto_id : string
}.

(** [await getDocs(query(collection(db, 'children'), where(...)))] *)
Definition getChildren {U} (fs : ChildrenStore) (p : Child -> bool) : Async U (list Child) :=
  fun w =>
    match getDocs_outcome fs with
    | Ok _ => (Ok (filter p (children w)), w)
    | Thrown e => (Thrown e, w)
    end.

(** [await updateDoc(doc(db, 'children', id), fields)] *)
Definition updateChild {U} (fs : ChildrenStore) (user : User) (id : string)
  (fields : Child -> Child) : Async U unit :=
  fun w =>
    match find (fun d => String.eqb (child_id d) id) (children w) with
    | None => (Thrown "No document to update", w)
    | Some d =>
        if allow_update fs user d then
          (Ok tt,
           {| plans := plans w; objects := objects w;
              children := map (fun c => if String.eqb (child_id c) id then fields c else c)
                              (children w);
              ui := ui w |})
        else (Thrown "Missing or insufficient permissions.", w)
    end.

(** [await addDoc(collection(db, 'children'), data)] *)
Definition addChild {U} (fs : ChildrenStore) (user : User) (data : string -> Child)
  : Async U unit :=
  fun w =>
    if allow_create fs user then
      (Ok tt,
       {| plans := plans w; objects := objects w;
          children := children w ++ [data (auto_id fs)]; ui := ui w |})
    else (Thrown "Missing or insufficient permissions.", w).

(** ** [src/components/Parent/ParentProfile.tsx] *)

Module ParentProfile.

Record State := {
  childrenList : list Child;
  showAddChild : bool;
  childName : string;
  nationalId : string;
  loading : bool;
  error : string
}.

Definition setChildren (l : list Child) : Async State unit :=
  modify_ui (fun u => {| childrenList := l; showAddChild := showAddChild u;
                         childName := childName u; nationalId := nationalId u;
                         loading := loading u; error := error u |}).

Definition setShowAddChild (b : bool) : Async State unit :=
  modify_ui (fun u => {| childrenList := childrenList u; showAddChild := b;
                         childName := childName u; nationalId := nationalId u;
                         loading := loading u; error := error u |}).

Definition setChildName (n : string) : Async State unit :=
  modify_ui (fun u => {| childrenList := childrenList u; showAddChild := showAddChild u;
                         childName := n; nationalId := nationalId u;
                         loading := loading u; error := error u |}).

Definition setNationalId (n : string) : Async State unit :=
  modify_ui (fun u => {| childrenList := childrenList u; showAddChild := showAddChild u;
                         childName := childName u; nationalId := n;
                         loading := loading u; error := error u |}).

Definition setLoading (b : bool) : Async State unit :=
  modify_ui (fun u => {| childrenList := childrenList u; showAddChild := showAddChild u;
                         childName := childName u; nationalId := nationalId u;
                         loading := b; error := error u |}).

Definition setError (e : string) : Async State unit :=
  modify_ui (fun u => {| childrenList := childrenList u; showAddChild := showAddChild u;
                         childName := childName u; nationalId := nationalId u;
                         loading := loading u; error := e |}).

(** Errors of the query are logged and swallowed. *)
Definition loadChildren (fs : ChildrenStore) (currentUser : option User) : Async State unit :=
  match currentUser with
  | None => ret tt
  | Some user =>
      try_catch
        (childrenData <- getChildren fs (fun d => String.eqb (child_parentId d) (uid user)) ;;
         setChildren childrenData)
        (fun _ => ret tt)
  end.

Definition handleAddChild (fs : ChildrenStore) (currentUser : option User)
  : Async State unit :=
  fun w =>
    match currentUser with
    | None => (Ok tt, w)
    | Some user =>
        let childName := childName (ui w) in
        let nationalId := nationalId (ui w) in
        let linked :=
          setChildName "" ;;
          setNationalId "" ;;
          setShowAddChild false ;;
          loadChildren fs currentUser in
        (setError "" ;;
         setLoading true ;;
         try_finally
           (try_catch
              (* first, search for an existing child with this National ID *)
              (querySnapshot <-
                 getChildren fs (fun d => String.eqb (child_nationalId d) nationalId) ;;
               match querySnapshot with
               | childData :: _ =>
                   (* child exists (created by therapist), link it to this parent *)
                   if negb (String.eqb (child_parentId childData) "")
                      && negb (String.eqb (child_parentId childData) (uid user))
                   then
                     setError "This child is already linked to another parent account" ;;
                     setLoading false
                   else
                     updateChild fs user (child_id childData)
                       (fun c => {| child_id := child_id c;
                                    child_nationalId := child_nationalId c;
                                    child_name := childName;
                                    child_parentId := uid user;
                                    child_therapistId := child_therapistId c |}) ;;
                     linked
               | [] =>
                   (* child doesn't exist yet, create new record *)
                   addChild fs user
                     (fun id => {| child_id := id;
                                   child_nationalId := nationalId;
                                   child_name := childName;
                                   child_parentId := uid user;
                                   child_therapistId := None |}) ;;
                   linked
               end)
              (fun message => setError (or_else message "Failed to add child")))
           (setLoading false)) w
    end.

End ParentProfile.

(** ** [src/components/Therapist/PatientList.tsx] *)

Module PatientList.

Record State := {
  searchResults : list Child;
  searchNationalId : string;
  showSearchForm : bool;
  searching : bool;
  error : string;
  alerts : list string;
  refreshes : nat
}.

Definition setSearchResults (l : list Child) : Async State unit :=
  modify_ui (fun u => {| searchResults := l; searchNationalId := searchNationalId u;
                         showSearchForm := showSearchForm u; searching := searching u;
                         error := error u; alerts := alerts u; refreshes := refreshes u |}).

Definition setSearchNationalId (n : string) : Async State unit :=
  modify_ui (fun u => {| searchResults := searchResults u; searchNationalId := n;
                         showSearchForm := showSearchForm u; searching := searching u;
                         error := error u; alerts := alerts u; refreshes := refreshes u |}).

Definition setShowSearchForm (b : bool) : Async State unit :=
  modify_ui (fun u => {| searchResults := searchResults u;
                         searchNationalId := searchNationalId u;
                         showSearchForm := b; searching := searching u;
                         error := error u; alerts := alerts u; refreshes := refreshes u |}).


Definition setError (e : string) : Async State unit :=
  modify_ui (fun u => {| searchResults := searchResults u;
                         searchNationalId := searchNationalId u;
                         showSearchForm := showSearchForm u; searching := searching u;
                         error := e; alerts := alerts u; refreshes := refreshes u |}).

Definition alert (message : string) : Async State unit :=
  modify_ui (fun u => {| searchResults := searchResults u;
                         searchNationalId := searchNationalId u;
                         showSearchForm := showSearchForm u; searching := searching u;
                         error := error u; alerts := alerts u ++ [message];
                         refreshes := refreshes u |}).

Definition onRefresh : Async State unit :=
  modify_ui (fun u => {| searchResults := searchResults u;
                         searchNationalId := searchNationalId u;
                         showSearchForm := showSearchForm u; searching := searching u;
                         error := error u; alerts := alerts u;
                         refreshes := S (refreshes u) |}).



Definition handleAssignToMe (fs : ChildrenStore) (currentUser : option User) (child : Child)
  : Async State unit :=
  match currentUser with
  | None => ret tt
  | Some user =>
      try_catch
        (updateChild fs user (child_id child)
           (fun c => {| child_id := child_id c;
                        child_nationalId := child_nationalId c;
                        child_name := child_name c;
                        child_parentId := child_parentId c;
                        child_therapistId := Some (uid user) |}) ;;
         alert (child_name child ++ " has been added to your patient list!") ;;
         setSearchResults [] ;;
         setSearchNationalId "" ;;
         setShowSearchForm false ;;
         onRefresh)
        (fun message => alert ("Failed to assign patient: " ++ message))
  end.

End PatientList.

(** ** Weekly goals in both formats
    ([src/components/Parent/DailyTasks.tsx],
     [src/components/Therapist/TreatmentPlanView.tsx]) *)

Module WeeklyGoals.

(** What the views keep of one entry of [weeklyGoals]. *)
Record Normalized := {
  goalText : string;
  category : Category
}.

(** [typeof goal === 'object' && 'goal' in goal] *)
Definition isNewFormat (goal : WeeklyGoalEntry) : bool :=
  match goal with
  | GoalObject _ _ => true
  | GoalString _ => false
  end.

(** The body of the callback of [treatmentPlan.weeklyGoals.map], the same
    in both views:
    [goalText = isNewFormat ? goal.goal : goal],
    [category = isNewFormat ? goal.category : null]. *)
Definition normalizeGoal (goal : WeeklyGoalEntry) : Normalized :=
  match goal with
  | GoalObject g c => {| goalText := g; category := c |}
  | GoalString text => {| goalText := text; category := CatNull |}
  end.

Definition normalize (weeklyGoals : list WeeklyGoalEntry) : list Normalized :=
  map normalizeGoal weeklyGoals.

(** A normalized entry is itself an entry in the new format. *)
Definition tagged (n : Normalized) : WeeklyGoalEntry :=
  GoalObject (goalText n) (category n).

(** The goal tag of a task card in [DailyTasks]:
    [weeklyGoals[task.weeklyGoalIndex]], [undefined] outside the array. *)
Definition goalOfTask (weeklyGoals : list WeeklyGoalEntry) (index : Z) : option string :=
  if (index <? 0)%Z then None
  else option_map (fun g => goalText (normalizeGoal g)) (nth_error weeklyGoals (Z.to_nat index)).

End WeeklyGoals.

(** ** [src/utils/progressData.ts] *)

Module ProgressData.

Inductive Feedback : Type := easy | struggled | needs_practice.
Inductive Mood : Type := happy | neutral | frustrated.

(** A record of [therapySessions] as the analytics code reads it.
    [completedAt] is the time value of [new Date(s.completedAt)]: [None]
    when the field is absent or does not convert to a valid date. *)
Record Session := {
  session_id : string;
  childId : string;
  taskId : string;
  parentId : string;
  completed : bool;
  feedback : option Feedback;
  childMood : option Mood;
  notes : string;
  completedAt : option Z;
  createdAt : option Z
}.

Record WeeklySummary := {
  weekStart : Z;
  weekEnd : Z;
  tasksCompleted : nat;
  totalTasks : nat;
  completionRate : Z;
  engagementRate : Z
}.

(** *** Numbers, dates and randomness *)

Definition Qltb (x y : Q) : bool := negb (Qle_bool y x).

(** [Math.round]: the nearest integer, halves rounded up. *)
Definition Math_round (x : Q) : Z := Qfloor (x + 0.5).

Definition msPerDay : Z := 86400000.

(** [d.setDate(d.getDate() + n)]: [n] calendar days later at the same local
    time, taken as [n] times 24 hours. *)
Definition addDays (d : Z) (n : Z) : Z := (d + n * msPerDay)%Z.

(** A computation that calls [Math.random]: it reads the stream of draws
    from a position and returns the next position. *)
Definition Rand (A : Type) : Type := (nat -> Q) -> nat -> A * nat.

Definition rret {A} (a : A) : Rand A := fun _ n => (a, n).

Definition rbind {A B} (m : Rand A) (k : A -> Rand B) : Rand B :=
  fun draws n => let (a, n') := m draws n in k a draws n'.

Definition Math_random : Rand Q := fun draws n => (draws n, S n).

Declare Scope rand_scope.
Delimit Scope rand_scope with rand.
Notation "x <- m ;; k" := (rbind m (fun x => k))
  (at level 100, m at next level, right associativity) : rand_scope.
Local Open Scope rand_scope.

(** *** [generateSampleProgressData] *)

(** [dayProgress = i / days] *)
Definition dayProgress (days i : nat) : Q :=
  inject_Z (Z.of_nat i) / inject_Z (Z.of_nat days).

(** [completionChance = 0.5 + (dayProgress * 0.4)] *)
Definition completionChance (days i : nat) : Q :=
  0.5 + (dayProgress days i * 0.4).

Definition sampleFeedback (days i : nat) (rand : Q) : Feedback :=
  if Qltb 0.7 (dayProgress days i) then
    (* later days - mostly easy *)
    if Qltb rand 0.7 then easy else if Qltb rand 0.9 then needs_practice else struggled
  else if Qltb 0.4 (dayProgress days i) then
    (* middle days - mixed *)
    if Qltb rand 0.4 then easy else if Qltb rand 0.7 then needs_practice else struggled
  else
    (* early days - more struggle *)
    if Qltb rand 0.2 then easy else if Qltb rand 0.6 then needs_practice else struggled.

(** Mood correlates with feedback; the second draw of the [needs_practice]
    case is made only when the first one is not below 0.5. *)
Definition sampleMood (fb : Feedback) : Rand Mood :=
  match fb with
  | easy =>
      r <- Math_random ;; rret (if Qltb r 0.8 then happy else neutral)
  | needs_practice =>
      r <- Math_random ;;
      if Qltb r 0.5 then rret neutral
      else (r' <- Math_random ;; rret (if Qltb r' 0.7 then happy else frustrated))
  | struggled =>
      r <- Math_random ;; rret (if Qltb r 0.6 then frustrated else neutral)
  end.

(** One iteration of the loop: the record pushed for index [i]. *)
Definition sampleSession (childId : string) (days : nat) (today : Z) (i : nat)
  : Rand Session :=
  let date := addDays today (- Z.of_nat i) in
  rand <- Math_random ;;
  let fb := sampleFeedback days i rand in
  mood <- sampleMood fb ;;
  c <- Math_random ;;
  rret {| session_id := "session_" ++ childId ++ "_" ++ show_nat i;
          childId := childId;
          taskId := "task_" ++ show_nat (i mod 7);
          parentId := "parent_id";
          completed := Qltb c (completionChance days i);
          feedback := Some fb;
          childMood := Some mood;
          notes := "";
          completedAt := Some date;
          createdAt := Some date |}.

(** [for (let i = ...; i < days; i++) sessions.push(...)], with [n]
    iterations left. *)
Fixpoint sampleLoop (childId : string) (days : nat) (today : Z) (n i : nat)
  (sessions : list Session) : Rand (list Session) :=
  match n with
  | O => rret sessions
  | S n' =>
      s <- sampleSession childId days today i ;;
      sampleLoop childId days today n' (S i) (sessions ++ [s])
  end.

Definition generateSampleProgressData (childId : string) (days : nat) (today : Z)
  : Rand (list Session) :=
  sessions <- sampleLoop childId days today days 0 [] ;;
  rret (rev sessions).

(** *** [generateWeeklySummary] *)

(** [sessionDate >= weekStart && sessionDate <= weekEnd]; a comparison with
    an invalid date is false. *)
Definition inWeek (weekStart weekEnd : Z) (s : Session) : bool :=
  match completedAt s with
  | Some sessionDate => (weekStart <=? sessionDate)%Z && (sessionDate <=? weekEnd)%Z
  | None => false
  end.

(** [total > 0 ? Math.round((completed / total) * 100) : 0] *)
Definition completionRateOf (completed total : nat) : Z :=
  if (0 <? total)%nat then
    Math_round ((inject_Z (Z.of_nat completed) / inject_Z (Z.of_nat total)) * 100)
  else 0%Z.

(** One iteration of the loop: the bucket pushed for [weekIndex]. *)
Definition weekBucket (sessions : list Session) (today : Z) (weekIndex : nat)
  : Rand WeeklySummary :=
  let weekStart := addDays today (- (Z.of_nat weekIndex * 7) - 7) in
  let weekEnd := addDays weekStart 6 in
  let weekSessions := filter (inWeek weekStart weekEnd) sessions in
  let completed := List.length (filter completed weekSessions) in
  let total := List.length weekSessions in
  r <- Math_random ;;
  rret {| weekStart := weekStart;
          weekEnd := weekEnd;
          tasksCompleted := completed;
          totalTasks := total;
          completionRate := completionRateOf completed total;
          engagementRate := Math_round (r * 30 + 70) |}.

(** [for (let weekIndex = ...; weekIndex < 4; weekIndex++) weeks.push(...)],
    with [n] iterations left. *)
Fixpoint weekLoop (sessions : list Session) (today : Z) (n weekIndex : nat)
  (weeks : list WeeklySummary) : Rand (list WeeklySummary) :=
  match n with
  | O => rret weeks
  | S n' =>
      b <- weekBucket sessions today weekIndex ;;
      weekLoop sessions today n' (S weekIndex) (weeks ++ [b])
  end.

Definition generateWeeklySummary (sessions : list Session) (today : Z)
  : Rand (list WeeklySummary) :=
  weeks <- weekLoop sessions today 4 0 [] ;;
  rret (rev weeks).

(** *** [calculateSkillProgress] *)

(** The [switch] on the therapy type. *)
Definition skillNames (therapyType : string) : list string :=
  if String.eqb therapyType "speech" then
    ["Articulation"; "Vocabulary"; "Sentence Formation"; "Comprehension"]
  else if String.eqb therapyType "behavior" then
    ["Following Instructions"; "Social Skills"; "Self-Regulation"; "Task Completion"]
  else if String.eqb therapyType "emotional" then
    ["Emotional Recognition"; "Coping Skills"; "Empathy"; "Self-Awareness"]
  else if String.eqb therapyType "motor" then
    ["Fine Motor"; "Gross Motor"; "Coordination"; "Balance"]
  else ["Skill 1"; "Skill 2"; "Skill 3"; "Skill 4"].

(** [obj[key] = value] on an object, whose keys keep their insertion order. *)
Fixpoint setKey {V} (key : string) (value : V) (obj : list (string * V))
  : list (string * V) :=
  match obj with
  | [] => [(key, value)]
  | (k, v) :: rest =>
      if String.eqb k key then (k, value) :: rest else (k, v) :: setKey key value rest
  end.

(** [baseStart = 40 + (index * 5)] *)
Definition baseStart (index : nat) : Q := 40 + (inject_Z (Z.of_nat index) * 5).

(** One iteration of the inner loop:
    [Math.round(Math.min(100, baseStart + (i * 6) + (Math.random() * 10 - 5)))]. *)
Definition progressPoint (index i : nat) : Rand Z :=
  r <- Math_random ;;
  rret (Math_round (Qmin 100 (baseStart index + (inject_Z (Z.of_nat i) * 6) + (r * 10 - 5)))).

(** [for (let i = ...; i < 8; i++) progressData.push(...)], with [n]
    iterations left. *)
Fixpoint progressLoop (index n i : nat) (progressData : list Z) : Rand (list Z) :=
  match n with
  | O => rret progressData
  | S n' =>
      p <- progressPoint index i ;;
      progressLoop index n' (S i) (progressData ++ [p])
  end.

(** [skillNames.forEach((skillName, index) => { ...; skills[skillName] =
    progressData })] *)
Fixpoint skillsLoop (names : list string) (index : nat) (skills : list (string * list Z))
  : Rand (list (string * list Z)) :=
  match names with
  | [] => rret skills
  | skillName :: rest =>
      progressData <- progressLoop index 8 0 [] ;;
      skillsLoop rest (S index) (setKey skillName progressData skills)
  end.

Definition calculateSkillProgress (therapyType : string) (sessions : list Session)
  : Rand (list (string * list Z)) :=
  skillsLoop (skillNames therapyType) 0 [].

End ProgressData.

(** ** The current plan of a child
    ([DailyTasks.loadTreatmentPlan], [TreatmentPlanView.loadTreatmentPlan],
     [ProgressDashboard.loadProgress]) *)

(** [xs.sort((a, b) => key(b) - key(a))]: descending by [key].
    [Array.prototype.sort] is stable, so elements with equal keys keep their
    order; the stable result is unique, and it is built here by insertion. *)
Fixpoint insertDescending {A} (key : A -> Z) (x : A) (sorted : list A) : list A :=
  match sorted with
  | [] => [x]
  | y :: rest =>
      if (key y <=? key x)%Z then x :: y :: rest
      else y :: insertDescending key x rest
  end.

Definition sortDescending {A} (key : A -> Z) (xs : list A) : list A :=
  fold_right (insertDescending key) [] xs.

(** [query(collection(db, 'treatmentPlans'), where('childId', '==', childId))] *)
Definition plansOfChild (childId : string) (store : list PlanDoc) : list PlanDoc :=
  filter (fun p => String.eqb (plan_childId p) childId) store.

(** The same lines in the three loaders:
    [plans.sort((a, b) => b.createdAt.getTime() - a.createdAt.getTime())]
    and then [plans[0]], for a non-empty query result. *)
Definition latestPlan (docs : list PlanDoc) : option PlanDoc :=
  match docs with
  | [] => None
  | _ => hd_error (sortDescending plan_createdAt docs)
  end.

(** ** [src/components/Parent/ProgressDashboard.tsx] *)

Module ProgressDashboard.

Import ProgressData.

(** [sessionsData.length === 0 ? generateSampleProgressData(childId, 14)
    : sessionsData] in [loadProgress]. *)
Definition sessionsOrSample (sessionsData : list Session) (childId : string) (today : Z)
  : Rand (list Session) :=
  match sessionsData with
  | [] => generateSampleProgressData childId 14 today
  | _ => rret sessionsData
  end.

Definition completedCount (sessions : list Session) : nat :=
  List.length (filter completed sessions).

(** [sessions.length > 0 ? Math.round((completedCount / sessions.length) * 100) : 0] *)
Definition completionRate (sessions : list Session) : Z :=
  completionRateOf (completedCount sessions) (List.length sessions).

(** The state that [loadProgress] writes. *)
Record State := {
  sessions : list Session;
  insights : string;
  loading : bool;
  weeklySummary : list WeeklySummary;
  skillProgress : list (string * list Z);
  therapyType : string
}.

Definition initialState : State :=
  {| sessions := []; insights := ""; loading := false; weeklySummary := [];
     skillProgress := []; therapyType := "behavior" |}.

Definition count {A} (p : A -> bool) (l : list A) : nat := List.length (filter p l).

Definition hasFeedback (f : Feedback) (s : Session) : bool :=
  match feedback s, f with
  | Some easy, easy | Some struggled, struggled | Some needs_practice, needs_practice => true
  | _, _ => false
  end.

Definition hasMood (m : Mood) (s : Session) : bool :=
  match childMood s, m with
  | Some happy, happy | Some neutral, neutral | Some frustrated, frustrated => true
  | _, _ => false
  end.

(** The [progressData] object built for the insights request. *)
Definition progressDataOf (sessionsData : list Session) : OpenAI.ProgressSummary :=
  {| OpenAI.totalSessions := List.length sessionsData;
     OpenAI.completionShare :=
       inject_Z (Z.of_nat (count completed sessionsData))
       / inject_Z (Z.of_nat (List.length sessionsData));
     OpenAI.easySessions := count (hasFeedback easy) sessionsData;
     OpenAI.struggledSessions := count (hasFeedback struggled) sessionsData;
     OpenAI.needsPracticeSessions := count (hasFeedback needs_practice) sessionsData;
     OpenAI.happySessions := count (hasMood happy) sessionsData;
     OpenAI.neutralSessions := count (hasMood neutral) sessionsData;
     OpenAI.frustratedSessions := count (hasMood frustrated) sessionsData |}.

(** [plans[0].therapyType || 'behavior'] after the sort, ['behavior'] when
    the child has no plan. *)
Definition currentTherapyType (docs : list PlanDoc) : string :=
  match latestPlan docs with
  | Some plan => opt_or_else (plan_therapyType plan) "behavior"
  | None => "behavior"
  end.

(** [loadProgress(childId)].  [plansQuery] and [sessionsQuery] are the
    outcomes of the two [getDocs] calls, [client] the chat client behind
    [generateProgressInsights]; the generator and the weekly summary each
    read the clock.  An exception is logged and swallowed; [loading] is reset
    in the [finally] block.  The result carries the position reached in the
    stream of draws. *)
Definition loadProgress
  (plansQuery sessionsQuery : result unit)
  (client : OpenAI.ProgressSummary -> result (option string))
  (plansStore : list PlanDoc) (sessionsStore : list Session)
  (childId : string) (todaySample todaySummary : Z)
  (draws : nat -> Q) (n : nat) (st : State) : State * nat :=
  let st1 :=
    {| sessions := sessions st; insights := insights st; loading := true;
       weeklySummary := weeklySummary st; skillProgress := skillProgress st;
       therapyType := therapyType st |} in
  let '(st2, n') :=
    match plansQuery with
    | Thrown _ => (st1, n)
    | Ok _ =>
        let docs := plansOfChild childId plansStore in
        let currentTherapyType := currentTherapyType docs in
        let st3 :=
          match docs with
          | [] => st1
          | _ =>
              {| sessions := sessions st1; insights := insights st1; loading := loading st1;
                 weeklySummary := weeklySummary st1; skillProgress := skillProgress st1;
                 therapyType := currentTherapyType |}
          end in
        match sessionsQuery with
        | Thrown _ => (st3, n)
        | Ok _ =>
            let real :=
              filter (fun s => String.eqb (ProgressData.childId s) childId) sessionsStore in
            let '(sessionsData, n1) := sessionsOrSample real childId todaySample draws n in
            let '(weekly, n2) := generateWeeklySummary sessionsData todaySummary draws n1 in
            let '(skills, n3) :=
              calculateSkillProgress currentTherapyType sessionsData draws n2 in
            let st4 :=
              {| sessions := sessionsData; insights := insights st3; loading := loading st3;
                 weeklySummary := weekly; skillProgress := skills;
                 therapyType := therapyType st3 |} in
            if (0 <? List.length sessionsData)%nat then
              match OpenAI.generateProgressInsights client (progressDataOf sessionsData) with
              | Ok aiInsights =>
                  ({| sessions := sessions st4; insights := aiInsights;
                      loading := loading st4; weeklySummary := weeklySummary st4;
                      skillProgress := skillProgress st4;
                      therapyType := therapyType st4 |}, n3)
              | Thrown _ => (st4, n3)
              end
            else (st4, n3)
        end
    end in
  ({| sessions := sessions st2; insights := insights st2; loading := false;
      weeklySummary := weeklySummary st2; skillProgress := skillProgress st2;
      therapyType := therapyType st2 |}, n').

End ProgressDashboard.

(** ** [src/components/Parent/DailyTasks.tsx] *)

Module DailyTasks.

Record State := {
  treatmentPlan : option PlanDoc;
  loading : bool
}.

Definition setTreatmentPlan (p : option PlanDoc) : Async State unit :=
  modify_ui (fun u => {| treatmentPlan := p; loading := loading u |}).

Definition setLoading (b : bool) : Async State unit :=
  modify_ui (fun u => {| treatmentPlan := treatmentPlan u; loading := b |}).

(** [await getDocs(query(plansRef, where('childId', '==', childId)))] with
    the outcome [plansQuery] of the request. *)
Definition getPlans {U} (plansQuery : result unit) (childId : string)
  : Async U (list PlanDoc) :=
  fun w =>
    match plansQuery with
    | Ok _ => (Ok (plansOfChild childId (plans w)), w)
    | Thrown e => (Thrown e, w)
    end.

(** [loadTreatmentPlan(childId)]: an exception is logged and swallowed, and
    the plan shown before stays. *)
Definition loadTreatmentPlan (plansQuery : result unit) (childId : string)
  : Async State unit :=
  setLoading true ;;
  try_finally
    (try_catch
       (docs <- getPlans plansQuery childId ;;
        match docs with
        | [] => setTreatmentPlan None
        | _ => setTreatmentPlan (latestPlan docs)
        end)
       (fun _ => ret tt))
    (setLoading false).

End DailyTasks.

(** ** [src/components/Therapist/TreatmentPlanView.tsx] and
       [src/components/Therapist/VideoUpload.tsx] *)

Module TreatmentPlanView.

(** A file chosen in the video input. *)
Record VideoFile := {
  video_name : string;
  video_size : Z;
  video_type : string
}.

(** The plan view, with the upload widget that it renders for one task. *)
Record State := {
  treatmentPlan : option PlanDoc;
  loading : bool;
  sessions : list ProgressData.Session;
  skillProgress : list (string * list Z);
  uploadingVideoFor : option string;
  videoFile : option VideoFile;
  uploading : bool;
  progress : Z;
  alerts : list string
}.

Definition setTreatmentPlan (p : option PlanDoc) (u : State) : State :=
  {| treatmentPlan := p; uploadingVideoFor := uploadingVideoFor u;
     videoFile := videoFile u; uploading := uploading u; progress := progress u;
     alerts := alerts u; loading := loading u; sessions := sessions u;
     skillProgress := skillProgress u |}.

Definition setUploadingVideoFor (id : option string) (u : State) : State :=
  {| treatmentPlan := treatmentPlan u; uploadingVideoFor := id;
     videoFile := videoFile u; uploading := uploading u; progress := progress u;
     alerts := alerts u; loading := loading u; sessions := sessions u;
     skillProgress := skillProgress u |}.

Definition setVideoFile (f : option VideoFile) (u : State) : State :=
  {| treatmentPlan := treatmentPlan u; uploadingVideoFor := uploadingVideoFor u;
     videoFile := f; uploading := uploading u; progress := progress u;
     alerts := alerts u; loading := loading u; sessions := sessions u;
     skillProgress := skillProgress u |}.

Definition setUploading (b : bool) (u : State) : State :=
  {| treatmentPlan := treatmentPlan u; uploadingVideoFor := uploadingVideoFor u;
     videoFile := videoFile u; uploading := b; progress := progress u;
     alerts := alerts u; loading := loading u; sessions := sessions u;
     skillProgress := skillProgress u |}.

Definition setProgress (p : Z) (u : State) : State :=
  {| treatmentPlan := treatmentPlan u; uploadingVideoFor := uploadingVideoFor u;
     videoFile := videoFile u; uploading := uploading u; progress := p;
     alerts := alerts u; loading := loading u; sessions := sessions u;
     skillProgress := skillProgress u |}.

Definition alert (message : string) (u : State) : State :=
  {| treatmentPlan := treatmentPlan u; uploadingVideoFor := uploadingVideoFor u;
     videoFile := videoFile u; uploading := uploading u; progress := progress u;
     alerts := alerts u ++ [message]; loading := loading u; sessions := sessions u;
     skillProgress := skillProgress u |}.

(** [{ ...task, demoVideoUrl: url }] *)
Definition withVideo (url : string) (task : DailyTask) : DailyTask :=
  {| task_id := task_id task; title := title task; description := description task;
     whyItMatters := whyItMatters task; weeklyGoalIndex := weeklyGoalIndex task;
     demoVideoSuggestion := demoVideoSuggestion task; demoVideoUrl := Some url;
     editable := editable task; task_createdAt := task_createdAt task |}.

(** [{ ...treatmentPlan, dailyTasks: updatedTasks }] *)
Definition withTasks (tasks : list DailyTask) (plan : PlanDoc) : PlanDoc :=
  {| plan_childId := plan_childId plan; plan_therapistId := plan_therapistId plan;
     plan_voiceRecordingUrl := plan_voiceRecordingUrl plan;
     plan_transcription := plan_transcription plan;
     plan_documentUrl := plan_documentUrl plan; plan_summary := plan_summary plan;
     plan_therapyType := plan_therapyType plan; plan_weeklyGoals := plan_weeklyGoals plan;
     plan_dailyTasks := tasks; plan_createdAt := plan_createdAt plan;
     plan_updatedAt := plan_updatedAt plan |}.

(** [handleVideoUploaded(taskId, url)] *)
Definition handleVideoUploaded (taskId url : string) (u : State) : State :=
  let u' :=
    match treatmentPlan u with
    | Some plan =>
        let updatedTasks :=
          map (fun task => if String.eqb (task_id task) taskId then withVideo url task else task)
              (plan_dailyTasks plan) in
        setTreatmentPlan (Some (withTasks updatedTasks plan)) u
    | None => u
    end in
  setUploadingVideoFor None u'.

(** [handleFileChange] of the upload widget, on [e.target.files[0]]: at most
    50 MB, and a video type. *)
Definition handleFileChange (chosen : option VideoFile) (u : State) : State :=
  match chosen with
  | Some file =>
      if (50 * 1024 * 1024 <? video_size file)%Z then
        alert "Video file is too large. Maximum size is 50MB." u
      else if negb (String.prefix "video/" (video_type file)) then
        alert "Please select a valid video file." u
      else setVideoFile (Some file) u
  | None => u
  end.

(** [ref(storage, `demo-videos/${Date.now()}_${videoFile.name}`)] *)
Definition videoRef (now : Z) (file : VideoFile) : string :=
  "demo-videos/" ++ show_Z now ++ "_" ++ video_name file.

(** [handleUpload] of the widget rendered for task [taskId], whose
    [onVideoUploaded] is [(url) => handleVideoUploaded(taskId, url)]. *)
Definition handleUpload (sv : Services) (now : Z) (taskId : string) : Async State unit :=
  fun w =>
    match videoFile (ui w) with
    | None => (Ok tt, w)
    | Some file =>
        (modify_ui (setUploading true) ;;
         modify_ui (setProgress 0) ;;
         try_finally
           (try_catch
              (uploadBytes sv (videoRef now file) {| file_name := video_name file |} ;;
               videoUrl <- getDownloadURL sv (videoRef now file) ;;
               modify_ui (setProgress 100) ;;
               modify_ui (handleVideoUploaded taskId videoUrl) ;;
               modify_ui (setVideoFile None) ;;
               modify_ui (alert "Video uploaded successfully!"))
              (fun message => modify_ui (alert ("Failed to upload video: " ++ message))))
           (modify_ui (setUploading false))) w
    end.

Definition setLoading (b : bool) (u : State) : State :=
  {| treatmentPlan := treatmentPlan u; uploadingVideoFor := uploadingVideoFor u;
     videoFile := videoFile u; uploading := uploading u; progress := progress u;
     alerts := alerts u; loading := b; sessions := sessions u;
     skillProgress := skillProgress u |}.

Definition setSessions (l : list ProgressData.Session) (u : State) : State :=
  {| treatmentPlan := treatmentPlan u; uploadingVideoFor := uploadingVideoFor u;
     videoFile := videoFile u; uploading := uploading u; progress := progress u;
     alerts := alerts u; loading := loading u; sessions := l;
     skillProgress := skillProgress u |}.

Definition setSkillProgress (skills : list (string * list Z)) (u : State) : State :=
  {| treatmentPlan := treatmentPlan u; uploadingVideoFor := uploadingVideoFor u;
     videoFile := videoFile u; uploading := uploading u; progress := progress u;
     alerts := alerts u; loading := loading u; sessions := sessions u;
     skillProgress := skills |}.

(** [loadProgressData(childId, therapyType)]: [sessionsQuery] is the outcome
    of its [getDocs]; an exception is logged and swallowed.  The result
    carries the position reached in the stream of draws. *)
Definition loadProgressData (sessionsQuery : result unit)
  (sessionsStore : list ProgressData.Session) (childId therapyType : string)
  (today : Z) (draws : nat -> Q) (n : nat) (u : State) : State * nat :=
  match sessionsQuery with
  | Thrown _ => (u, n)
  | Ok _ =>
      let real :=
        filter (fun s => String.eqb (ProgressData.childId s) childId) sessionsStore in
      let '(sessionsData, n1) :=
        match real with
        | [] => ProgressData.generateSampleProgressData childId 14 today draws n
        | _ => (real, n)
        end in
      let u1 := setSessions sessionsData u in
      let '(skills, n2) :=
        ProgressData.calculateSkillProgress therapyType sessionsData draws n1 in
      (setSkillProgress skills u1, n2)
  end.

(** [loadTreatmentPlan()] for the [child] of the view: [plansQuery] is the
    outcome of its [getDocs]; an exception is logged and swallowed, and
    [loading] is reset in the [finally] block. *)
Definition loadTreatmentPlan (plansQuery sessionsQuery : result unit)
  (plansStore : list PlanDoc) (sessionsStore : list ProgressData.Session)
  (child : Child) (today : Z) (draws : nat -> Q) (n : nat) (u : State) : State * nat :=
  let u1 := setLoading true u in
  let '(u2, n') :=
    match plansQuery with
    | Thrown _ => (u1, n)
    | Ok _ =>
        match latestPlan (plansOfChild (child_id child) plansStore) with
        | Some plan =>
            loadProgressData sessionsQuery sessionsStore (child_id child)
              (opt_or_else (plan_therapyType plan) "behavior") today draws n
              (setTreatmentPlan (Some plan) u1)
        | None => (setTreatmentPlan None u1, n)
        end
    end in
  (setLoading false u2, n').

End TreatmentPlanView.

(** ** The patient search of the therapist
    ([PatientSearch], second component of
     [src/components/Therapist/VoiceRecorder.tsx]; [PatientList] has the same
     three handlers) *)

Module PatientSearch.

Record State := {
  nationalId : string;
  searchResults : list Child;
  loading : bool;
  error : string;
  showAddForm : bool;
  newPatientName : string;
  newPatientId : string;
  addingPatient : bool;
  alerts : list string;
  patientsAdded : nat
}.

Definition setNationalId (v : string) (u : State) : State :=
  {| nationalId := v; searchResults := searchResults u; loading := loading u;
     error := error u; showAddForm := showAddForm u; newPatientName := newPatientName u;
     newPatientId := newPatientId u; addingPatient := addingPatient u;
     alerts := alerts u; patientsAdded := patientsAdded u |}.

Definition setSearchResults (v : list Child) (u : State) : State :=
  {| nationalId := nationalId u; searchResults := v; loading := loading u;
     error := error u; showAddForm := showAddForm u; newPatientName := newPatientName u;
     newPatientId := newPatientId u; addingPatient := addingPatient u;
     alerts := alerts u; patientsAdded := patientsAdded u |}.

Definition setLoading (v : bool) (u : State) : State :=
  {| nationalId := nationalId u; searchResults := searchResults u; loading := v;
     error := error u; showAddForm := showAddForm u; newPatientName := newPatientName u;
     newPatientId := newPatientId u; addingPatient := addingPatient u;
     alerts := alerts u; patientsAdded := patientsAdded u |}.

Definition setError (v : string) (u : State) : State :=
  {| nationalId := nationalId u; searchResults := searchResults u; loading := loading u;
     error := v; showAddForm := showAddForm u; newPatientName := newPatientName u;
     newPatientId := newPatientId u; addingPatient := addingPatient u;
     alerts := alerts u; patientsAdded := patientsAdded u |}.

Definition setShowAddForm (v : bool) (u : State) : State :=
  {| nationalId := nationalId u; searchResults := searchResults u; loading := loading u;
     error := error u; showAddForm := v; newPatientName := newPatientName u;
     newPatientId := newPatientId u; addingPatient := addingPatient u;
     alerts := alerts u; patientsAdded := patientsAdded u |}.

Definition setNewPatientName (v : string) (u : State) : State :=
  {| nationalId := nationalId u; searchResults := searchResults u; loading := loading u;
     error := error u; showAddForm := showAddForm u; newPatientName := v;
     newPatientId := newPatientId u; addingPatient := addingPatient u;
     alerts := alerts u; patientsAdded := patientsAdded u |}.

Definition setNewPatientId (v : string) (u : State) : State :=
  {| nationalId := nationalId u; searchResults := searchResults u; loading := loading u;
     error := error u; showAddForm := showAddForm u; newPatientName := newPatientName u;
     newPatientId := v; addingPatient := addingPatient u;
     alerts := alerts u; patientsAdded := patientsAdded u |}.

Definition setAddingPatient (v : bool) (u : State) : State :=
  {| nationalId := nationalId u; searchResults := searchResults u; loading := loading u;
     error := error u; showAddForm := showAddForm u; newPatientName := newPatientName u;
     newPatientId := newPatientId u; addingPatient := v;
     alerts := alerts u; patientsAdded := patientsAdded u |}.

Definition alert (message : string) (u : State) : State :=
  {| nationalId := nationalId u; searchResults := searchResults u; loading := loading u;
     error := error u; showAddForm := showAddForm u; newPatientName := newPatientName u;
     newPatientId := newPatientId u; addingPatient := addingPatient u;
     alerts := alerts u ++ [message]; patientsAdded := patientsAdded u |}.

(** The callback [onPatientAdded()]. *)
Definition onPatientAdded (u : State) : State :=
  {| nationalId := nationalId u; searchResults := searchResults u; loading := loading u;
     error := error u; showAddForm := showAddForm u; newPatientName := newPatientName u;
     newPatientId := newPatientId u; addingPatient := addingPatient u;
     alerts := alerts u; patientsAdded := S (patientsAdded u) |}.

Definition handleSearch (fs : ChildrenStore) : Async State unit :=
  fun w =>
    let nationalId := nationalId (ui w) in
    (modify_ui (setError "") ;;
     modify_ui (setLoading true) ;;
     modify_ui (setSearchResults []) ;;
     try_finally
       (try_catch
          (results <- getChildren fs (fun d => String.eqb (child_nationalId d) nationalId) ;;
           match results with
           | [] => modify_ui (setError "No patient found with this National ID")
           | _ => modify_ui (setSearchResults results)
           end)
          (fun message => modify_ui (setError (or_else message "Error searching for patient"))))
       (modify_ui (setLoading false))) w.

Definition handleAssignToMe (fs : ChildrenStore) (currentUser : option User) (child : Child)
  : Async State unit :=
  match currentUser with
  | None => ret tt
  | Some user =>
      try_catch
        (updateChild fs user (child_id child)
           (fun c => {| child_id := child_id c;
                        child_nationalId := child_nationalId c;
                        child_name := child_name c;
                        child_parentId := child_parentId c;
                        child_therapistId := Some (uid user) |}) ;;
         modify_ui (alert (child_name child ++ " has been added to your patient list!")) ;;
         modify_ui (setSearchResults []) ;;
         modify_ui (setNationalId "") ;;
         modify_ui onPatientAdded)
        (fun message => modify_ui (alert ("Failed to assign patient: " ++ message)))
  end.

Definition handleAddNewPatient (fs : ChildrenStore) (currentUser : option User)
  : Async State unit :=
  fun w =>
    match currentUser with
    | None => (Ok tt, w)
    | Some user =>
        let newPatientName := newPatientName (ui w) in
        let newPatientId := newPatientId (ui w) in
        (modify_ui (setError "") ;;
         modify_ui (setAddingPatient true) ;;
         try_finally
           (try_catch
              (* check if a patient with this ID already exists *)
              (querySnapshot <-
                 getChildren fs (fun d => String.eqb (child_nationalId d) newPatientId) ;;
               match querySnapshot with
               | _ :: _ =>
                   modify_ui (setError "A patient with this National ID already exists") ;;
                   modify_ui (setAddingPatient false)
               | [] =>
                   (* create new patient *)
                   addChild fs user
                     (fun id => {| child_id := id;
                                   child_nationalId := newPatientId;
                                   child_name := newPatientName;
                                   child_parentId := "";
                                   child_therapistId := Some (uid user) |}) ;;
                   modify_ui (alert ("Patient " ++ newPatientName ++ " added successfully!")) ;;
                   modify_ui (setNewPatientName "") ;;
                   modify_ui (setNewPatientId "") ;;
                   modify_ui (setShowAddForm false) ;;
                   modify_ui onPatientAdded
               end)
              (fun message => modify_ui (setError (or_else message "Failed to add patient"))))
           (modify_ui (setAddingPatient false))) w
    end.

End PatientSearch.

(** ** [TherapistDashboard] (second component of
       [src/components/Therapist/TreatmentPlanForm.tsx]) *)

Module TherapistDashboard.

Record State := {
  myPatients : list Child;
  loading : bool
}.

(** [loadMyPatients]: an exception is logged and swallowed. *)
Definition loadMyPatients (fs : ChildrenStore) (currentUser : option User)
  : Async State unit :=
  match currentUser with
  | None => ret tt
  | Some user =>
      modify_ui (fun u => {| myPatients := myPatients u; loading := true |}) ;;
      try_finally
        (try_catch
           (patients <-
              getChildren fs (fun d =>
                match child_therapistId d with
                | Some t => String.eqb t (uid user)
                | None => false
                end) ;;
            modify_ui (fun u => {| myPatients := patients; loading := loading u |}))
           (fun _ => ret tt))
        (modify_ui (fun u => {| myPatients := myPatients u; loading := false |}))
  end.

End TherapistDashboard.

(** ** [FeedbackForm] (second component of
       [src/components/Parent/ProgressDashboard.tsx]) *)

Module FeedbackForm.

(** A document of [therapySessions] as the form writes it; the empty choice
    [''] of the two radio groups is [None]. *)
Record FeedbackDoc := {
  fb_childId : string;
  fb_parentId : string;
  fb_taskDescription : string;
  fb_feedback : option ProgressData.Feedback;
  fb_childMood : option ProgressData.Mood;
  fb_notes : string;
  fb_completed : bool;
  fb_completedAt : Z;
  fb_createdAt : Z
}.

Record State := {
  selectedChild : option Child;
  taskDescription : string;
  feedback : option ProgressData.Feedback;
  childMood : option ProgressData.Mood;
  notes : string;
  loading : bool;
  success : bool;
  alerts : list string
}.

(** [handleSubmit]: [accepts] is the outcome of [addDoc]; the result is the
    collection and the form afterwards. *)
Definition handleSubmit (accepts : FeedbackDoc -> result unit) (now : Z)
  (currentUser : option User) (store : list FeedbackDoc) (u : State)
  : list FeedbackDoc * State :=
  match currentUser, selectedChild u with
  | Some user, Some child =>
      let doc :=
        {| fb_childId := child_id child;
           fb_parentId := uid user;
           fb_taskDescription := taskDescription u;
           fb_feedback := feedback u;
           fb_childMood := childMood u;
           fb_notes := notes u;
           fb_completed := true;
           fb_completedAt := now;
           fb_createdAt := now |} in
      match accepts doc with
      | Ok _ =>
          ((store ++ [doc])%list,
           {| selectedChild := selectedChild u; taskDescription := ""; feedback := None;
              childMood := None; notes := ""; loading := false; success := true;
              alerts := alerts u |})
      | Thrown _ =>
          (store,
           {| selectedChild := selectedChild u; taskDescription := taskDescription u;
              feedback := feedback u; childMood := childMood u; notes := notes u;
              loading := false; success := false;
              alerts := (alerts u ++ ["Failed to submit feedback"])%list |})
      end
  | _, _ => (store, u)
  end.

(** What the dashboards read of a stored document ([doc.data() as
    SessionData]: [completed], [feedback], [childMood], [completedAt]);
    [toDate] is the time value that [new Date(s.completedAt)] gives for the
    stored timestamp.  The fields of a session that the analytics never read
    are left empty. *)
Definition asSession (toDate : Z -> option Z) (d : FeedbackDoc) : ProgressData.Session :=
  {| ProgressData.session_id := "";
     ProgressData.childId := fb_childId d;
     ProgressData.taskId := "";
     ProgressData.parentId := fb_parentId d;
     ProgressData.completed := fb_completed d;
     ProgressData.feedback := fb_feedback d;
     ProgressData.childMood := fb_childMood d;
     ProgressData.notes := fb_notes d;
     ProgressData.completedAt := toDate (fb_completedAt d);
     ProgressData.createdAt := toDate (fb_createdAt d) |}.

End FeedbackForm.

(** ** [src/components/Therapist/TherapistFeedback.tsx] *)

Module TherapistFeedback.

(** An entry of the feedback list. *)
Record FeedbackSession := {
  fs_id : string;
  fs_childId : string;
  fs_childName : string;
  fs_taskDescription : string;
  fs_feedback : option ProgressData.Feedback;
  fs_childMood : option ProgressData.Mood;
  fs_notes : string;
  fs_completedAt : Z
}.

Record State := {
  feedbackList : list FeedbackSession;
  loading : bool
}.





End TherapistFeedback.

(** ** The assistant ([Chatbot]) *)

Module Chatbot.

(** The [userContext] object. *)
Record PlanContext := {
  ctx_childId : string;
  ctx_weeklyGoals : list WeeklyGoalEntry;
  ctx_dailyTasks : list (string * string * string)
}.

Record UserContext := {
  ctx_userName : string;
  ctx_role : string;
  ctx_children : list (string * string);
  ctx_treatmentPlans : list PlanContext
}.

Record State := {
  messages : list OpenAI.ChatMessage;
  input : string;
  loading : bool;
  userContext : option UserContext
}.

Definition getInitialMessage (language : string) : string :=
  if String.eqb language "ar" then
    "مرحباً! أنا مساعدك العلاجي. يمكنني مساعدتك في مهام اليوم والإجابة على الأسئلة وتقديم التشجيع. كيف يمكنني مساعدتك اليوم؟"
  else
    "Hi! I'm your therapy assistant. I can help you with today's tasks, answer questions, and provide encouragement. How can I help you today?".

(** The effect that runs when the language changes. *)
Definition resetMessages (language : string) (u : State) : State :=
  {| messages := [{| OpenAI.role := OpenAI.assistant;
                     OpenAI.content := getInitialMessage language |}];
     input := input u; loading := loading u; userContext := userContext u |}.

(** [for (const child of children) { await getDocs(...); forEach(push) }]:
    [plansQuery] is the outcome of the query for a child id. *)
Fixpoint loadPlans (plansQuery : string -> result unit) (plansStore : list PlanDoc)
  (children : list Child) (treatmentPlans : list PlanDoc) : result (list PlanDoc) :=
  match children with
  | [] => Ok treatmentPlans
  | child :: rest =>
      match plansQuery (child_id child) with
      | Ok _ =>
          loadPlans plansQuery plansStore rest
            (treatmentPlans ++ plansOfChild (child_id child) plansStore)
      | Thrown e => Thrown e
      end
  end.

Definition planContextOf (tp : PlanDoc) : PlanContext :=
  {| ctx_childId := plan_childId tp;
     ctx_weeklyGoals := plan_weeklyGoals tp;
     ctx_dailyTasks :=
       map (fun t => (title t, description t, whyItMatters t)) (plan_dailyTasks tp) |}.

(** [loadUserContext]: [userName] and [userRole] are [currentUser.name] and
    [currentUser.role]; an exception is logged and swallowed. *)
Definition loadUserContext (childrenQuery : result unit) (plansQuery : string -> result unit)
  (currentUser : option User) (userName userRole : string)
  (childrenStore : list Child) (plansStore : list PlanDoc) (u : State) : State :=
  match currentUser with
  | None => u
  | Some user =>
      match childrenQuery with
      | Thrown _ => u
      | Ok _ =>
          let children :=
            filter (fun d => String.eqb (child_parentId d) (uid user)) childrenStore in
          match loadPlans plansQuery plansStore children [] with
          | Thrown _ => u
          | Ok treatmentPlans =>
              {| messages := messages u; input := input u; loading := loading u;
                 userContext :=
                   Some {| ctx_userName := userName;
                           ctx_role := userRole;
                           ctx_children :=
                             map (fun c => (child_name c, child_id c)) children;
                           ctx_treatmentPlans := map planContextOf treatmentPlans |} |}
          end
      end
  end.

(** [handleSend]: [trim] is [String.prototype.trim] and [client] the chat
    client behind [chatWithAssistant]. *)
Definition handleSend (trim : string -> string)
  (client : OpenAI.ChatTurn (option UserContext) -> result (option string))
  (language : string) (u : State) : State :=
  if String.eqb (trim (input u)) "" || loading u then u
  else
    let userMessage := {| OpenAI.role := OpenAI.user; OpenAI.content := input u |} in
    let u1 :=
      {| messages := messages u ++ [userMessage]; input := ""; loading := true;
         userContext := userContext u |} in
    let u2 :=
      match OpenAI.chatWithAssistant client (messages u ++ [userMessage]) (userContext u)
              language with
      | Ok response =>
          {| messages :=
               messages u1 ++ [{| OpenAI.role := OpenAI.assistant;
                                  OpenAI.content := response |}];
             input := input u1; loading := loading u1; userContext := userContext u1 |}
      | Thrown _ =>
          {| messages :=
               messages u1
               ++ [{| OpenAI.role := OpenAI.assistant;
                      OpenAI.content :=
                        if String.eqb language "ar" then
                          "عذراً، حدث خطأ. يرجى المحاولة مرة أخرى."
                        else "I'm sorry, I encountered an error. Please try again." |}];
             input := input u1; loading := loading u1; userContext := userContext u1 |}
      end in
    {| messages := messages u2; input := input u2; loading := false;
       userContext := userContext u2 |}.

End Chatbot.

(** ** Predicates used to state the properties *)

Definition is_thrown {A} (r : result A) : bool :=
  match r with
  | Ok _ => false
  | Thrown _ => true
  end.

(** One of the required stages fails: the upload of the recording (or the
    request for its URL), the transcription, or the summarization. *)
Definition requiredStageFails (sv : Services) (voicePath : string) (voice : File)
  (language : string) : bool :=
  is_thrown (storage_uploadBytes sv voicePath voice)
  || is_thrown (storage_getDownloadURL sv voicePath)
  || match OpenAI.transcribeAudio sv voice with
     | Ok transcription => is_thrown (OpenAI.summarizeTreatmentPlan sv transcription language)
     | Thrown _ => true
     end.


(** [0 <= index < weeklyGoals.length] *)
Definition goalIndexInRange (weeklyGoals : list WeeklyGoalEntry) (index : Z) : bool :=
  (0 <=? index)%Z && (index <? Z.of_nat (List.length weeklyGoals))%Z.

Definition planInRange (doc : PlanDoc) : bool :=
  forallb (fun t => goalIndexInRange (plan_weeklyGoals doc) (weeklyGoalIndex t))
          (plan_dailyTasks doc).

(** What iteration [i] of the generator's loop pushes: a record dated [i]
    days before [today], completed exactly when one of the draws is below
    [completionChance]. *)
Definition pushedAt (days : nat) (today : Z) (draws : nat -> Q) (i : nat)
  (s : ProgressData.Session) : Prop :=
  ProgressData.completedAt s = Some (ProgressData.addDays today (- Z.of_nat i))
  /\ exists m,
       ProgressData.completed s
       = ProgressData.Qltb (draws m) (ProgressData.completionChance days i).

(** The objects that a run of the form, or of the recorder, can leave in the
    bucket: the recording first, then the document if there is one. *)
Definition formUploads (now : Z) (voice : File) (document : option File) : list string :=
  TreatmentPlanForm.voiceRef now voice ::
  match document with
  | Some d => [TreatmentPlanForm.docRef now d]
  | None => []
  end.

Definition recorderUploads (now : Z) (child : Child) (voice : File) (document : option File)
  : list string :=
  VoiceRecorder.voiceRef now child voice ::
  match document with
  | Some d => [VoiceRecorder.docRef now child d]
  | None => []
  end.

(** The probability that the record at [position] (oldest first) of a
    generated sequence is completed.  The record at [position] is pushed by
    the iteration [i = days - 1 - position], and [Math.random() < c] holds
    with probability [c] for a draw that is uniform on [0, 1). *)
Definition completionProbability (days position : nat) : Q :=
  ProgressData.completionChance days (days - 1 - position).

(** The expected share of completed records among the given positions. *)
Definition expectedCompletionRate (days : nat) (positions : list nat) : Q :=
  fold_right Qplus 0 (map (completionProbability days) positions)
  / inject_Z (Z.of_nat (List.length positions)).

(** [size] equally spaced values of a draw: [0/size, 1/size, ...]. *)
Definition uniformGrid (size : positive) : list Q :=
  map (fun j => Z.of_nat j # size) (seq 0 (Pos.to_nat size)).

(** ** Fakes: concrete services and inputs on which the handlers run *)

Module Fakes.

Definition therapist : User := {| uid := "therapist-1" |}.

Definition child : Child :=
  {| child_id := "child-1"; child_nationalId := "1234567890"; child_name := "Sami";
     child_parentId := "parent-1"; child_therapistId := Some "therapist-1" |}.

Definition recording : File := {| file_name := "session.mp3" |}.
Definition notesDocument : File := {| file_name := "plan.pdf" |}.

Definition twoGoals : list WeeklyGoalEntry :=
  [GoalObject "improve balance" (CatTag "motor"); GoalString "use two-word phrases"].

Definition task (d : string) (goalIndex : Z) : RawTask :=
  {| raw_title := d; raw_description := d; raw_whyItMatters := "practice";
     raw_weeklyGoalIndex := goalIndex |}.

Definition summaryWith (tasks : list RawTask) : SummaryJSON :=
  {| sum_summary := "balance and speech"; sum_therapyType := Some "motor";
     sum_weeklyGoals := twoGoals; sum_dailyTasks := Some tasks |}.

(** Services that answer every request, except as their arguments say:
    [upload] decides the storage uploads, [whisper] the transcription,
    [summarize] and [suggest] the two kinds of chat request. *)
Definition services
  (upload : string -> result unit)
  (whisper : result string)
  (summarize : result (option SummaryJSON))
  (suggest : string -> result (option string)) : Services :=
  {| storage_uploadBytes := fun path _ => upload path;
     storage_getDownloadURL := fun path => Ok ("https://storage.example/" ++ path);
     whisper_create := fun _ => whisper;
     chat_create := fun request =>
       match request with
       | SummarizeRequest _ _ =>
           match summarize with
           | Ok _ => Ok (Some "{...}")
           | Thrown e => Thrown e
           end
       | SuggestionRequest _ d => suggest d
       end;
     JSON_parse := fun _ => summarize;
     firestore_addDoc := fun _ => Ok tt |}.

Definition allUploads (path : string) : result unit := Ok tt.


Definition noRecordings (path : string) : result unit :=
  if String.prefix "voice-recordings/" path then Thrown "storage/unauthorized" else Ok tt.

Definition anySuggestion (d : string) : result (option string) :=
  Ok (Some ("Show the child doing: " ++ d)).

Definition failsFor (bad : string) (d : string) : result (option string) :=
  if String.eqb d bad then Thrown "429 rate limit exceeded" else anySuggestion d.

Definition emptyWorld {U} (u : U) : World U :=
  {| plans := []; objects := []; children := []; ui := u |}.

Definition form (document : option File) : World TreatmentPlanForm.State :=
  emptyWorld {| TreatmentPlanForm.voiceFile := Some recording;
                TreatmentPlanForm.documentFile := document;
                TreatmentPlanForm.loading := false;
                TreatmentPlanForm.status := NoStatus;
                TreatmentPlanForm.error := "";
                TreatmentPlanForm.onCompleteScheduled := false |}.

Definition recorder (document : option File) : World VoiceRecorder.State :=
  emptyWorld {| VoiceRecorder.mode := VoiceRecorder.UploadMode;
                VoiceRecorder.audioBlob := None;
                VoiceRecorder.uploadedFile := Some recording;
                VoiceRecorder.documentFile := document;
                VoiceRecorder.processing := false;
                VoiceRecorder.status := NoStatus;
                VoiceRecorder.error := "";
                VoiceRecorder.onCompleteScheduled := false |}.

Definition now : Z := 1762128000000.

(** Two goals, and one task that refers to goal 7. *)
Definition indexSeven : Services :=
  services allUploads (Ok "we practiced balance")
    (Ok (Some (summaryWith [task "stand on one foot" 7%Z]))) anySuggestion.


(** Two tasks; the suggestion request of the second one is rejected. *)
Definition secondSuggestionFails : Services :=
  services allUploads (Ok "we practiced balance")
    (Ok (Some (summaryWith [task "stand on one foot" 0%Z; task "name the picture" 1%Z])))
    (failsFor "name the picture").


(** The upload of the recording is rejected. *)
Definition recordingUploadRejected : Services :=
  services noRecordings (Ok "we practiced balance")
    (Ok (Some (summaryWith [task "stand on one foot" 0%Z]))) anySuggestion.

(** A world that already holds one plan. *)
Definition withOnePlan {U} (w : World U) : World U :=
  {| plans := [ {| plan_childId := "child-1"; plan_therapistId := "therapist-1";
                   plan_voiceRecordingUrl := ""; plan_transcription := "";
                   plan_documentUrl := ""; plan_summary := "earlier plan";
                   plan_therapyType := None; plan_weeklyGoals := [];
                   plan_dailyTasks := []; plan_createdAt := 0%Z; plan_updatedAt := 0%Z |} ];
     objects := objects w; children := children w; ui := ui w |}.



(** Every call of [Math.random] answers one half. *)
Definition halves : nat -> Q := fun _ => 0.5%Q.


(** The [children] collection and two therapists. *)
Definition otherTherapist : User := {| uid := "therapist-2" |}.

Definition parentCreatedChild : Child :=
  {| child_id := "child-1"; child_nationalId := "1234567890"; child_name := "Sami";
     child_parentId := "parent-1"; child_therapistId := None |}.

(** A store that answers every query and accepts every write of a signed-in
    user. *)
Definition openStore : ChildrenStore :=
  {| getDocs_outcome := Ok tt;
     allow_update := fun _ _ => true;
     allow_create := fun _ => true;
     auto_id := "child-2" |}.

Definition patientList (store : list Child) (searchFor : string) : World PatientList.State :=
  {| plans := []; objects := []; children := store;
     ui := {| PatientList.searchResults := [];
              PatientList.searchNationalId := searchFor;
              PatientList.showSearchForm := true;
              PatientList.searching := false;
              PatientList.error := "";
              PatientList.alerts := [];
              PatientList.refreshes := 0 |} |}.

Definition parentProfile (store : list Child) (name id : string)
  : World ParentProfile.State :=
  {| plans := []; objects := []; children := store;
     ui := {| ParentProfile.childrenList := [];
              ParentProfile.showAddChild := true;
              ParentProfile.childName := name;
              ParentProfile.nationalId := id;
              ParentProfile.loading := false;
              ParentProfile.error := "" |} |}.



(** Two tasks, and every service answers. *)
Definition secondSuggestionOk : Services :=
  services allUploads (Ok "we practiced balance")
    (Ok (Some (summaryWith [task "stand on one foot" 0%Z; task "name the picture" 1%Z])))
    anySuggestion.


(** A payload without a therapy type. *)
Definition noTherapyType : Services :=
  services allUploads (Ok "we practiced balance")
    (Ok (Some {| sum_summary := "balance"; sum_therapyType := None;
                 sum_weeklyGoals := twoGoals;
                 sum_dailyTasks := Some [task "stand on one foot" 0%Z] |}))
    anySuggestion.

(** The chat client answers the summarization request with empty content. *)
Definition emptyAnswer : Services :=
  {| storage_uploadBytes := fun _ _ => Ok tt;
     storage_getDownloadURL := fun path => Ok ("https://storage.example/" ++ path);
     whisper_create := fun _ => Ok "we practiced balance";
     chat_create := fun request =>
       match request with
       | SummarizeRequest _ _ => Ok (Some "")
       | SuggestionRequest _ d => anySuggestion d
       end;
     JSON_parse := fun _ => Thrown "Unexpected end of JSON input";
     firestore_addDoc := fun _ => Ok tt |}.


(** A stored plan of a child, created at a given time. *)
Definition planAt (childId : string) (createdAt : Z) (summary : string) : PlanDoc :=
  {| plan_childId := childId; plan_therapistId := "therapist-1";
     plan_voiceRecordingUrl := ""; plan_transcription := "";
     plan_documentUrl := ""; plan_summary := summary;
     plan_therapyType := Some "speech"; plan_weeklyGoals := [];
     plan_dailyTasks := []; plan_createdAt := createdAt; plan_updatedAt := createdAt |}.

Definition threePlans : list PlanDoc :=
  [planAt "child-1" 100 "first"; planAt "child-2" 300 "other child";
   planAt "child-1" 200 "second"].

Definition taskPage (store : list PlanDoc) : World DailyTasks.State :=
  {| plans := store; objects := []; children := [];
     ui := {| DailyTasks.treatmentPlan := None; DailyTasks.loading := false |} |}.


Definition parent : User := {| uid := "parent-1" |}.

(** The feedback form, filled in for the sample child. *)
Definition feedbackForm : FeedbackForm.State :=
  {| FeedbackForm.selectedChild := Some child;
     FeedbackForm.taskDescription := "stand on one foot";
     FeedbackForm.feedback := Some ProgressData.struggled;
     FeedbackForm.childMood := Some ProgressData.frustrated;
     FeedbackForm.notes := "gave up after a minute";
     FeedbackForm.loading := false;
     FeedbackForm.success := false;
     FeedbackForm.alerts := [] |}.


(** A short clip, and the plan view of a plan with two tasks, with the clip
    selected for upload. *)
Definition clip : TreatmentPlanView.VideoFile :=
  {| TreatmentPlanView.video_name := "balance.mp4";
     TreatmentPlanView.video_size := 1048576;
     TreatmentPlanView.video_type := "video/mp4" |}.

Definition dailyTask (id : string) : DailyTask :=
  {| task_id := id; title := "stand on one foot"; description := "thirty seconds each";
     whyItMatters := "balance"; weeklyGoalIndex := 0%Z;
     demoVideoSuggestion := Some "show the pose"; demoVideoUrl := None;
     editable := true; task_createdAt := 100%Z |}.

Definition planWithTasks : PlanDoc :=
  {| plan_childId := "child-1"; plan_therapistId := "therapist-1";
     plan_voiceRecordingUrl := ""; plan_transcription := "";
     plan_documentUrl := ""; plan_summary := "balance";
     plan_therapyType := Some "motor"; plan_weeklyGoals := twoGoals;
     plan_dailyTasks := [dailyTask "task_100_0"; dailyTask "task_100_1"];
     plan_createdAt := 100%Z; plan_updatedAt := 100%Z |}.

Definition planView (selected : option TreatmentPlanView.VideoFile)
  : World TreatmentPlanView.State :=
  {| plans := [planWithTasks]; objects := []; children := [];
     ui := {| TreatmentPlanView.treatmentPlan := Some planWithTasks;
              TreatmentPlanView.uploadingVideoFor := Some "task_100_1";
              TreatmentPlanView.videoFile := selected;
              TreatmentPlanView.uploading := false;
              TreatmentPlanView.progress := 0%Z;
              TreatmentPlanView.alerts := [];
              TreatmentPlanView.loading := false;
              TreatmentPlanView.sessions := [];
              TreatmentPlanView.skillProgress := [] |} |}.


(** The patient search of a therapist: the National ID searched for, and the
    name and National ID entered in the form for a new patient. *)
Definition patientSearch (store : list Child) (searchFor newName newId : string)
  : World PatientSearch.State :=
  {| plans := []; objects := []; children := store;
     ui := {| PatientSearch.nationalId := searchFor;
              PatientSearch.searchResults := [];
              PatientSearch.loading := false;
              PatientSearch.error := "";
              PatientSearch.showAddForm := true;
              PatientSearch.newPatientName := newName;
              PatientSearch.newPatientId := newId;
              PatientSearch.addingPatient := false;
              PatientSearch.alerts := [];
              PatientSearch.patientsAdded := 0 |} |}.

Definition therapistDashboard (store : list Child) : World TherapistDashboard.State :=
  {| plans := []; objects := []; children := store;
     ui := {| TherapistDashboard.myPatients := [];
              TherapistDashboard.loading := false |} |}.


(** A patient created by the therapist: no parent yet. *)
Definition therapistCreatedChild : Child :=
  {| child_id := "child-3"; child_nationalId := "777"; child_name := "Patient 777";
     child_parentId := ""; child_therapistId := Some "therapist-1" |}.

Definition secondParent : User := {| uid := "parent-2" |}.




End Fakes.
(** * Properties *)

(** ** Generic facts *)

Lemma or_else_nonempty (a b : string) : b <> "" -> or_else a b <> "".
Proof.
  intros Hb. unfold or_else.
  destruct (String.eqb a "") eqn:E; [exact Hb |].
  apply String.eqb_neq in E. exact E.
Qed.

Lemma app_singleton_neq {A} (l : list A) (x : A) : l <> (l ++ [x])%list.
Proof.
  intros H. apply (f_equal (@List.length A)) in H.
  rewrite List.length_app in H. simpl in H. lia.
Qed.

(** *** [Promise.all] *)

Lemma Promise_all_Ok {A} (promises : list (result A)) (values : list A) :
  Promise_all promises = Ok values <-> promises = map Ok values.
Proof.
  revert values. induction promises as [| p ps IH]; intros values; simpl.
  - destruct values; simpl; split; intros H; congruence.
  - destruct p as [a | e].
    + destruct (Promise_all ps) as [vs | e'] eqn:E.
      * pose proof (proj1 (IH vs) eq_refl) as Hps.
        split; intros H.
        -- injection H as <-. simpl. congruence.
        -- destruct values as [| v vs']; [discriminate |].
           simpl in H. injection H as Hv Hrest.
           apply IH in Hrest. congruence.
      * split; intros H; [discriminate |].
        destruct values as [| v vs']; [discriminate |].
        simpl in H. injection H as Hv Hrest.
        apply IH in Hrest. discriminate.
    + split; intros H; [discriminate |].
      destruct values; discriminate.
Qed.

Lemma Promise_all_rejects {A} (promises : list (result A)) (e : string) :
  In (Thrown e) promises -> exists e', Promise_all promises = Thrown e'.
Proof.
  induction promises as [| p ps IH]; intros Hin; simpl in *; [contradiction |].
  destruct Hin as [-> | Hin]; [eauto |].
  destruct p as [a | e0]; [| eauto].
  destruct (IH Hin) as [e' ->]. eauto.
Qed.

(** *** Step 4: enrichment *)

Lemma map_indexed_In {A B} (f : A -> nat -> B) (xs : list A) (x : A) (i : nat) :
  In x xs -> exists j, In (f x j) (map_indexed f i xs).
Proof.
  revert i. induction xs as [| y ys IH]; intros i Hin; simpl in *; [contradiction |].
  destruct Hin as [-> | Hin]; [eauto |].
  destruct (IH (S i) Hin) as [j Hj]. eauto.
Qed.

(** An enriched task is the raw task with an id, a suggestion and flags. *)
Lemma enrichTask_Ok sv now language task index t :
  enrichTask sv now language task index = Ok t ->
  weeklyGoalIndex t = raw_weeklyGoalIndex task
  /\ description t = raw_description task
  /\ exists suggestion,
       OpenAI.generateDemoVideoSuggestion sv (raw_description task) language = Ok suggestion
       /\ demoVideoSuggestion t = Some suggestion.
Proof.
  unfold enrichTask.
  destruct (OpenAI.generateDemoVideoSuggestion sv (raw_description task) language)
    as [s | e] eqn:E; intros H; inversion H; subst; simpl.
  repeat split; eauto.
Qed.

Lemma enrichTask_Thrown sv now language task index e :
  OpenAI.generateDemoVideoSuggestion sv (raw_description task) language = Thrown e ->
  enrichTask sv now language task index = Thrown e.
Proof. unfold enrichTask. intros ->. reflexivity. Qed.

Lemma map_indexed_enrich_Ok sv now language tasks : forall index enriched,
  map_indexed (enrichTask sv now language) index tasks = map Ok enriched ->
  map weeklyGoalIndex enriched = map raw_weeklyGoalIndex tasks
  /\ Forall (fun t => demoVideoSuggestion t <> None) enriched.
Proof.
  induction tasks as [| task rest IH]; intros index enriched H; simpl in *.
  - destruct enriched; [| discriminate]. split; [reflexivity | constructor].
  - destruct enriched as [| t ts]; [discriminate |].
    simpl in H. inversion H as [[Ht Hrest]].
    destruct (IH _ _ Hrest) as [Hidx Hsug].
    destruct (enrichTask_Ok _ _ _ _ _ Ht) as (Hi & _ & s & _ & Hs).
    split.
    + simpl. rewrite Hi, Hidx. reflexivity.
    + constructor; [rewrite Hs; discriminate | exact Hsug].
Qed.

(** All suggestions arrived: the tasks keep their order and their goal
    indices, and each carries a suggestion. *)
Lemma enrichTasks_Ok sv now language tasks enriched :
  enrichTasks sv now language tasks = Ok enriched ->
  map weeklyGoalIndex enriched = map raw_weeklyGoalIndex tasks
  /\ Forall (fun t => demoVideoSuggestion t <> None) enriched.
Proof.
  unfold enrichTasks. intros H. apply Promise_all_Ok in H.
  eapply map_indexed_enrich_Ok; eauto.
Qed.

(** One rejected suggestion rejects the whole step. *)
Lemma enrichTasks_rejects sv now language tasks task e :
  In task tasks ->
  OpenAI.generateDemoVideoSuggestion sv (raw_description task) language = Thrown e ->
  exists e', enrichTasks sv now language tasks = Thrown e'.
Proof.
  intros Hin Hfail. unfold enrichTasks.
  destruct (map_indexed_In (enrichTask sv now language) tasks task 0 Hin) as [j Hj].
  rewrite (enrichTask_Thrown sv now language task j Hfail) in Hj.
  eapply Promise_all_rejects; eauto.
Qed.

Lemma map_indexed_enrich_descriptions sv now language tasks : forall index enriched,
  map_indexed (enrichTask sv now language) index tasks = map Ok enriched ->
  map description enriched = map raw_description tasks.
Proof.
  induction tasks as [| task rest IH]; intros index enriched H; simpl in *.
  - destruct enriched; [reflexivity | discriminate].
  - destruct enriched as [| t ts]; [discriminate |].
    simpl in H. injection H as Ht Hrest.
    destruct (enrichTask_Ok _ _ _ _ _ Ht) as (_ & Hd & _).
    simpl. rewrite Hd, (IH _ _ Hrest). reflexivity.
Qed.

Lemma enrichTasks_descriptions sv now language tasks enriched :
  enrichTasks sv now language tasks = Ok enriched ->
  map description enriched = map raw_description tasks.
Proof.
  unfold enrichTasks. intros H. apply Promise_all_Ok in H.
  eapply map_indexed_enrich_descriptions; eauto.
Qed.

(** ** The two submit handlers, case by case *)

(** Unfolds the monad so that a handler reduces up to the next oracle. *)
#[local] Arguments enrichTasks : simpl never.
#[local] Arguments OpenAI.transcribeAudio : simpl never.
#[local] Arguments OpenAI.summarizeTreatmentPlan : simpl never.
#[local] Arguments or_else : simpl never.
#[local] Arguments opt_or_else : simpl never.

Ltac run_async :=
  unfold bind, ret, throw, await, try_catch, try_finally, modify_ui, uploadBytes,
    getDownloadURL, addDoc, summary_dailyTasks;
  cbn.

Module TreatmentPlanFormFacts.

Import TreatmentPlanForm.

#[local] Arguments voiceRef : simpl never.
#[local] Arguments docRef : simpl never.

(** A run of [handleSubmit] either changes no plan and reports an error,
    or every stage succeeded and exactly one plan was appended. *)
Lemma form_handleSubmit_cases sv now language child user onComplete w voice :
  voiceFile (ui w) = Some voice ->
  let w' := snd (handleSubmit sv now language child (Some user) onComplete w) in
  fst (handleSubmit sv now language child (Some user) onComplete w) = Ok tt
  /\
  ((plans w' = plans w /\ error (ui w') <> "")
  \/ exists voiceUrl transcription summary tasks enriched documentUrl doc,
       storage_uploadBytes sv (voiceRef now voice) voice = Ok tt
       /\ storage_getDownloadURL sv (voiceRef now voice) = Ok voiceUrl
       /\ OpenAI.transcribeAudio sv voice = Ok transcription
       /\ OpenAI.summarizeTreatmentPlan sv transcription language = Ok (Some summary)
       /\ sum_dailyTasks summary = Some tasks
       /\ enrichTasks sv now language tasks = Ok enriched
       /\ match documentFile (ui w) with
          | Some d =>
              storage_uploadBytes sv (docRef now d) d = Ok tt
              /\ storage_getDownloadURL sv (docRef now d) = Ok documentUrl
          | None => documentUrl = ""
          end
       /\ plans w' = (plans w ++ [doc])%list
       /\ plan_dailyTasks doc = enriched
       /\ plan_weeklyGoals doc = sum_weeklyGoals summary
       /\ plan_documentUrl doc = documentUrl
       /\ error (ui w') = "").
Proof.
  destruct w as [ps os cs u]. cbn [ui plans]. intros Hvoice.
  unfold handleSubmit. cbn [ui]. rewrite Hvoice.
  assert (Hmsg : forall m, or_else m "Failed to create treatment plan" <> "")
    by (intros m; apply or_else_nonempty; discriminate).
  unfold submitSteps, setError, setLoading, setStatus, setVoiceFile, setDocumentFile,
    scheduleOnComplete.
  run_async.
  destruct (storage_uploadBytes sv (voiceRef now voice) voice) as [[] | e] eqn:E1;
    cbn; [| split; [reflexivity | left; auto]].
  destruct (storage_getDownloadURL sv (voiceRef now voice)) as [voiceUrl | e] eqn:E2;
    cbn; [| split; [reflexivity | left; auto]].
  destruct (OpenAI.transcribeAudio sv voice) as [transcription | e] eqn:E3;
    cbn; [| split; [reflexivity | left; auto]].
  destruct (OpenAI.summarizeTreatmentPlan sv transcription language)
    as [[summary |] | e] eqn:E4; cbn; [| split; [reflexivity | left; auto] | split; [reflexivity | left; auto]].
  destruct (sum_dailyTasks summary) as [tasks |] eqn:E5; cbn; [| split; [reflexivity | left; auto]].
  destruct (enrichTasks sv now language tasks) as [enriched | e] eqn:E6;
    cbn; [| split; [reflexivity | left; auto]].
  destruct (documentFile u) as [d |] eqn:Edoc; cbn.
  - destruct (storage_uploadBytes sv (docRef now d) d) as [[] | e] eqn:E7;
      cbn; [| split; [reflexivity | left; auto]].
    destruct (storage_getDownloadURL sv (docRef now d)) as [documentUrl | e] eqn:E8;
      cbn; [| split; [reflexivity | left; auto]].
    match goal with
    | |- context [firestore_addDoc sv ?p] =>
        destruct (firestore_addDoc sv p) as [[] | e] eqn:E9; cbn; [| split; [reflexivity | left; auto]];
        split; [destruct onComplete; reflexivity |];
        right; exists voiceUrl, transcription, summary, tasks, enriched, documentUrl, p
    end.
    destruct onComplete; cbn; repeat split; auto.
  - match goal with
    | |- context [firestore_addDoc sv ?p] =>
        destruct (firestore_addDoc sv p) as [[] | e] eqn:E9; cbn; [| split; [reflexivity | left; auto]];
        split; [destruct onComplete; reflexivity |];
        right; exists voiceUrl, transcription, summary, tasks, enriched, "", p
    end.
    destruct onComplete; cbn; repeat split; auto.
Qed.

End TreatmentPlanFormFacts.

Module VoiceRecorderFacts.

Import VoiceRecorder.

#[local] Arguments voiceRef : simpl never.
#[local] Arguments docRef : simpl never.

(** A run of [handleSubmit] either changes no plan and reports an error,
    or every stage succeeded and exactly one plan was appended.  The
    suggestions are requested in the default language. *)
Lemma recorder_handleSubmit_cases sv now language child user w voice :
  fileToProcess (ui w) = Some voice ->
  let w' := snd (handleSubmit sv now language child (Some user) w) in
  fst (handleSubmit sv now language child (Some user) w) = Ok tt
  /\
  ((plans w' = plans w /\ error (ui w') <> "")
  \/ exists voiceUrl transcription summary tasks enriched documentUrl doc,
       storage_uploadBytes sv (voiceRef now child voice) voice = Ok tt
       /\ storage_getDownloadURL sv (voiceRef now child voice) = Ok voiceUrl
       /\ OpenAI.transcribeAudio sv voice = Ok transcription
       /\ OpenAI.summarizeTreatmentPlan sv transcription language = Ok (Some summary)
       /\ sum_dailyTasks summary = Some tasks
       /\ enrichTasks sv now "en" tasks = Ok enriched
       /\ match documentFile (ui w) with
          | Some d =>
              storage_uploadBytes sv (docRef now child d) d = Ok tt
              /\ storage_getDownloadURL sv (docRef now child d) = Ok documentUrl
          | None => documentUrl = ""
          end
       /\ plans w' = (plans w ++ [doc])%list
       /\ plan_dailyTasks doc = enriched
       /\ plan_weeklyGoals doc = sum_weeklyGoals summary
       /\ plan_documentUrl doc = documentUrl
       /\ error (ui w') = "").
Proof.
  destruct w as [ps os cs u]. cbn [ui plans]. intros Hvoice.
  unfold handleSubmit. cbn [ui]. rewrite Hvoice.
  assert (Hmsg : forall m, or_else m "Failed to process recording" <> "")
    by (intros m; apply or_else_nonempty; discriminate).
  unfold submitSteps, setError, setProcessing, setStatus, scheduleOnComplete.
  run_async.
  destruct (storage_uploadBytes sv (voiceRef now child voice) voice) as [[] | e] eqn:E1;
    cbn; [| split; [reflexivity | left; auto]].
  destruct (storage_getDownloadURL sv (voiceRef now child voice)) as [voiceUrl | e] eqn:E2;
    cbn; [| split; [reflexivity | left; auto]].
  destruct (OpenAI.transcribeAudio sv voice) as [transcription | e] eqn:E3;
    cbn; [| split; [reflexivity | left; auto]].
  destruct (OpenAI.summarizeTreatmentPlan sv transcription language)
    as [[summary |] | e] eqn:E4; cbn; [| split; [reflexivity | left; auto] | split; [reflexivity | left; auto]].
  destruct (sum_dailyTasks summary) as [tasks |] eqn:E5; cbn; [| split; [reflexivity | left; auto]].
  destruct (enrichTasks sv now "en" tasks) as [enriched | e] eqn:E6;
    cbn; [| split; [reflexivity | left; auto]].
  destruct (documentFile u) as [d |] eqn:Edoc; cbn.
  - destruct (storage_uploadBytes sv (docRef now child d) d) as [[] | e] eqn:E7;
      cbn; [| split; [reflexivity | left; auto]].
    destruct (storage_getDownloadURL sv (docRef now child d)) as [documentUrl | e] eqn:E8;
      cbn; [| split; [reflexivity | left; auto]].
    match goal with
    | |- context [firestore_addDoc sv ?p] =>
        destruct (firestore_addDoc sv p) as [[] | e] eqn:E9; cbn; [| split; [reflexivity | left; auto]];
        split; [reflexivity |];
        right; exists voiceUrl, transcription, summary, tasks, enriched, documentUrl, p
    end.
    cbn; repeat split; auto.
  - match goal with
    | |- context [firestore_addDoc sv ?p] =>
        destruct (firestore_addDoc sv p) as [[] | e] eqn:E9; cbn; [| split; [reflexivity | left; auto]];
        split; [reflexivity |];
        right; exists voiceUrl, transcription, summary, tasks, enriched, "", p
    end.
    cbn; repeat split; auto.
Qed.

End VoiceRecorderFacts.

(** ** The treatment-plan pipeline *)

Lemma planInRange_spec (doc : PlanDoc) :
  planInRange doc = true <->
  Forall (fun i => (0 <= i < Z.of_nat (List.length (plan_weeklyGoals doc)))%Z)
         (map weeklyGoalIndex (plan_dailyTasks doc)).
Proof.
  unfold planInRange, goalIndexInRange. rewrite forallb_forall, Forall_forall.
  split.
  - intros H i Hi. apply in_map_iff in Hi. destruct Hi as (t & <- & Ht).
    specialize (H t Ht). apply andb_true_iff in H. destruct H as [H1 H2].
    apply Z.leb_le in H1. apply Z.ltb_lt in H2. lia.
  - intros H t Ht. specialize (H (weeklyGoalIndex t) (in_map _ _ _ Ht)).
    apply andb_true_iff. split; [apply Z.leb_le | apply Z.ltb_lt]; lia.
Qed.

(** C1 as stated fails: a summarization payload with two goals and a task
    whose [weeklyGoalIndex] is 7 is persisted with index 7, not clamped to 1,
    by both forms; the run reports no error. *)
Lemma C1_counterexample :
  let wf := snd (TreatmentPlanForm.handleSubmit Fakes.indexSeven Fakes.now "en" Fakes.child
                   (Some Fakes.therapist) true (Fakes.form None)) in
  let wr := snd (VoiceRecorder.handleSubmit Fakes.indexSeven Fakes.now "en" Fakes.child
                   (Some Fakes.therapist) (Fakes.recorder None)) in
  map (fun d => map weeklyGoalIndex (plan_dailyTasks d)) (plans wf) = [[7%Z]]
  /\ map (fun d => List.length (plan_weeklyGoals d)) (plans wf) = [2%nat]
  /\ map planInRange (plans wf) = [false]
  /\ TreatmentPlanForm.error (ui wf) = ""
  /\ map (fun d => map weeklyGoalIndex (plan_dailyTasks d)) (plans wr) = [[7%Z]]
  /\ map planInRange (plans wr) = [false]
  /\ VoiceRecorder.error (ui wr) = "".
Proof. vm_compute. repeat split. Qed.

(** C1 (amended): a persisted plan carries, for every daily task, the
    [weeklyGoalIndex] that the summarization stage returned for it, and the
    weekly goals as returned; nothing validates or clamps an index.  The
    indices of the persisted plan are therefore in range exactly when those
    of the summarization payload are, and the handlers never raise to their
    caller.  This holds for the form and for the recorder. *)
Theorem C1_goal_indices_are_persisted_unchanged
  sv now language child user onComplete
  (wf : World TreatmentPlanForm.State) (wr : World VoiceRecorder.State)
  voice transcription summary tasks :
  TreatmentPlanForm.voiceFile (ui wf) = Some voice ->
  VoiceRecorder.fileToProcess (ui wr) = Some voice ->
  OpenAI.transcribeAudio sv voice = Ok transcription ->
  OpenAI.summarizeTreatmentPlan sv transcription language = Ok (Some summary) ->
  sum_dailyTasks summary = Some tasks ->
  let runf := TreatmentPlanForm.handleSubmit sv now language child (Some user) onComplete wf in
  let runr := VoiceRecorder.handleSubmit sv now language child (Some user) wr in
  let inRange := fun i => (0 <= i < Z.of_nat (List.length (sum_weeklyGoals summary)))%Z in
  (fst runf = Ok tt /\ fst runr = Ok tt)
  /\ (forall doc, plans (snd runf) = (plans wf ++ [doc])%list ->
        map weeklyGoalIndex (plan_dailyTasks doc) = map raw_weeklyGoalIndex tasks
        /\ plan_weeklyGoals doc = sum_weeklyGoals summary
        /\ (planInRange doc = true <-> Forall inRange (map raw_weeklyGoalIndex tasks)))
  /\ (forall doc, plans (snd runr) = (plans wr ++ [doc])%list ->
        map weeklyGoalIndex (plan_dailyTasks doc) = map raw_weeklyGoalIndex tasks
        /\ plan_weeklyGoals doc = sum_weeklyGoals summary
        /\ (planInRange doc = true <-> Forall inRange (map raw_weeklyGoalIndex tasks))).
Proof.
  intros Hvf Hvr Htr Hsum Htasks runf runr inRange.
  destruct (TreatmentPlanFormFacts.form_handleSubmit_cases sv now language child user onComplete
              wf Hvf) as [Hokf Hf].
  destruct (VoiceRecorderFacts.recorder_handleSubmit_cases sv now language child user wr Hvr)
    as [Hokr Hr].
  split; [split; assumption |].
  split; intros doc Hdoc.
  - destruct Hf as [[Hsame _] | Hf].
    + exfalso. subst runf. rewrite Hsame in Hdoc. exact (@app_singleton_neq _ _ _ Hdoc).
    + destruct Hf as (vu & tr & sm & ts & en & du & p & _ & _ & Htr' & Hsum' & Hts' & Hen
                      & _ & Hp & Hdt & Hwg & _).
      subst runf. rewrite Hp in Hdoc. apply app_inv_head in Hdoc.
      injection Hdoc as <-.
      rewrite Htr in Htr'. injection Htr' as <-.
      rewrite Hsum in Hsum'. injection Hsum' as <-.
      rewrite Htasks in Hts'. injection Hts' as <-.
      destruct (enrichTasks_Ok _ _ _ _ Hen) as [Hidx _].
      assert (Hmap : map weeklyGoalIndex (plan_dailyTasks p) = map raw_weeklyGoalIndex tasks)
        by (rewrite Hdt; exact Hidx).
      repeat split; auto.
      * intros H. apply planInRange_spec in H. rewrite Hmap, Hwg in H. exact H.
      * intros H. apply planInRange_spec. rewrite Hmap, Hwg. exact H.
  - destruct Hr as [[Hsame _] | Hr].
    + exfalso. subst runr. rewrite Hsame in Hdoc. exact (@app_singleton_neq _ _ _ Hdoc).
    + destruct Hr as (vu & tr & sm & ts & en & du & p & _ & _ & Htr' & Hsum' & Hts' & Hen
                      & _ & Hp & Hdt & Hwg & _).
      subst runr. rewrite Hp in Hdoc. apply app_inv_head in Hdoc.
      injection Hdoc as <-.
      rewrite Htr in Htr'. injection Htr' as <-.
      rewrite Hsum in Hsum'. injection Hsum' as <-.
      rewrite Htasks in Hts'. injection Hts' as <-.
      destruct (enrichTasks_Ok _ _ _ _ Hen) as [Hidx _].
      assert (Hmap : map weeklyGoalIndex (plan_dailyTasks p) = map raw_weeklyGoalIndex tasks)
        by (rewrite Hdt; exact Hidx).
      repeat split; auto.
      * intros H. apply planInRange_spec in H. rewrite Hmap, Hwg in H. exact H.
      * intros H. apply planInRange_spec. rewrite Hmap, Hwg. exact H.
Qed.

Lemma C1_witness :
  fst (TreatmentPlanForm.handleSubmit Fakes.indexSeven Fakes.now "en" Fakes.child
         (Some Fakes.therapist) true (Fakes.form None)) = Ok tt
  /\ exists doc,
       plans (snd (VoiceRecorder.handleSubmit Fakes.indexSeven Fakes.now "en" Fakes.child
                     (Some Fakes.therapist) (Fakes.recorder None))) = [doc]
       /\ map weeklyGoalIndex (plan_dailyTasks doc) = [7%Z]
       /\ plan_weeklyGoals doc = Fakes.twoGoals.
Proof.
  pose proof (C1_goal_indices_are_persisted_unchanged
                Fakes.indexSeven Fakes.now "en" Fakes.child Fakes.therapist true
                (Fakes.form None) (Fakes.recorder None)
                (voice := Fakes.recording) (transcription := "we practiced balance")
                (summary := Fakes.summaryWith [Fakes.task "stand on one foot" 7%Z])
                (tasks := [Fakes.task "stand on one foot" 7%Z])
                eq_refl eq_refl eq_refl eq_refl eq_refl) as [[Hf _] [_ Hr]].
  split; [exact Hf |].
  eexists. split; [reflexivity |].
  match goal with
  | |- map weeklyGoalIndex (plan_dailyTasks ?d) = _ /\ _ =>
      destruct (Hr d eq_refl) as (Hidx & Hgoals & _)
  end.
  split; [exact Hidx | exact Hgoals].
Defined.

(** C2 as stated fails: with two tasks of which the second one's suggestion
    request is rejected, the form persists no plan at all (the first task is
    not kept either) and shows the message of the rejected request. *)
Lemma C2_counterexample :
  let w := snd (TreatmentPlanForm.handleSubmit Fakes.secondSuggestionFails Fakes.now "en"
                  Fakes.child (Some Fakes.therapist) true (Fakes.form None)) in
  plans w = []
  /\ TreatmentPlanForm.error (ui w) = "429 rate limit exceeded"
  /\ TreatmentPlanForm.status (ui w) = GeneratingSuggestions.
Proof. vm_compute. repeat split. Qed.

(** C2 (amended): the suggestion requests of the form are joined all or
    nothing.  If the request of any task of the summarized plan is rejected,
    the run stops, persists no plan and reports an error; and a plan that is
    persisted carries a suggestion on every task, in the order and number of
    the summarized tasks. *)
Theorem C2_enrichment_is_all_or_nothing
  sv now language child user onComplete (w : World TreatmentPlanForm.State)
  voice transcription summary tasks :
  TreatmentPlanForm.voiceFile (ui w) = Some voice ->
  OpenAI.transcribeAudio sv voice = Ok transcription ->
  OpenAI.summarizeTreatmentPlan sv transcription language = Ok (Some summary) ->
  sum_dailyTasks summary = Some tasks ->
  let w' := snd (TreatmentPlanForm.handleSubmit sv now language child (Some user)
                   onComplete w) in
  (forall task,
      In task tasks ->
      is_thrown (OpenAI.generateDemoVideoSuggestion sv (raw_description task) language) = true ->
      plans w' = plans w /\ TreatmentPlanForm.error (ui w') <> "")
  /\ (forall doc,
        plans w' = (plans w ++ [doc])%list ->
        map description (plan_dailyTasks doc) = map raw_description tasks
        /\ Forall (fun t => demoVideoSuggestion t <> None) (plan_dailyTasks doc)).
Proof.
  intros Hv Htr Hsum Htasks w'.
  destruct (TreatmentPlanFormFacts.form_handleSubmit_cases sv now language child user
              onComplete w Hv) as [_ Hcases].
  fold w' in Hcases.
  split.
  - intros task Hin Hfail.
    destruct Hcases as [Hsame | Hdone]; [exact Hsame |].
    exfalso.
    destruct Hdone as (vu & tr & sm & ts & en & du & p & _ & _ & Htr' & Hsum' & Hts' & Hen & _).
    rewrite Htr in Htr'. injection Htr' as <-.
    rewrite Hsum in Hsum'. injection Hsum' as <-.
    rewrite Htasks in Hts'. injection Hts' as <-.
    destruct (OpenAI.generateDemoVideoSuggestion sv (raw_description task) language)
      as [s | e] eqn:E; [discriminate |].
    destruct (enrichTasks_rejects sv now language tasks task Hin E) as [e' He'].
    congruence.
  - intros doc Hdoc.
    destruct Hcases as [[Hsame _] | Hdone].
    + exfalso. rewrite Hsame in Hdoc. exact (@app_singleton_neq _ _ _ Hdoc).
    + destruct Hdone as (vu & tr & sm & ts & en & du & p & _ & _ & Htr' & Hsum' & Hts' & Hen
                         & _ & Hp & Hdt & _).
      rewrite Hp in Hdoc. apply app_inv_head in Hdoc. injection Hdoc as <-.
      rewrite Htr in Htr'. injection Htr' as <-.
      rewrite Hsum in Hsum'. injection Hsum' as <-.
      rewrite Htasks in Hts'. injection Hts' as <-.
      rewrite Hdt.
      split; [eapply enrichTasks_descriptions; eauto | eapply enrichTasks_Ok; eauto].
Qed.

Lemma C2_witness :
  plans (snd (TreatmentPlanForm.handleSubmit Fakes.secondSuggestionFails Fakes.now "en"
                Fakes.child (Some Fakes.therapist) true (Fakes.withOnePlan (Fakes.form None))))
  = plans (Fakes.withOnePlan (Fakes.form None))
  /\ exists doc,
       plans (snd (TreatmentPlanForm.handleSubmit Fakes.indexSeven Fakes.now "en"
                     Fakes.child (Some Fakes.therapist) true (Fakes.form None))) = [doc]
       /\ Forall (fun t => demoVideoSuggestion t <> None) (plan_dailyTasks doc).
Proof.
  split.
  - refine (proj1 (proj1 (C2_enrichment_is_all_or_nothing
              Fakes.secondSuggestionFails Fakes.now "en" Fakes.child Fakes.therapist true
              (Fakes.withOnePlan (Fakes.form None))
              (voice := Fakes.recording) (transcription := "we practiced balance")
              (summary := Fakes.summaryWith
                            [Fakes.task "stand on one foot" 0%Z;
                             Fakes.task "name the picture" 1%Z])
              (tasks := [Fakes.task "stand on one foot" 0%Z;
                         Fakes.task "name the picture" 1%Z])
              eq_refl eq_refl eq_refl eq_refl)
            (Fakes.task "name the picture" 1%Z) _ eq_refl)).
    right. left. reflexivity.
  - eexists. split; [reflexivity |].
    match goal with
    | |- Forall _ (plan_dailyTasks ?d) =>
        exact (proj2 (proj2 (C2_enrichment_is_all_or_nothing
                 Fakes.indexSeven Fakes.now "en" Fakes.child Fakes.therapist true
                 (Fakes.form None)
                 (voice := Fakes.recording) (transcription := "we practiced balance")
                 (summary := Fakes.summaryWith [Fakes.task "stand on one foot" 7%Z])
                 (tasks := [Fakes.task "stand on one foot" 7%Z])
                 eq_refl eq_refl eq_refl eq_refl) d eq_refl))
    end.
Defined.




(** C5: if a required stage fails (the upload of the recording, the
    transcription or the summarization), the run stops and the
    [treatmentPlans] collection is left as it was, for the form and for the
    recorder; more generally, any run that ends with an error message leaves
    the collection unchanged. *)
Theorem C5_failed_run_persists_nothing
  sv now language child user onComplete
  (wf : World TreatmentPlanForm.State) (wr : World VoiceRecorder.State) voice :
  TreatmentPlanForm.voiceFile (ui wf) = Some voice ->
  VoiceRecorder.fileToProcess (ui wr) = Some voice ->
  let wf' := snd (TreatmentPlanForm.handleSubmit sv now language child (Some user)
                    onComplete wf) in
  let wr' := snd (VoiceRecorder.handleSubmit sv now language child (Some user) wr) in
  (requiredStageFails sv (TreatmentPlanForm.voiceRef now voice) voice language = true ->
   plans wf' = plans wf /\ TreatmentPlanForm.error (ui wf') <> "")
  /\ (requiredStageFails sv (VoiceRecorder.voiceRef now child voice) voice language = true ->
      plans wr' = plans wr /\ VoiceRecorder.error (ui wr') <> "")
  /\ (TreatmentPlanForm.error (ui wf') <> "" -> plans wf' = plans wf)
  /\ (VoiceRecorder.error (ui wr') <> "" -> plans wr' = plans wr).
Proof.
  intros Hvf Hvr wf' wr'.
  destruct (TreatmentPlanFormFacts.form_handleSubmit_cases sv now language child user
              onComplete wf Hvf) as [_ Hf].
  destruct (VoiceRecorderFacts.recorder_handleSubmit_cases sv now language child user
              wr Hvr) as [_ Hr].
  fold wf' in Hf. fold wr' in Hr.
  split; [| split; [| split]].
  - intros Hfail.
    destruct Hf as [Hsame | Hdone]; [exact Hsame |]. exfalso.
    destruct Hdone as (vu & tr & sm & ts & en & du & p & Hup & Hurl & Htr & Hsum & _).
    unfold requiredStageFails in Hfail. rewrite Hup, Hurl, Htr, Hsum in Hfail. discriminate.
  - intros Hfail.
    destruct Hr as [Hsame | Hdone]; [exact Hsame |]. exfalso.
    destruct Hdone as (vu & tr & sm & ts & en & du & p & Hup & Hurl & Htr & Hsum & _).
    unfold requiredStageFails in Hfail. rewrite Hup, Hurl, Htr, Hsum in Hfail. discriminate.
  - intros Herr.
    destruct Hf as [[Hsame _] | Hdone]; [exact Hsame |]. exfalso.
    destruct Hdone as (vu & tr & sm & ts & en & du & p & _ & _ & _ & _ & _ & _ & _ & _ & _
                       & _ & _ & Hnone).
    contradiction.
  - intros Herr.
    destruct Hr as [[Hsame _] | Hdone]; [exact Hsame |]. exfalso.
    destruct Hdone as (vu & tr & sm & ts & en & du & p & _ & _ & _ & _ & _ & _ & _ & _ & _
                       & _ & _ & Hnone).
    contradiction.
Qed.

Lemma C5_witness :
  plans (snd (TreatmentPlanForm.handleSubmit Fakes.recordingUploadRejected Fakes.now "en"
                Fakes.child (Some Fakes.therapist) true
                (Fakes.withOnePlan (Fakes.form None))))
  = plans (Fakes.withOnePlan (Fakes.form None))
  /\ TreatmentPlanForm.error
       (ui (snd (TreatmentPlanForm.handleSubmit Fakes.recordingUploadRejected Fakes.now "en"
                   Fakes.child (Some Fakes.therapist) true
                   (Fakes.withOnePlan (Fakes.form None))))) <> "".
Proof.
  exact (proj1 (C5_failed_run_persists_nothing
           Fakes.recordingUploadRejected Fakes.now "en" Fakes.child Fakes.therapist true
           (Fakes.withOnePlan (Fakes.form None)) (Fakes.withOnePlan (Fakes.recorder None))
           (voice := Fakes.recording) eq_refl eq_refl) eq_refl).
Defined.

(** ** Weekly goals in both formats *)

Lemma normalizeGoal_legacy (goal : WeeklyGoalEntry) :
  WeeklyGoals.isNewFormat goal = false ->
  WeeklyGoals.category (WeeklyGoals.normalizeGoal goal) = CatNull.
Proof. destruct goal; simpl; [reflexivity | discriminate]. Qed.

Lemma normalizeGoal_tagged (n : WeeklyGoals.Normalized) :
  WeeklyGoals.normalizeGoal (WeeklyGoals.tagged n) = n.
Proof. destruct n; reflexivity. Qed.

(** C9: normalizing a sequence of plain strings gives, in the same order,
    one tagged entry per string with the string as goal text and category
    null; normalizing is idempotent, and a sequence that is already in the
    tagged-object format comes back unchanged. *)
Theorem C9_normalize_legacy_and_idempotent :
  (forall texts : list string,
      WeeklyGoals.normalize (map GoalString texts)
      = map (fun text => {| WeeklyGoals.goalText := text;
                            WeeklyGoals.category := CatNull |}) texts)
  /\ (forall weeklyGoals : list WeeklyGoalEntry,
        WeeklyGoals.normalize (map WeeklyGoals.tagged (WeeklyGoals.normalize weeklyGoals))
        = WeeklyGoals.normalize weeklyGoals)
  /\ (forall normalized : list WeeklyGoals.Normalized,
        WeeklyGoals.normalize (map WeeklyGoals.tagged normalized) = normalized)
  /\ (forall weeklyGoals : list WeeklyGoalEntry,
        forallb WeeklyGoals.isNewFormat weeklyGoals = true ->
        map WeeklyGoals.tagged (WeeklyGoals.normalize weeklyGoals) = weeklyGoals).
Proof.
  assert (Hfix : forall normalized : list WeeklyGoals.Normalized,
             WeeklyGoals.normalize (map WeeklyGoals.tagged normalized) = normalized).
  { intros normalized. unfold WeeklyGoals.normalize. rewrite map_map.
    rewrite (map_ext _ (fun n => n) normalizeGoal_tagged). apply map_id. }
  split; [| split; [| split]].
  - intros texts. unfold WeeklyGoals.normalize. rewrite map_map. reflexivity.
  - intros weeklyGoals. apply Hfix.
  - exact Hfix.
  - unfold WeeklyGoals.normalize.
    induction weeklyGoals as [| goal rest IH]; simpl; intros Hnew; [reflexivity |].
    apply andb_true_iff in Hnew. destruct Hnew as [Hgoal Hrest].
    rewrite (IH Hrest).
    destruct goal; [discriminate | reflexivity].
Qed.

Lemma C9_witness :
  map WeeklyGoals.tagged (WeeklyGoals.normalize [GoalObject "improve balance" (CatTag "motor")])
  = [GoalObject "improve balance" (CatTag "motor")]
  /\ WeeklyGoals.normalize (map GoalString ["sit still"; "wave hello"])
     = [ {| WeeklyGoals.goalText := "sit still"; WeeklyGoals.category := CatNull |};
         {| WeeklyGoals.goalText := "wave hello"; WeeklyGoals.category := CatNull |} ].
Proof.
  split.
  - exact (proj2 (proj2 (proj2 C9_normalize_legacy_and_idempotent))
             [GoalObject "improve balance" (CatTag "motor")] eq_refl).
  - exact (proj1 C9_normalize_legacy_and_idempotent ["sit still"; "wave hello"]).
Defined.

(** ** Completion rate *)

Section Rounding.

Import ProgressData.

Local Open Scope Z_scope.

Lemma Math_round_Qeq (x y : Q) : (x == y)%Q -> Math_round x = Math_round y.
Proof. intros H. unfold Math_round. apply Qfloor_comp. rewrite H. reflexivity. Qed.

Lemma Math_round_le (x y : Q) : (x <= y)%Q -> Math_round x <= Math_round y.
Proof. intros H. unfold Math_round. apply Qfloor_resp_le. lra. Qed.

(** Rounding a fraction: [Math.round(n/d) = floor((2n + d) / 2d)]. *)
Lemma Math_round_fraction (n : Z) (d : positive) :
  Math_round (n # d) = (2 * n + Zpos d) / (2 * Zpos d).
Proof.
  unfold Math_round.
  rewrite (Qfloor_comp ((n # d) + 0.5)%Q ((2 * n + Zpos d) # (2 * d))%Q).
  - reflexivity.
  - unfold Qeq, Qplus. cbn [Qnum Qden]. rewrite !Pos2Z.inj_mul. lia.
Qed.

(** The rate as integer arithmetic. *)
Lemma completionRateOf_div (completed total : nat) :
  (0 < total)%nat ->
  completionRateOf completed total
  = (200 * Z.of_nat completed + Z.of_nat total) / (2 * Z.of_nat total).
Proof.
  intros Hpos. unfold completionRateOf.
  destruct total as [| t]; [lia |].
  replace (0 <? S t)%nat with true by (symmetry; apply Nat.ltb_lt; lia).
  rewrite (Math_round_Qeq (y := (100 * Z.of_nat completed) # Pos.of_succ_nat t)).
  - rewrite Math_round_fraction.
    rewrite Zpos_P_of_succ_nat, <- Nat2Z.inj_succ.
    f_equal. lia.
  - unfold Qeq, Qdiv, Qmult, Qinv, inject_Z. cbn [Qnum Qden Z.of_nat].
    rewrite ?Pos2Z.inj_mul. lia.
Qed.

Lemma completionRateOf_zero (completed : nat) : completionRateOf completed 0 = 0.
Proof. reflexivity. Qed.


Lemma completionRateOf_all (total : nat) :
  (0 < total)%nat -> completionRateOf total total = 100.
Proof.
  intros Hpos. rewrite (completionRateOf_div total Hpos).
  replace (200 * Z.of_nat total + Z.of_nat total)
    with (Z.of_nat total + 100 * (2 * Z.of_nat total)) by lia.
  rewrite Z.div_add by lia.
  rewrite Z.div_small by lia. reflexivity.
Qed.

Lemma completionRateOf_bounds (completed total : nat) :
  (completed <= total)%nat -> 0 <= completionRateOf completed total <= 100.
Proof.
  intros Hle. destruct (Nat.eq_dec total 0) as [-> | Hne].
  - rewrite completionRateOf_zero. lia.
  - rewrite completionRateOf_div by lia.
    split.
    + apply Z.div_pos; lia.
    + apply Z.lt_succ_r. apply Z.div_lt_upper_bound; lia.
Qed.

End Rounding.

Lemma filter_all {A} (f : A -> bool) (l : list A) :
  forallb f l = true -> filter f l = l.
Proof.
  induction l as [| x xs IH]; simpl; intros H; [reflexivity |].
  apply andb_true_iff in H. destruct H as [Hx Hxs].
  rewrite Hx, (IH Hxs). reflexivity.
Qed.

(** The exact-rational reading of [(completed / total) * 100] is not
    essential: any value within [1 / (2 total)] of it, such as the double
    that JavaScript computes, still rounds to an integer nearest to
    [100 * completed / total] (at a tie, to either neighbour). *)
Lemma Math_round_near_percentage (completed total : nat) (y : Q) :
  (0 < total)%nat ->
  let x := (inject_Z (Z.of_nat completed) / inject_Z (Z.of_nat total) * 100)%Q in
  (Qabs (y - x) < 1 / (2 * inject_Z (Z.of_nat total)))%Q ->
  (Z.abs (2 * (ProgressData.Math_round y * Z.of_nat total - 100 * Z.of_nat completed))
   <= Z.of_nat total)%Z.
Proof.
  intros Hpos x Hnear.
  set (r := ProgressData.Math_round y).
  set (C := inject_Z (Z.of_nat completed)) in *.
  set (T := inject_Z (Z.of_nat total)) in *.
  set (R := inject_Z r).
  assert (HT : (0 < T)%Q).
  { subst T. rewrite <- (Zlt_Qlt 0). lia. }
  assert (Hx : (x * T == 100 * C)%Q) by (subst x; field; lra).
  set (e := (1 / (2 * T))%Q) in *.
  assert (He : (e * (2 * T) == 1)%Q) by (subst e; field; lra).
  apply Qabs_Qlt_condition in Hnear. destruct Hnear as [Hlo Hhi].
  assert (Hfl : (R <= y + 0.5)%Q) by (subst R r; apply Qfloor_le).
  assert (Hfu : (y + 0.5 < R + 1)%Q).
  { subst R r. unfold ProgressData.Math_round.
    pose proof (Qlt_floor (y + 0.5)) as H. rewrite inject_Z_plus in H. exact H. }
  assert (Hup : (2 * (R * T) - 200 * C < T + 1)%Q) by nra.
  assert (Hdn : (- T - 1 < 2 * (R * T) - 200 * C)%Q) by nra.
  assert (Hup' : (2 * (r * Z.of_nat total) - 200 * Z.of_nat completed
                  < Z.of_nat total + 1)%Z).
  { rewrite Zlt_Qlt.
    unfold Z.sub. rewrite !inject_Z_plus, inject_Z_opp, !inject_Z_mult.
    fold C T R. change (inject_Z 2) with 2%Q. change (inject_Z 200) with 200%Q.
    change (inject_Z 1) with 1%Q. lra. }
  assert (Hdn' : (- Z.of_nat total - 1
                  < 2 * (r * Z.of_nat total) - 200 * Z.of_nat completed)%Z).
  { rewrite Zlt_Qlt.
    unfold Z.sub. rewrite !inject_Z_plus, !inject_Z_opp, !inject_Z_mult.
    fold C T R. change (inject_Z 2) with 2%Q. change (inject_Z 200) with 200%Q.
    change (inject_Z 1) with 1%Q. lra. }
  lia.
Qed.

(** ** The weekly summary *)

Section WeeklySummaryFacts.

Import ProgressData.

Local Open Scope Z_scope.

(** The four iterations of the loop, written out: the bucket of week 3
    comes first, and bucket [k] uses the draw at position [k + n]. *)
Lemma generateWeeklySummary_buckets sessions today draws n :
  fst (generateWeeklySummary sessions today draws n)
  = [ fst (weekBucket sessions today 3 draws (3 + n)%nat);
      fst (weekBucket sessions today 2 draws (2 + n)%nat);
      fst (weekBucket sessions today 1 draws (1 + n)%nat);
      fst (weekBucket sessions today 0 draws n) ].
Proof. reflexivity. Qed.




End WeeklySummaryFacts.







(** ** The synthetic data generator *)

Section GeneratorFacts.

Import ProgressData.

Variables (childId : string) (days : nat) (today : Z).

Lemma sampleSession_pushedAt draws i k :
  pushedAt days today draws i (fst (sampleSession childId days today i draws k)).
Proof.
  unfold pushedAt, sampleSession, rbind, rret, Math_random.
  destruct (sampleFeedback days i (draws k)); unfold sampleMood, rbind, rret, Math_random.
  - cbn. split; [reflexivity | eauto].
  - cbn. split; [reflexivity | eauto].
  - destruct (Qltb (draws (S k)) 0.5); cbn; split; try reflexivity; eauto.
Qed.

Lemma sampleLoop_spec draws : forall n i acc k,
  exists new,
    fst (sampleLoop childId days today n i acc draws k) = (acc ++ new)%list
    /\ List.length new = n
    /\ forall j s, nth_error new j = Some s -> pushedAt days today draws (i + j) s.
Proof.
  induction n as [| n IH]; intros i acc k.
  - exists []. cbn. rewrite app_nil_r.
    split; [reflexivity | split; [reflexivity | intros [| j] s; discriminate]].
  - cbn [sampleLoop]. unfold rbind at 1.
    destruct (sampleSession childId days today i draws k) as [s k'] eqn:Es.
    destruct (IH (S i) (acc ++ [s])%list k') as (new & Hnew & Hlen & Hat).
    exists (s :: new). rewrite Hnew, <- app_assoc. split; [reflexivity |].
    split; [cbn; lia |].
    intros [| j] s' Hs'; cbn in Hs'.
    + injection Hs' as <-. rewrite Nat.add_0_r.
      pose proof (sampleSession_pushedAt draws i k) as H. rewrite Es in H. exact H.
    + replace (i + S j)%nat with (S i + j)%nat by lia. exact (Hat j s' Hs').
Qed.

(** The generator returns [days] records, oldest first: the record at
    [position] is the one pushed by iteration [days - 1 - position]. *)
Lemma generateSampleProgressData_spec draws k :
  let records := fst (generateSampleProgressData childId days today draws k) in
  List.length records = days
  /\ forall position s,
       nth_error records position = Some s ->
       pushedAt days today draws (days - 1 - position) s.
Proof.
  unfold generateSampleProgressData, rbind, rret.
  destruct (sampleLoop_spec draws days 0 [] k) as (new & Hnew & Hlen & Hat).
  destruct (sampleLoop childId days today days 0 [] draws k) as [sessions k'].
  cbn [fst] in *. cbn [app] in Hnew. subst sessions.
  split; [rewrite length_rev; exact Hlen |].
  intros position s Hs. rewrite nth_error_rev in Hs.
  destruct (Nat.ltb position (List.length new)) eqn:Hlt; [| discriminate].
  apply Nat.ltb_lt in Hlt.
  specialize (Hat _ _ Hs). rewrite Hlen in *.
  replace (days - 1 - position)%nat with (0 + (days - S position))%nat by lia.
  exact Hat.
Qed.

End GeneratorFacts.

(** A property of every position of a list, position by position. *)
Lemma Forall2_positions {A} (P : nat -> A -> Prop) (l : list A) : forall start n,
  List.length l = n ->
  (forall j x, nth_error l j = Some x -> P (start + j)%nat x) ->
  Forall2 P (seq start n) l.
Proof.
  induction l as [| x xs IH]; intros start n Hlen HP; simpl in Hlen; subst n.
  - constructor.
  - cbn [seq]. constructor.
    + specialize (HP 0%nat x eq_refl). rewrite Nat.add_0_r in HP. exact HP.
    + apply IH; [reflexivity |].
      intros j y Hy. replace (S start + j)%nat with (start + S j)%nat by lia.
      exact (HP (S j) y Hy).
Qed.

(** Over seventy equally spaced values of the draw, exactly [35 + 2 i] make
    the record of iteration [i] completed: the share is
    [completionChance 14 i]. *)
Lemma completionChance_share_of_draws :
  forallb (fun i =>
             Nat.eqb (List.length (filter (fun c => ProgressData.Qltb c
                                              (ProgressData.completionChance 14 i))
                                     (uniformGrid 70)))
                     (35 + 2 * i))
          (seq 0 14) = true.
Proof. vm_compute. reflexivity. Qed.

(** C3, on the code: the generator called with 14 days returns 14 records,
    oldest first, but the record at [position] is completed with the chance
    of iteration [13 - position], which is highest for the oldest record.
    The expected completion rate over positions 10 to 13 is 19/35 and over
    positions 0 to 3 it is 29/35: the records nearest today are the less
    often completed ones. *)
Theorem C3_generator_trend_runs_backwards
  (childId : string) (today : Z) (draws : nat -> Q) (k : nat) :
  let records := fst (ProgressData.generateSampleProgressData childId 14 today draws k) in
  List.length records = 14%nat
  /\ Forall2 (fun position s =>
                ProgressData.completedAt s
                = Some (ProgressData.addDays today (- Z.of_nat (13 - position)))
                /\ exists m,
                     ProgressData.completed s
                     = ProgressData.Qltb (draws m)
                         (ProgressData.completionChance 14 (13 - position)))
             (seq 0 14) records
  /\ (exists first last dateFirst dateLast,
        nth_error records 0 = Some first /\ nth_error records 13 = Some last
        /\ ProgressData.completedAt first = Some dateFirst
        /\ ProgressData.completedAt last = Some dateLast
        /\ (dateFirst < dateLast)%Z)
  /\ expectedCompletionRate 14 [10; 11; 12; 13]%nat == 19 # 35
  /\ expectedCompletionRate 14 [0; 1; 2; 3]%nat == 29 # 35
  /\ expectedCompletionRate 14 [10; 11; 12; 13]%nat < expectedCompletionRate 14 [0; 1; 2; 3]%nat.
Proof.
  intros records.
  destruct (generateSampleProgressData_spec childId 14 today draws k) as [Hlen Hat].
  fold records in Hlen, Hat.
  split; [exact Hlen |].
  split; [apply Forall2_positions; [exact Hlen | exact Hat] |].
  split.
  - destruct (nth_error records 0) as [first |] eqn:E0;
      [| apply nth_error_None in E0; lia].
    destruct (nth_error records 13) as [last |] eqn:E13;
      [| apply nth_error_None in E13; lia].
    destruct (Hat _ _ E0) as [H0 _]. destruct (Hat _ _ E13) as [H13 _].
    do 4 eexists. repeat split; try eassumption; try reflexivity.
    unfold ProgressData.addDays, ProgressData.msPerDay. cbn. lia.
  - repeat split; vm_compute; reflexivity.
Qed.

(** ** Linking a child to a parent or a therapist *)

#[local] Arguments String.eqb : simpl never.

(** The parent path checks before it writes: when the first document with
    the National ID is linked to another parent, the collection is left as
    it was and the form shows the conflict. *)
Lemma handleAddChild_refuses_other_parent fs user (w : World ParentProfile.State) c rest :
  getDocs_outcome fs = Ok tt ->
  filter (fun d => String.eqb (child_nationalId d) (ParentProfile.nationalId (ui w)))
         (children w) = c :: rest ->
  child_parentId c <> "" ->
  child_parentId c <> uid user ->
  let w' := snd (ParentProfile.handleAddChild fs (Some user) w) in
  children w' = children w
  /\ ParentProfile.error (ui w') = "This child is already linked to another parent account".
Proof.
  intros Hget Hq Hlinked Hother. destruct w as [ps os cs u]. cbn [ui children] in *.
  unfold ParentProfile.handleAddChild, ParentProfile.setError, ParentProfile.setLoading,
    getChildren.
  run_async. rewrite Hget. cbn. rewrite Hq.
  apply String.eqb_neq in Hlinked. apply String.eqb_neq in Hother.
  rewrite Hlinked, Hother. cbn. split; reflexivity.
Qed.

(** The therapist path writes without looking: whatever [therapistId] the
    stored document has, an accepted update replaces it. *)
Lemma handleAssignToMe_overwrites fs user child (w : World PatientList.State) stored :
  find (fun d => String.eqb (child_id d) (child_id child)) (children w) = Some stored ->
  allow_update fs user stored = true ->
  let w' := snd (PatientList.handleAssignToMe fs (Some user) child w) in
  forall d,
    In d (children w') ->
    child_id d = child_id child ->
    child_therapistId d = Some (uid user).
Proof.
  intros Hfind Hallow. destruct w as [ps os cs u]. cbn [children] in *.
  unfold PatientList.handleAssignToMe, PatientList.alert, PatientList.setSearchResults,
    PatientList.setSearchNationalId, PatientList.setShowSearchForm, PatientList.onRefresh,
    updateChild.
  run_async. rewrite Hfind, Hallow. cbn.
  intros d Hin Hid. apply in_map_iff in Hin. destruct Hin as (c & Hc & _).
  destruct (String.eqb (child_id c) (child_id child)) eqn:E.
  - subst d. reflexivity.
  - subst d. apply String.eqb_neq in E. contradiction.
Qed.


(** ** What the dashboard aggregates *)

(** The dashboard never aggregates an empty sequence: without real sessions
    it takes the fourteen generated ones. *)
Lemma sessionsOrSample_nonempty sessionsData childId today draws k :
  fst (ProgressDashboard.sessionsOrSample sessionsData childId today draws k) <> [].
Proof.
  destruct sessionsData as [| s rest]; cbn [ProgressDashboard.sessionsOrSample].
  - destruct (generateSampleProgressData_spec childId 14 today draws k) as [Hlen _].
    intros Hnil. rewrite Hnil in Hlen. discriminate.
  - cbn. discriminate.
Qed.

(** A goal index outside the goals of the plan reads [undefined] in the
    task card: nothing is shown for it. *)
Lemma goalOfTask_out_of_range weeklyGoals index :
  goalIndexInRange weeklyGoals index = false ->
  WeeklyGoals.goalOfTask weeklyGoals index = None.
Proof.
  unfold goalIndexInRange, WeeklyGoals.goalOfTask. intros H.
  destruct (index <? 0)%Z eqn:Eneg; [reflexivity |].
  apply Z.ltb_ge in Eneg.
  apply andb_false_iff in H. destruct H as [H | H].
  - apply Z.leb_gt in H. lia.
  - apply Z.ltb_ge in H.
    assert (Hnone : nth_error weeklyGoals (Z.to_nat index) = None)
      by (apply nth_error_None; lia).
    rewrite Hnone. reflexivity.
Qed.

(** * Further properties of the modelled code *)

(** ** Printing numbers *)




(** ** The submit handlers, in full *)

Module FormRuns.

Import TreatmentPlanForm.

#[local] Arguments voiceRef : simpl never.
#[local] Arguments docRef : simpl never.
#[local] Arguments enrichTasks : simpl never.
#[local] Arguments OpenAI.transcribeAudio : simpl never.
#[local] Arguments OpenAI.summarizeTreatmentPlan : simpl never.
#[local] Arguments or_else : simpl never.
#[local] Arguments opt_or_else : simpl never.

(** A failed run of the form changes no plan, ends with [loading] reset and
    leaves a prefix of its uploads behind; a successful run appends the plan
    written out below and leaves all its uploads. *)
Lemma form_run sv now language child user onComplete w voice :
  voiceFile (ui w) = Some voice ->
  let w' := snd (handleSubmit sv now language child (Some user) onComplete w) in
  children w' = children w
  /\ loading (ui w') = false
  /\ ((plans w' = plans w
       /\ error (ui w') <> ""
       /\ onCompleteScheduled (ui w') = onCompleteScheduled (ui w)
       /\ exists k, objects w'
                    = (objects w ++ firstn k (formUploads now voice (documentFile (ui w))))%list)
      \/ exists voiceUrl transcription summary tasks enriched,
           storage_getDownloadURL sv (voiceRef now voice) = Ok voiceUrl
           /\ OpenAI.transcribeAudio sv voice = Ok transcription
           /\ OpenAI.summarizeTreatmentPlan sv transcription language = Ok (Some summary)
           /\ sum_dailyTasks summary = Some tasks
           /\ enrichTasks sv now language tasks = Ok enriched
           /\ plans w'
              = (plans w ++
                 [ {| plan_childId := child_id child;
                      plan_therapistId := uid user;
                      plan_voiceRecordingUrl := voiceUrl;
                      plan_transcription := transcription;
                      plan_documentUrl :=
                        match documentFile (ui w) with
                        | Some d =>
                            match storage_getDownloadURL sv (docRef now d) with
                            | Ok url => url
                            | Thrown _ => ""
                            end
                        | None => ""
                        end;
                      plan_summary := sum_summary summary;
                      plan_therapyType := None;
                      plan_weeklyGoals := sum_weeklyGoals summary;
                      plan_dailyTasks := enriched;
                      plan_createdAt := now;
                      plan_updatedAt := now |} ])%list
           /\ objects w' = (objects w ++ formUploads now voice (documentFile (ui w)))%list
           /\ error (ui w') = ""
           /\ status (ui w') = Created
           /\ voiceFile (ui w') = None
           /\ documentFile (ui w') = None
           /\ onCompleteScheduled (ui w') = (onComplete || onCompleteScheduled (ui w))%bool).
Proof.
  destruct w as [ps os cs u]. cbn [ui plans objects children]. intros Hvoice.
  unfold handleSubmit. cbn [ui]. rewrite Hvoice.
  assert (Hmsg : forall m, or_else m "Failed to create treatment plan" <> "")
    by (intros m; apply or_else_nonempty; discriminate).
  unfold submitSteps, setError, setLoading, setStatus, setVoiceFile, setDocumentFile,
    scheduleOnComplete, formUploads.
  run_async.
  assert (K0 : os = (os ++ firstn 0 (voiceRef now voice ::
                       match documentFile u with Some d => [docRef now d] | None => [] end))%list)
    by (cbn; rewrite app_nil_r; reflexivity).
  assert (K1 : (os ++ [voiceRef now voice])%list
               = (os ++ firstn 1 (voiceRef now voice ::
                       match documentFile u with Some d => [docRef now d] | None => [] end))%list)
    by reflexivity.
  destruct (storage_uploadBytes sv (voiceRef now voice) voice) as [[] | e] eqn:E1;
    cbn; [| repeat split; auto; left; repeat split; auto; exists 0%nat; exact K0].
  destruct (storage_getDownloadURL sv (voiceRef now voice)) as [voiceUrl | e] eqn:E2;
    cbn; [| repeat split; auto; left; repeat split; auto; exists 1%nat; exact K1].
  destruct (OpenAI.transcribeAudio sv voice) as [transcription | e] eqn:E3;
    cbn; [| repeat split; auto; left; repeat split; auto; exists 1%nat; exact K1].
  destruct (OpenAI.summarizeTreatmentPlan sv transcription language)
    as [[summary |] | e] eqn:E4; cbn;
    [| repeat split; auto; left; repeat split; auto; exists 1%nat; exact K1
     | repeat split; auto; left; repeat split; auto; exists 1%nat; exact K1].
  destruct (sum_dailyTasks summary) as [tasks |] eqn:E5; cbn;
    [| repeat split; auto; left; repeat split; auto; exists 1%nat; exact K1].
  destruct (enrichTasks sv now language tasks) as [enriched | e] eqn:E6;
    cbn; [| repeat split; auto; left; repeat split; auto; exists 1%nat; exact K1].
  clear K0 K1.
  destruct (documentFile u) as [d |] eqn:Edoc; cbn.
  - destruct (storage_uploadBytes sv (docRef now d) d) as [[] | e] eqn:E7;
      cbn; [| repeat split; auto; left; repeat split; auto; exists 1%nat; reflexivity].
    destruct (storage_getDownloadURL sv (docRef now d)) as [documentUrl | e] eqn:E8;
      cbn; [| repeat split; auto; left; repeat split; auto; exists 2%nat;
              cbn; rewrite <- app_assoc; reflexivity].
    match goal with
    | |- context [firestore_addDoc sv ?p] =>
        destruct (firestore_addDoc sv p) as [[] | e] eqn:E9; cbn;
        [| repeat split; auto; left; repeat split; auto; exists 2%nat;
           cbn; rewrite <- app_assoc; reflexivity]
    end.
    destruct onComplete; cbn; (split; [reflexivity |]); (split; [reflexivity |]);
      right; exists voiceUrl, transcription, summary, tasks, enriched;
      rewrite <- app_assoc; repeat split; auto.
  - match goal with
    | |- context [firestore_addDoc sv ?p] =>
        destruct (firestore_addDoc sv p) as [[] | e] eqn:E9; cbn;
        [| repeat split; auto; left; repeat split; auto; exists 1%nat; reflexivity]
    end.
    destruct onComplete; cbn; (split; [reflexivity |]); (split; [reflexivity |]);
      right; exists voiceUrl, transcription, summary, tasks, enriched;
      repeat split; auto.
Qed.

End FormRuns.

Module RecorderRuns.

Import VoiceRecorder.

#[local] Arguments voiceRef : simpl never.
#[local] Arguments docRef : simpl never.
#[local] Arguments enrichTasks : simpl never.
#[local] Arguments OpenAI.transcribeAudio : simpl never.
#[local] Arguments OpenAI.summarizeTreatmentPlan : simpl never.
#[local] Arguments or_else : simpl never.
#[local] Arguments opt_or_else : simpl never.

(** A failed run of the recorder changes no plan, resets [processing] and
    leaves a prefix of its uploads behind; a successful run appends the plan
    written out below, leaves all its uploads and keeps [processing] set. *)
Lemma recorder_run sv now language child user w voice :
  fileToProcess (ui w) = Some voice ->
  let w' := snd (handleSubmit sv now language child (Some user) w) in
  children w' = children w
  /\ ((plans w' = plans w
       /\ processing (ui w') = false
       /\ error (ui w') <> ""
       /\ onCompleteScheduled (ui w') = onCompleteScheduled (ui w)
       /\ exists k, objects w'
                    = (objects w ++ firstn k (recorderUploads now child voice (documentFile (ui w))))%list)
      \/ exists voiceUrl transcription summary tasks enriched,
           storage_getDownloadURL sv (voiceRef now child voice) = Ok voiceUrl
           /\ OpenAI.transcribeAudio sv voice = Ok transcription
           /\ OpenAI.summarizeTreatmentPlan sv transcription language = Ok (Some summary)
           /\ sum_dailyTasks summary = Some tasks
           /\ enrichTasks sv now "en" tasks = Ok enriched
           /\ plans w'
              = (plans w ++
                 [ {| plan_childId := child_id child;
                      plan_therapistId := uid user;
                      plan_voiceRecordingUrl := voiceUrl;
                      plan_transcription := transcription;
                      plan_documentUrl :=
                        match documentFile (ui w) with
                        | Some d =>
                            match storage_getDownloadURL sv (docRef now child d) with
                            | Ok url => url
                            | Thrown _ => ""
                            end
                        | None => ""
                        end;
                      plan_summary := sum_summary summary;
                      plan_therapyType := Some (opt_or_else (sum_therapyType summary) "behavior");
                      plan_weeklyGoals := sum_weeklyGoals summary;
                      plan_dailyTasks := enriched;
                      plan_createdAt := now;
                      plan_updatedAt := now |} ])%list
           /\ objects w' = (objects w ++ recorderUploads now child voice (documentFile (ui w)))%list
           /\ error (ui w') = ""
           /\ status (ui w') = Created
           /\ processing (ui w') = true
           /\ onCompleteScheduled (ui w') = true).
Proof.
  destruct w as [ps os cs u]. cbn [ui plans objects children]. intros Hvoice.
  unfold handleSubmit. cbn [ui]. rewrite Hvoice.
  assert (Hmsg : forall m, or_else m "Failed to process recording" <> "")
    by (intros m; apply or_else_nonempty; discriminate).
  unfold submitSteps, setError, setProcessing, setStatus, scheduleOnComplete,
    recorderUploads.
  run_async.
  assert (K0 : os = (os ++ firstn 0 (voiceRef now child voice ::
                       match documentFile u with Some d => [docRef now child d] | None => [] end))%list)
    by (cbn; rewrite app_nil_r; reflexivity).
  assert (K1 : (os ++ [voiceRef now child voice])%list
               = (os ++ firstn 1 (voiceRef now child voice ::
                       match documentFile u with Some d => [docRef now child d] | None => [] end))%list)
    by reflexivity.
  destruct (storage_uploadBytes sv (voiceRef now child voice) voice) as [[] | e] eqn:E1;
    cbn; [| repeat split; auto; left; repeat split; auto; exists 0%nat; exact K0].
  destruct (storage_getDownloadURL sv (voiceRef now child voice)) as [voiceUrl | e] eqn:E2;
    cbn; [| repeat split; auto; left; repeat split; auto; exists 1%nat; exact K1].
  destruct (OpenAI.transcribeAudio sv voice) as [transcription | e] eqn:E3;
    cbn; [| repeat split; auto; left; repeat split; auto; exists 1%nat; exact K1].
  destruct (OpenAI.summarizeTreatmentPlan sv transcription language)
    as [[summary |] | e] eqn:E4; cbn;
    [| repeat split; auto; left; repeat split; auto; exists 1%nat; exact K1
     | repeat split; auto; left; repeat split; auto; exists 1%nat; exact K1].
  destruct (sum_dailyTasks summary) as [tasks |] eqn:E5; cbn;
    [| repeat split; auto; left; repeat split; auto; exists 1%nat; exact K1].
  destruct (enrichTasks sv now "en" tasks) as [enriched | e] eqn:E6;
    cbn; [| repeat split; auto; left; repeat split; auto; exists 1%nat; exact K1].
  clear K0 K1.
  destruct (documentFile u) as [d |] eqn:Edoc; cbn.
  - destruct (storage_uploadBytes sv (docRef now child d) d) as [[] | e] eqn:E7;
      cbn; [| repeat split; auto; left; repeat split; auto; exists 1%nat; reflexivity].
    destruct (storage_getDownloadURL sv (docRef now child d)) as [documentUrl | e] eqn:E8;
      cbn; [| repeat split; auto; left; repeat split; auto; exists 2%nat;
              cbn; rewrite <- app_assoc; reflexivity].
    match goal with
    | |- context [firestore_addDoc sv ?p] =>
        destruct (firestore_addDoc sv p) as [[] | e] eqn:E9; cbn;
        [| repeat split; auto; left; repeat split; auto; exists 2%nat;
           cbn; rewrite <- app_assoc; reflexivity]
    end.
    cbn; (split; [reflexivity |]);
      right; exists voiceUrl, transcription, summary, tasks, enriched;
      rewrite <- app_assoc; repeat split; auto.
  - match goal with
    | |- context [firestore_addDoc sv ?p] =>
        destruct (firestore_addDoc sv p) as [[] | e] eqn:E9; cbn;
        [| repeat split; auto; left; repeat split; auto; exists 1%nat; reflexivity]
    end.
    cbn; (split; [reflexivity |]);
      right; exists voiceUrl, transcription, summary, tasks, enriched;
      repeat split; auto.
Qed.

End RecorderRuns.

(** ** What a persisted plan looks like *)

(** An enriched task, written out. *)
Lemma enrichTask_explicit sv now language task index t :
  enrichTask sv now language task index = Ok t ->
  exists suggestion,
    OpenAI.generateDemoVideoSuggestion sv (raw_description task) language = Ok suggestion
    /\ t = {| task_id := "task_" ++ show_Z now ++ "_" ++ show_nat index;
              title := raw_title task;
              description := raw_description task;
              whyItMatters := raw_whyItMatters task;
              weeklyGoalIndex := raw_weeklyGoalIndex task;
              demoVideoSuggestion := Some suggestion;
              demoVideoUrl := None;
              editable := true;
              task_createdAt := now |}.
Proof.
  unfold enrichTask.
  destruct (OpenAI.generateDemoVideoSuggestion sv (raw_description task) language)
    as [s | e]; intros H; [| discriminate].
  injection H as <-. eauto.
Qed.

(** The enriched tasks are the summarized tasks, one for one and in order;
    the id of the task at [index] is [task_<now>_<index>]. *)
Lemma map_indexed_enrich_shape sv now language tasks : forall index enriched,
  map_indexed (enrichTask sv now language) index tasks = map Ok enriched ->
  map task_id enriched
  = map (fun j => "task_" ++ show_Z now ++ "_" ++ show_nat j)%string
        (seq index (List.length tasks))
  /\ map title enriched = map raw_title tasks
  /\ map whyItMatters enriched = map raw_whyItMatters tasks
  /\ Forall (fun t => editable t = true /\ demoVideoUrl t = None /\ task_createdAt t = now)
            enriched.
Proof.
  induction tasks as [| task rest IH]; intros index enriched H; simpl in *.
  - destruct enriched; [| discriminate]. repeat split; constructor.
  - destruct enriched as [| t ts]; [discriminate |].
    simpl in H. injection H as Ht Hrest.
    destruct (IH _ _ Hrest) as (Hid & Htitle & Hwhy & Hall).
    destruct (enrichTask_explicit _ _ _ _ _ Ht) as (s & _ & ->).
    cbn [map task_id title whyItMatters].
    rewrite Hid, Htitle, Hwhy.
    repeat split. constructor; [repeat split | exact Hall].
Qed.

Lemma enrichTasks_shape sv now language tasks enriched :
  enrichTasks sv now language tasks = Ok enriched ->
  map task_id enriched
  = map (fun j => "task_" ++ show_Z now ++ "_" ++ show_nat j)%string
        (seq 0 (List.length tasks))
  /\ map title enriched = map raw_title tasks
  /\ map whyItMatters enriched = map raw_whyItMatters tasks
  /\ Forall (fun t => editable t = true /\ demoVideoUrl t = None /\ task_createdAt t = now)
            enriched.
Proof.
  unfold enrichTasks. intros H. apply Promise_all_Ok in H.
  eapply map_indexed_enrich_shape; eauto.
Qed.




(** Without a signed-in user or without a recording the handlers return at
    once. *)
Lemma form_guard sv now language child currentUser onComplete w :
  currentUser = None \/ TreatmentPlanForm.voiceFile (ui w) = None ->
  TreatmentPlanForm.handleSubmit sv now language child currentUser onComplete w = (Ok tt, w).
Proof.
  unfold TreatmentPlanForm.handleSubmit. intros [-> | ->]; [reflexivity |].
  destruct currentUser; reflexivity.
Qed.

Lemma recorder_guard sv now language child currentUser w :
  currentUser = None \/ VoiceRecorder.fileToProcess (ui w) = None ->
  VoiceRecorder.handleSubmit sv now language child currentUser w = (Ok tt, w).
Proof.
  unfold VoiceRecorder.handleSubmit. intros [-> | ->]; [reflexivity |].
  destruct currentUser; reflexivity.
Qed.

(** X1: whatever the services answer and whoever is signed in, a run of
    either submit handler only appends: the [children] collection is left
    alone, at most one plan is added after the existing ones, at most two
    objects are added to the bucket, and no plan is added unless an object
    was. *)
Theorem X1_submit_only_appends
  sv now language child currentUser onComplete
  (wf : World TreatmentPlanForm.State) (wr : World VoiceRecorder.State) :
  let wf' := snd (TreatmentPlanForm.handleSubmit sv now language child currentUser
                    onComplete wf) in
  let wr' := snd (VoiceRecorder.handleSubmit sv now language child currentUser wr) in
  (children wf' = children wf
   /\ exists newPlans newObjects,
        plans wf' = (plans wf ++ newPlans)%list
        /\ objects wf' = (objects wf ++ newObjects)%list
        /\ (List.length newPlans <= 1)%nat /\ (List.length newObjects <= 2)%nat
        /\ (newObjects = [] -> newPlans = []))
  /\ (children wr' = children wr
      /\ exists newPlans newObjects,
           plans wr' = (plans wr ++ newPlans)%list
           /\ objects wr' = (objects wr ++ newObjects)%list
           /\ (List.length newPlans <= 1)%nat /\ (List.length newObjects <= 2)%nat
           /\ (newObjects = [] -> newPlans = [])).
Proof.
  intros wf' wr'. subst wf' wr'. split.
  - destruct currentUser as [user |];
      [destruct (TreatmentPlanForm.voiceFile (ui wf)) as [voice |] eqn:Ev |].
    + destruct (FormRuns.form_run sv now language child user onComplete wf Ev)
        as (Hc & _ & [(Hp & _ & _ & k & Ho) | Hs]).
      * split; [exact Hc |].
        exists [], (firstn k (formUploads now voice
                                (TreatmentPlanForm.documentFile (ui wf)))).
        rewrite app_nil_r. repeat split; auto.
        rewrite length_firstn. unfold formUploads.
        destruct (TreatmentPlanForm.documentFile (ui wf)); cbn; lia.
      * destruct Hs as (vu & tr & sm & ts & en & _ & _ & _ & _ & _ & Hp & Ho & _).
        split; [exact Hc |]. eexists _, _. split; [exact Hp |]. split; [exact Ho |].
        unfold formUploads.
        destruct (TreatmentPlanForm.documentFile (ui wf)); cbn;
          repeat split; try lia; discriminate.
    + rewrite form_guard by (right; exact Ev). cbn.
      split; [reflexivity |]. exists [], []. rewrite !app_nil_r. repeat split; auto.
    + rewrite form_guard by (left; reflexivity). cbn.
      split; [reflexivity |]. exists [], []. rewrite !app_nil_r. repeat split; auto.
  - destruct currentUser as [user |];
      [destruct (VoiceRecorder.fileToProcess (ui wr)) as [voice |] eqn:Ev |].
    + destruct (RecorderRuns.recorder_run sv now language child user wr Ev)
        as (Hc & [(Hp & _ & _ & _ & k & Ho) | Hs]).
      * split; [exact Hc |].
        exists [], (firstn k (recorderUploads now child voice
                                (VoiceRecorder.documentFile (ui wr)))).
        rewrite app_nil_r. repeat split; auto.
        rewrite length_firstn. unfold recorderUploads.
        destruct (VoiceRecorder.documentFile (ui wr)); cbn; lia.
      * destruct Hs as (vu & tr & sm & ts & en & _ & _ & _ & _ & _ & Hp & Ho & _).
        split; [exact Hc |]. eexists _, _. split; [exact Hp |]. split; [exact Ho |].
        unfold recorderUploads.
        destruct (VoiceRecorder.documentFile (ui wr)); cbn;
          repeat split; try lia; discriminate.
    + rewrite recorder_guard by (right; exact Ev). cbn.
      split; [reflexivity |]. exists [], []. rewrite !app_nil_r. repeat split; auto.
    + rewrite recorder_guard by (left; reflexivity). cbn.
      split; [reflexivity |]. exists [], []. rewrite !app_nil_r. repeat split; auto.
Qed.

(** A plan added by the form is the one that [form_run] writes out. *)
Lemma form_persisted sv now language child currentUser onComplete w doc :
  plans (snd (TreatmentPlanForm.handleSubmit sv now language child currentUser onComplete w))
  = (plans w ++ [doc])%list ->
  exists user voice transcription summary tasks enriched,
    currentUser = Some user
    /\ TreatmentPlanForm.voiceFile (ui w) = Some voice
    /\ OpenAI.transcribeAudio sv voice = Ok transcription
    /\ OpenAI.summarizeTreatmentPlan sv transcription language = Ok (Some summary)
    /\ sum_dailyTasks summary = Some tasks
    /\ enrichTasks sv now language tasks = Ok enriched
    /\ plan_dailyTasks doc = enriched
    /\ plan_therapyType doc = None
    /\ plan_childId doc = child_id child
    /\ plan_therapistId doc = uid user
    /\ plan_transcription doc = transcription
    /\ plan_summary doc = sum_summary summary
    /\ plan_createdAt doc = now
    /\ plan_updatedAt doc = now.
Proof.
  intros Hdoc.
  destruct currentUser as [user |];
    [destruct (TreatmentPlanForm.voiceFile (ui w)) as [voice |] eqn:Ev |].
  - destruct (FormRuns.form_run sv now language child user onComplete w Ev)
      as (_ & _ & [(Hp & _) | Hs]).
    + exfalso. rewrite Hp in Hdoc. exact (@app_singleton_neq _ _ _ Hdoc).
    + destruct Hs as (vu & tr & sm & ts & en & _ & Htr & Hsum & Hts & Hen & Hp & _).
      rewrite Hp in Hdoc. apply app_inv_head in Hdoc. injection Hdoc as <-.
      exists user, voice, tr, sm, ts, en. cbn. repeat split; auto.
  - exfalso. rewrite form_guard in Hdoc by (right; exact Ev).
    exact (@app_singleton_neq _ _ _ Hdoc).
  - exfalso. rewrite form_guard in Hdoc by (left; reflexivity).
    exact (@app_singleton_neq _ _ _ Hdoc).
Qed.

(** The same for the recorder, which also stores a therapy type. *)
Lemma recorder_persisted sv now language child currentUser w doc :
  plans (snd (VoiceRecorder.handleSubmit sv now language child currentUser w))
  = (plans w ++ [doc])%list ->
  exists user voice transcription summary tasks enriched,
    currentUser = Some user
    /\ VoiceRecorder.fileToProcess (ui w) = Some voice
    /\ OpenAI.transcribeAudio sv voice = Ok transcription
    /\ OpenAI.summarizeTreatmentPlan sv transcription language = Ok (Some summary)
    /\ sum_dailyTasks summary = Some tasks
    /\ enrichTasks sv now "en" tasks = Ok enriched
    /\ plan_dailyTasks doc = enriched
    /\ plan_therapyType doc = Some (opt_or_else (sum_therapyType summary) "behavior")
    /\ plan_childId doc = child_id child
    /\ plan_therapistId doc = uid user
    /\ plan_transcription doc = transcription
    /\ plan_summary doc = sum_summary summary
    /\ plan_createdAt doc = now
    /\ plan_updatedAt doc = now.
Proof.
  intros Hdoc.
  destruct currentUser as [user |];
    [destruct (VoiceRecorder.fileToProcess (ui w)) as [voice |] eqn:Ev |].
  - destruct (RecorderRuns.recorder_run sv now language child user w Ev)
      as (_ & [(Hp & _) | Hs]).
    + exfalso. rewrite Hp in Hdoc. exact (@app_singleton_neq _ _ _ Hdoc).
    + destruct Hs as (vu & tr & sm & ts & en & _ & Htr & Hsum & Hts & Hen & Hp & _).
      rewrite Hp in Hdoc. apply app_inv_head in Hdoc. injection Hdoc as <-.
      exists user, voice, tr, sm, ts, en. cbn. repeat split; auto.
  - exfalso. rewrite recorder_guard in Hdoc by (right; exact Ev).
    exact (@app_singleton_neq _ _ _ Hdoc).
  - exfalso. rewrite recorder_guard in Hdoc by (left; reflexivity).
    exact (@app_singleton_neq _ _ _ Hdoc).
Qed.





Unset Implicit Arguments.

#[local] Arguments TreatmentPlanForm.voiceRef : simpl never.
#[local] Arguments TreatmentPlanForm.docRef : simpl never.



(** X4: a plan persisted by the recorder always carries a non-empty therapy
    type: the one of the summarization payload, or ['behavior'] when the
    payload has none or an empty one.  The value is not checked against the
    four known types.  A plan persisted by the form carries no therapy type
    at all. *)
Theorem X4_stored_therapy_type
  sv now language child currentUser onComplete
  (wf : World TreatmentPlanForm.State) (wr : World VoiceRecorder.State) :
  (forall doc,
      plans (snd (VoiceRecorder.handleSubmit sv now language child currentUser wr))
      = (plans wr ++ [doc])%list ->
      exists voice transcription summary,
        VoiceRecorder.fileToProcess (ui wr) = Some voice
        /\ OpenAI.transcribeAudio sv voice = Ok transcription
        /\ OpenAI.summarizeTreatmentPlan sv transcription language = Ok (Some summary)
        /\ (forall t, sum_therapyType summary = Some t -> t <> "" ->
            plan_therapyType doc = Some t)
        /\ (sum_therapyType summary = None \/ sum_therapyType summary = Some "" ->
            plan_therapyType doc = Some "behavior")
        /\ truthy (plan_therapyType doc) = true)
  /\ (forall doc,
        plans (snd (TreatmentPlanForm.handleSubmit sv now language child currentUser
                      onComplete wf)) = (plans wf ++ [doc])%list ->
        plan_therapyType doc = None).
Proof.
  split; intros doc H.
  - apply recorder_persisted in H.
    destruct H as (user & voice & tr & sm & ts & en & _ & Hv & Htr & Hsum & _ & _ & _
                   & Htype & _).
    exists voice, tr, sm.
    split; [exact Hv |]. split; [exact Htr |]. split; [exact Hsum |].
    rewrite Htype. unfold opt_or_else, or_else.
    split; [| split].
    + intros t -> Ht. apply String.eqb_neq in Ht. rewrite Ht. reflexivity.
    + intros [-> | ->]; reflexivity.
    + destruct (sum_therapyType sm) as [t |]; [| reflexivity].
      destruct (String.eqb t "") eqn:E; cbn; [reflexivity | rewrite E; reflexivity].
  - apply form_persisted in H.
    destruct H as (user & voice & tr & sm & ts & en & _ & _ & _ & _ & _ & _ & _ & Htype & _).
    exact Htype.
Qed.

Lemma X4_witness :
  exists doc,
    plans (snd (VoiceRecorder.handleSubmit Fakes.noTherapyType Fakes.now "en" Fakes.child
                  (Some Fakes.therapist) (Fakes.recorder None))) = [doc]
    /\ truthy (plan_therapyType doc) = true
    /\ plan_therapyType doc = Some "behavior".
Proof.
  eexists. split; [reflexivity |]. split; [| reflexivity].
  match goal with
  | |- truthy (plan_therapyType ?d) = true =>
      destruct (proj1 (X4_stored_therapy_type
                  Fakes.noTherapyType Fakes.now "en" Fakes.child (Some Fakes.therapist) true
                  (Fakes.form None) (Fakes.recorder None)) d eq_refl)
        as (_ & _ & _ & _ & _ & _ & _ & _ & H); exact H
  end.
Defined.

(** X6: a summarization that returns without a usable payload (an empty
    answer, JSON [null], or an object without [dailyTasks]) stops both
    handlers like a failed stage: no plan is persisted and an error message
    is shown, although [summarizeTreatmentPlan] itself did not throw. *)
Theorem X6_unusable_summary_persists_nothing
  sv now language child user onComplete
  (wf : World TreatmentPlanForm.State) (wr : World VoiceRecorder.State) voice :
  TreatmentPlanForm.voiceFile (ui wf) = Some voice ->
  VoiceRecorder.fileToProcess (ui wr) = Some voice ->
  (forall transcription summary,
      OpenAI.summarizeTreatmentPlan sv transcription language = Ok (Some summary) ->
      sum_dailyTasks summary = None) ->
  let wf' := snd (TreatmentPlanForm.handleSubmit sv now language child (Some user)
                    onComplete wf) in
  let wr' := snd (VoiceRecorder.handleSubmit sv now language child (Some user) wr) in
  plans wf' = plans wf /\ TreatmentPlanForm.error (ui wf') <> ""
  /\ plans wr' = plans wr /\ VoiceRecorder.error (ui wr') <> "".
Proof.
  intros Hvf Hvr Hbad wf' wr'. subst wf' wr'.
  destruct (FormRuns.form_run sv now language child user onComplete wf Hvf)
    as (_ & _ & [(Hp & He & _) | Hs]).
  - destruct (RecorderRuns.recorder_run sv now language child user wr Hvr)
      as (_ & [(Hp' & _ & He' & _) | Hs]).
    + repeat split; auto.
    + exfalso. destruct Hs as (vu & tr & sm & ts & en & _ & _ & Hsum & Hts & _).
      rewrite (Hbad _ _ Hsum) in Hts. discriminate.
  - exfalso. destruct Hs as (vu & tr & sm & ts & en & _ & _ & Hsum & Hts & _).
    rewrite (Hbad _ _ Hsum) in Hts. discriminate.
Qed.

Lemma X6_witness :
  plans (snd (TreatmentPlanForm.handleSubmit Fakes.emptyAnswer Fakes.now "en" Fakes.child
                (Some Fakes.therapist) true (Fakes.withOnePlan (Fakes.form None))))
  = plans (Fakes.withOnePlan (Fakes.form None))
  /\ OpenAI.summarizeTreatmentPlan Fakes.emptyAnswer "we practiced balance" "en" = Ok None.
Proof.
  split; [| reflexivity].
  refine (proj1 (X6_unusable_summary_persists_nothing
            Fakes.emptyAnswer Fakes.now "en" Fakes.child Fakes.therapist true
            (Fakes.withOnePlan (Fakes.form None)) (Fakes.withOnePlan (Fakes.recorder None))
            Fakes.recording eq_refl eq_refl _)).
  intros transcription summary H. vm_compute in H. discriminate.
Defined.

(** ** The current plan *)

Section SortDescending.

Context {A : Type} (key : A -> Z).

Local Open Scope Z_scope.

(** The first element after sorting: step by step from the right. *)
Lemma hd_insertDescending (x : A) (sorted : list A) :
  hd_error (insertDescending key x sorted)
  = match hd_error sorted with
    | Some y => if key y <=? key x then Some x else Some y
    | None => Some x
    end.
Proof.
  destruct sorted as [| y rest]; cbn; [reflexivity |].
  destruct (key y <=? key x); reflexivity.
Qed.

(** The element that comes first after sorting is the first one, in the
    original order, whose key is the greatest. *)
Lemma hd_sortDescending_first_max (xs : list A) (x : A) :
  hd_error (sortDescending key xs) = Some x ->
  exists before after,
    xs = (before ++ x :: after)%list
    /\ (forall y, In y before -> key y < key x)
    /\ (forall y, In y after -> key y <= key x).
Proof.
  revert x. induction xs as [| a rest IH]; intros x H; [discriminate |].
  change (hd_error (insertDescending key a (sortDescending key rest)) = Some x) in H.
  rewrite hd_insertDescending in H.
  destruct (hd_error (sortDescending key rest)) as [y |] eqn:Ey.
  - destruct (IH y eq_refl) as (before & after & -> & Hb & Ha).
    destruct (key y <=? key a) eqn:E; injection H as <-.
    + apply Z.leb_le in E. exists [], (before ++ y :: after)%list.
      split; [reflexivity |]. split; [intros z [] |].
      intros z Hz. apply in_app_or in Hz. destruct Hz as [Hz | [<- | Hz]].
      * specialize (Hb z Hz). lia.
      * exact E.
      * specialize (Ha z Hz). lia.
    + apply Z.leb_gt in E. exists (a :: before), after.
      split; [reflexivity |]. split; [| exact Ha].
      intros z [<- | Hz]; [exact E | exact (Hb z Hz)].
  - injection H as <-.
    destruct rest as [| b rest'].
    + exists [], []. split; [reflexivity |]. split; intros z [].
    + exfalso.
      change (hd_error (insertDescending key b (sortDescending key rest')) = None) in Ey.
      rewrite hd_insertDescending in Ey.
      destruct (hd_error (sortDescending key rest')) as [y |];
        [destruct (key y <=? key b) |]; discriminate.
Qed.

Lemma hd_sortDescending_None (xs : list A) :
  hd_error (sortDescending key xs) = None -> xs = [].
Proof.
  destruct xs as [| a rest]; [reflexivity |].
  change (hd_error (insertDescending key a (sortDescending key rest)) = None -> a :: rest = []).
  rewrite hd_insertDescending.
  destruct (hd_error (sortDescending key rest)) as [y |];
    [destruct (key y <=? key a) |]; discriminate.
Qed.

End SortDescending.

Lemma latestPlan_first_max (docs : list PlanDoc) (p : PlanDoc) :
  latestPlan docs = Some p ->
  exists before after,
    docs = (before ++ p :: after)%list
    /\ (forall q, In q before -> (plan_createdAt q < plan_createdAt p)%Z)
    /\ (forall q, In q after -> (plan_createdAt q <= plan_createdAt p)%Z).
Proof.
  unfold latestPlan. destruct docs as [| d rest]; [discriminate |].
  apply hd_sortDescending_first_max.
Qed.

Lemma latestPlan_None (docs : list PlanDoc) : latestPlan docs = None -> docs = [].
Proof.
  unfold latestPlan. destruct docs as [| d rest]; [reflexivity |].
  intros H. apply hd_sortDescending_None in H. exact H.
Qed.

Lemma plansOfChild_In (childId : string) (store : list PlanDoc) (p : PlanDoc) :
  In p (plansOfChild childId store) <-> In p store /\ plan_childId p = childId.
Proof.
  unfold plansOfChild. rewrite filter_In, String.eqb_eq. reflexivity.
Qed.

#[local] Arguments latestPlan : simpl never.
#[local] Arguments plansOfChild : simpl never.

(** X5: [loadTreatmentPlan] of the parent's task page.  When the query
    answers, the page shows no plan exactly when the child has none in the
    collection; otherwise it shows a plan of this child whose [createdAt] is
    the greatest among the child's plans, and among several plans with that
    greatest time the first in the order of the query.  When the query
    fails, the plan shown before stays.  In every case the collection is
    not changed and [loading] ends false. *)
Theorem X5_task_page_shows_latest_plan
  (plansQuery : result unit) (childId : string) (w : World DailyTasks.State) :
  let w' := snd (DailyTasks.loadTreatmentPlan plansQuery childId w) in
  plans w' = plans w
  /\ DailyTasks.loading (ui w') = false
  /\ (is_thrown plansQuery = true ->
      DailyTasks.treatmentPlan (ui w') = DailyTasks.treatmentPlan (ui w))
  /\ (is_thrown plansQuery = false ->
      (DailyTasks.treatmentPlan (ui w') = None
       <-> forall q, In q (plans w) -> plan_childId q <> childId)
      /\ forall p,
           DailyTasks.treatmentPlan (ui w') = Some p ->
           exists before after,
             plansOfChild childId (plans w) = (before ++ p :: after)%list
             /\ plan_childId p = childId
             /\ (forall q, In q before -> (plan_createdAt q < plan_createdAt p)%Z)
             /\ (forall q, In q after -> (plan_createdAt q <= plan_createdAt p)%Z)).
Proof.
  destruct w as [ps os cs u].
  unfold DailyTasks.loadTreatmentPlan, DailyTasks.setLoading, DailyTasks.setTreatmentPlan,
    DailyTasks.getPlans.
  run_async.
  destruct plansQuery as [[] | e]; cbn.
  - destruct (plansOfChild childId ps) as [| d rest] eqn:Eq; cbn.
    + split; [reflexivity |]. split; [reflexivity |]. split; [discriminate |].
      intros _. split; [| intros p Hp; discriminate].
      split; [| reflexivity].
      intros _ q Hq Hid.
      assert (Hin : In q (plansOfChild childId ps))
        by (apply plansOfChild_In; split; assumption).
      rewrite Eq in Hin. exact Hin.
    + split; [reflexivity |]. split; [reflexivity |]. split; [discriminate |].
      intros _. split.
      * split.
        -- intros Hnone. apply latestPlan_None in Hnone. discriminate.
        -- intros Hno. exfalso.
           assert (Hin : In d (plansOfChild childId ps)) by (rewrite Eq; left; reflexivity).
           apply plansOfChild_In in Hin. destruct Hin as [Hin Hid]. exact (Hno d Hin Hid).
      * intros p Hp.
        destruct (latestPlan_first_max _ _ Hp) as (before & after & Hsplit & Hb & Ha).
        exists before, after. split; [exact Hsplit |]. split; [| split; assumption].
        assert (Hin : In p (plansOfChild childId ps))
          by (rewrite Eq, Hsplit; apply in_or_app; right; left; reflexivity).
        apply plansOfChild_In in Hin. exact (proj2 Hin).
  - split; [reflexivity |]. split; [reflexivity |]. split; [reflexivity |]. discriminate.
Qed.

Lemma X5_witness :
  DailyTasks.treatmentPlan
    (ui (snd (DailyTasks.loadTreatmentPlan (Ok tt) "child-1" (Fakes.taskPage Fakes.threePlans))))
  = Some (Fakes.planAt "child-1" 200 "second")
  /\ exists before after,
       plansOfChild "child-1" Fakes.threePlans
       = (before ++ Fakes.planAt "child-1" 200 "second" :: after)%list
       /\ plan_childId (Fakes.planAt "child-1" 200 "second") = "child-1"
       /\ (forall q, In q before -> (plan_createdAt q < 200)%Z)
       /\ (forall q, In q after -> (plan_createdAt q <= 200)%Z).
Proof.
  split; [reflexivity |].
  exact (proj2 (proj2 (proj2 (proj2 (X5_task_page_shows_latest_plan
           (Ok tt) "child-1" (Fakes.taskPage Fakes.threePlans)))) eq_refl)
           (Fakes.planAt "child-1" 200 "second") eq_refl).
Defined.

Lemma latestPlan_max (docs : list PlanDoc) (p : PlanDoc) :
  latestPlan docs = Some p ->
  In p docs /\ forall q, In q docs -> (plan_createdAt q <= plan_createdAt p)%Z.
Proof.
  intros H. destruct (latestPlan_first_max _ _ H) as (before & after & -> & Hb & Ha).
  split; [apply in_or_app; right; left; reflexivity |].
  intros q Hq. apply in_app_or in Hq. destruct Hq as [Hq | [<- | Hq]].
  - specialize (Hb q Hq). lia.
  - lia.
  - exact (Ha q Hq).
Qed.

Lemma loadTreatmentPlan_shown (plansQuery : result unit) (childId : string)
  (w : World DailyTasks.State) :
  DailyTasks.treatmentPlan (ui (snd (DailyTasks.loadTreatmentPlan plansQuery childId w)))
  = match plansQuery with
    | Ok _ => latestPlan (plansOfChild childId (plans w))
    | Thrown _ => DailyTasks.treatmentPlan (ui w)
    end.
Proof.
  destruct w as [ps os cs u].
  unfold DailyTasks.loadTreatmentPlan, DailyTasks.setLoading, DailyTasks.setTreatmentPlan,
    DailyTasks.getPlans.
  run_async.
  destruct plansQuery as [[] | e]; cbn; [| reflexivity].
  destruct (plansOfChild childId ps) as [| d rest] eqn:Eq; cbn; reflexivity.
Qed.

(** A plan appended to the collection is the child's latest one when it is
    dated after every plan the child already had. *)
Lemma latestPlan_appended (childId : string) (old : list PlanDoc) (doc : PlanDoc) :
  plan_childId doc = childId ->
  (forall q, In q old -> plan_childId q = childId ->
             (plan_createdAt q < plan_createdAt doc)%Z) ->
  plansOfChild childId (old ++ [doc]) <> []
  /\ latestPlan (plansOfChild childId (old ++ [doc])) = Some doc.
Proof.
  intros Hchild Holder.
  assert (Hin : In doc (plansOfChild childId (old ++ [doc])))
    by (apply plansOfChild_In; split; [apply in_or_app; right; left; reflexivity | exact Hchild]).
  split; [intros Hnil; rewrite Hnil in Hin; exact Hin |].
  destruct (latestPlan (plansOfChild childId (old ++ [doc]))) as [p |] eqn:El.
  - f_equal. destruct (latestPlan_max _ _ El) as [Hp Hmax].
    apply plansOfChild_In in Hp. destruct Hp as [Hp Hpc].
    apply in_app_or in Hp. destruct Hp as [Hp | [<- | []]]; [| reflexivity].
    exfalso. specialize (Holder p Hp Hpc). specialize (Hmax doc Hin). lia.
  - apply latestPlan_None in El. rewrite El in Hin. destruct Hin.
Qed.



(** ** The skill chart ([calculateSkillProgress]) *)

Section SkillProgress.
Import ProgressData.

Lemma setKey_fresh {V} (key : string) (value : V) (obj : list (string * V)) :
  ~ In key (map fst obj) -> setKey key value obj = (obj ++ [(key, value)])%list.
Proof.
  induction obj as [| [k v] rest IH]; intros Hfresh; [reflexivity |].
  cbn in *. destruct (String.eqb k key) eqn:E.
  - apply String.eqb_eq in E. exfalso. apply Hfresh. left. exact E.
  - rewrite IH; [reflexivity |]. intros H. apply Hfresh. right. exact H.
Qed.

Lemma combine_map_l {A B C} (f : A -> B) (xs : list A) (ys : list C) :
  combine (map f xs) ys = map (fun p => (f (fst p), snd p)) (combine xs ys).
Proof.
  revert ys. induction xs as [| x xs IH]; intros [| y ys]; cbn; try reflexivity.
  rewrite IH. reflexivity.
Qed.

(** The inner loop pushes one rounded point per iteration and consumes one
    draw for each. *)
Lemma progressLoop_spec (index m : nat) :
  forall (i : nat) (acc : list Z) (draws : nat -> Q) (n : nat),
    progressLoop index m i acc draws n
    = ((acc ++ map (fun j => fst (progressPoint index (i + j)%nat draws (n + j)%nat))
                  (seq 0 m))%list,
       (n + m)%nat).
Proof.
  induction m as [| m IH]; intros i acc draws n.
  - cbn. rewrite app_nil_r, Nat.add_0_r. reflexivity.
  - cbn [progressLoop]. unfold rbind at 1.
    change (progressPoint index i draws n)
      with (fst (progressPoint index i draws n), S n).
    cbv beta iota. rewrite IH. rewrite <- app_assoc. cbn [seq map app].
    rewrite !Nat.add_0_r. rewrite <- seq_shift, map_map.
    f_equal; [| lia]. f_equal. f_equal.
    apply map_ext. intros j. rewrite !Nat.add_succ_r. reflexivity.
Qed.

Lemma skillsLoop_spec (names : list string) :
  forall (index : nat) (skills : list (string * list Z)) (draws : nat -> Q) (n : nat),
    NoDup (map fst skills ++ names) ->
    skillsLoop names index skills draws n
    = ((skills
        ++ map (fun kn =>
                  (snd kn,
                   map (fun j => fst (progressPoint (index + fst kn)%nat j draws
                                        (n + 8 * fst kn + j)%nat))
                       (seq 0 8)))
               (combine (seq 0 (List.length names)) names))%list,
       (n + 8 * List.length names)%nat).
Proof.
  induction names as [| name rest IH]; intros index skills draws n Hnd.
  - cbn [skillsLoop List.length seq combine map]. unfold rret.
    rewrite app_nil_r, Nat.mul_0_r, Nat.add_0_r. reflexivity.
  - cbn [skillsLoop]. unfold rbind at 1. rewrite progressLoop_spec.
    rewrite IH.
    + rewrite setKey_fresh.
      * rewrite <- app_assoc. cbn [List.length].
        change (seq 0 (S (List.length rest))) with (0%nat :: seq 1 (List.length rest)).
        cbn [combine map app fst snd].
        rewrite <- seq_shift. rewrite combine_map_l.
        f_equal; [| lia]. f_equal. f_equal.
        -- f_equal. apply map_ext. intros j.
           rewrite Nat.mul_0_r, !Nat.add_0_r. reflexivity.
        -- rewrite map_map. apply map_ext. intros [k nm]. cbn [fst snd].
           f_equal. apply map_ext. intros j.
           replace (index + S k)%nat with (S index + k)%nat by lia.
           replace (n + 8 + 8 * k + j)%nat with (n + 8 * S k + j)%nat by lia.
           reflexivity.
      * intros Hin. apply NoDup_remove_2 in Hnd. apply Hnd.
        apply in_or_app. left. exact Hin.
    + rewrite setKey_fresh.
      * rewrite map_app. cbn [map fst]. rewrite <- app_assoc. exact Hnd.
      * intros Hin. apply NoDup_remove_2 in Hnd. apply Hnd.
        apply in_or_app. left. exact Hin.
Qed.

Lemma Math_round_inject_Z (z : Z) : Math_round (inject_Z z) = z.
Proof.
  unfold Math_round. apply Z.le_antisymm.
  - apply Z.lt_succ_r. rewrite Zlt_Qlt.
    eapply Qle_lt_trans; [apply Qfloor_le |].
    unfold Z.succ. rewrite inject_Z_plus. change (inject_Z 1) with 1%Q. lra.
  - rewrite <- (Qfloor_Z z) at 1. apply Qfloor_resp_le. lra.
Qed.

Lemma Math_round_below (x : Q) (c : Z) :
  (x < inject_Z c + 0.5)%Q -> (Math_round x <= c)%Z.
Proof.
  intros H. unfold Math_round. apply Z.lt_succ_r. rewrite Zlt_Qlt.
  eapply Qle_lt_trans; [apply Qfloor_le |].
  unfold Z.succ. rewrite inject_Z_plus. change (inject_Z 1) with 1%Q. lra.
Qed.

(** One point of the chart lies within five of its baseline, and never
    above 100. *)
Lemma progressPoint_bounds (index i : nat) (draws : nat -> Q) (n : nat) :
  (0 <= draws n)%Q -> (draws n < 1)%Q ->
  let base := (40 + 5 * Z.of_nat index + 6 * Z.of_nat i)%Z in
  (Z.min 100 (base - 5) <= fst (progressPoint index i draws n)
   <= Z.min 100 (base + 5))%Z.
Proof.
  intros H0 H1 base.
  unfold progressPoint, rbind, rret, Math_random. cbn [fst].
  assert (Hb : (baseStart index + inject_Z (Z.of_nat i) * 6 == inject_Z base)%Q).
  { unfold base, baseStart. rewrite !inject_Z_plus, !inject_Z_mult.
    change (inject_Z 40) with 40%Q. change (inject_Z 5) with 5%Q.
    change (inject_Z 6) with 6%Q. lra. }
  set (y := (baseStart index + inject_Z (Z.of_nat i) * 6 + (draws n * 10 - 5))%Q).
  assert (Hlo : (inject_Z (base - 5) <= y)%Q).
  { unfold y. rewrite Hb. unfold Z.sub. rewrite inject_Z_plus.
    change (inject_Z (- (5))) with (-5)%Q. lra. }
  assert (Hhi : (y < inject_Z (base + 5))%Q).
  { unfold y. rewrite Hb. rewrite inject_Z_plus.
    change (inject_Z 5) with 5%Q. lra. }
  split.
  - destruct (Q.min_spec 100 y) as [[_ Hm] | [_ Hm]].
    + rewrite (Math_round_Qeq Hm). change (Math_round 100) with 100%Z. lia.
    + rewrite (Math_round_Qeq Hm).
      apply Z.le_trans with (base - 5)%Z; [lia |].
      rewrite <- (Math_round_inject_Z (base - 5)) at 1.
      apply Math_round_le. exact Hlo.
  - apply Z.min_glb.
    + change 100%Z with (Math_round 100). apply Math_round_le. apply Q.le_min_l.
    + apply Math_round_below.
      eapply Qle_lt_trans; [apply Q.le_min_r |]. fold y. lra.
Qed.

Lemma nth_error_map_seq {A} (f : nat -> A) (m i : nat) (v : A) :
  nth_error (map f (seq 0 m)) i = Some v -> (i < m)%nat /\ v = f i.
Proof.
  intros H.
  assert (Hi : (i < m)%nat).
  { rewrite <- (length_seq m 0), <- (length_map f). apply nth_error_Some.
    rewrite H. discriminate. }
  split; [exact Hi |].
  assert (Hs : nth_error (seq 0 m) i = Some i).
  { rewrite (nth_error_nth' _ 0%nat); [| rewrite length_seq; exact Hi].
    rewrite seq_nth; [reflexivity | exact Hi]. }
  rewrite (map_nth_error f _ _ Hs) in H. congruence.
Qed.

Lemma skillNames_four (therapyType : string) :
  exists a b c d,
    skillNames therapyType = [a; b; c; d] /\ NoDup [a; b; c; d].
Proof.
  unfold skillNames.
  repeat match goal with
         | |- context [if ?c then _ else _] => destruct c
         end;
    do 4 eexists; (split; [reflexivity |]);
    repeat constructor; cbn; intuition discriminate.
Qed.

End SkillProgress.

(** X8: the skill chart has exactly the four skills of the therapy type
    (four placeholder names for an unknown type), each with eight values.
    Whatever the random draws, the value of skill [k] at step [i] lies within
    five of [40 + 5k + 6i] and never exceeds 100, so every skill ends at
    least 32 points above where it starts.  The session records do not
    enter the computation; 32 draws are consumed. *)
Theorem X8_skill_chart_always_improves
  (therapyType : string) (sessions : list ProgressData.Session)
  (draws : nat -> Q) (n : nat) :
  (forall k, (0 <= draws k)%Q /\ (draws k < 1)%Q) ->
  let out := ProgressData.calculateSkillProgress therapyType sessions draws n in
  snd out = (n + 32)%nat
  /\ map fst (fst out) = ProgressData.skillNames therapyType
  /\ out = ProgressData.calculateSkillProgress therapyType [] draws n
  /\ forall k name values,
       nth_error (fst out) k = Some (name, values) ->
       List.length values = 8%nat
       /\ (forall i v, nth_error values i = Some v ->
             (35 + 5 * Z.of_nat k + 6 * Z.of_nat i <= v
              <= Z.min 100 (45 + 5 * Z.of_nat k + 6 * Z.of_nat i))%Z)
       /\ (forall first last,
             nth_error values 0 = Some first -> nth_error values 7 = Some last ->
             (first + 32 <= last)%Z).
Proof.
  intros Hdraws out.
  assert (Hpoint : forall k name values,
             nth_error (fst out) k = Some (name, values) ->
             List.length values = 8%nat
             /\ (forall i v, nth_error values i = Some v ->
                   (35 + 5 * Z.of_nat k + 6 * Z.of_nat i <= v
                    <= Z.min 100 (45 + 5 * Z.of_nat k + 6 * Z.of_nat i))%Z)).
  { intros k name values Hk. unfold out, ProgressData.calculateSkillProgress in Hk.
    destruct (skillNames_four therapyType) as (a & b & c & d & Hnames & Hnd).
    rewrite Hnames in Hk. rewrite skillsLoop_spec in Hk by exact Hnd.
    set (s8 := seq 0 8) in Hk. cbn [fst snd List.length seq combine map app] in Hk.
    assert (Hv : (k < 4)%nat
                 /\ values = map (fun j => fst (ProgressData.progressPoint k j draws
                                                  (n + 8 * k + j)%nat)) s8).
    { destruct k as [| [| [| [| k]]]]; cbn [nth_error] in Hk.
      1-4: injection Hk as _ <-; split; [lia | reflexivity].
      destruct k; discriminate. }
    destruct Hv as [Hk4 ->]. unfold s8.
    split; [rewrite length_map, length_seq; reflexivity |].
    intros i v Hi. apply nth_error_map_seq in Hi. destruct Hi as [Hi8 ->].
    destruct (Hdraws (n + 8 * k + i)%nat) as [H0 H1].
    pose proof (progressPoint_bounds k i draws (n + 8 * k + i)%nat H0 H1) as Hb.
    cbv zeta in Hb. lia. }
  split; [| split; [| split]].
  - unfold out, ProgressData.calculateSkillProgress.
    destruct (skillNames_four therapyType) as (a & b & c & d & Hnames & Hnd).
    rewrite Hnames. rewrite skillsLoop_spec by exact Hnd. reflexivity.
  - unfold out, ProgressData.calculateSkillProgress.
    destruct (skillNames_four therapyType) as (a & b & c & d & Hnames & Hnd).
    rewrite Hnames. rewrite skillsLoop_spec by exact Hnd. reflexivity.
  - reflexivity.
  - intros k name values Hk. destruct (Hpoint k name values Hk) as [Hlen Hval].
    split; [exact Hlen |]. split; [exact Hval |].
    intros first last Hf Hl.
    assert (Hk4 : (k < 4)%nat).
    { assert (H : (k < List.length (fst out))%nat)
        by (apply nth_error_Some; rewrite Hk; discriminate).
      unfold out, ProgressData.calculateSkillProgress in H.
      destruct (skillNames_four therapyType) as (a & b & c & d & Hnames & Hnd).
      rewrite Hnames in H. rewrite skillsLoop_spec in H by exact Hnd.
      exact H. }
    pose proof (Hval 0%nat first Hf). pose proof (Hval 7%nat last Hl). lia.
Qed.

Lemma X8_witness :
  map fst (fst (ProgressData.calculateSkillProgress "motor" [] Fakes.halves 0%nat))
  = ["Fine Motor"; "Gross Motor"; "Coordination"; "Balance"]
  /\ snd (ProgressData.calculateSkillProgress "motor" [] Fakes.halves 0%nat) = 32%nat.
Proof.
  assert (Hdraws : forall k, (0 <= Fakes.halves k)%Q /\ (Fakes.halves k < 1)%Q)
    by (intros k; split; [vm_compute; discriminate | reflexivity]).
  destruct (X8_skill_chart_always_improves "motor" [] Fakes.halves 0%nat Hdraws)
    as (Hn & Hnames & _).
  split; [exact Hnames | exact Hn].
Defined.

(** ** The parent's dashboard ([ProgressDashboard.loadProgress]) *)

Lemma calculateSkillProgress_names therapyType sessions draws n :
  map fst (fst (ProgressData.calculateSkillProgress therapyType sessions draws n))
  = ProgressData.skillNames therapyType.
Proof.
  unfold ProgressData.calculateSkillProgress.
  destruct (skillNames_four therapyType) as (a & b & c & d & Hnames & Hnd).
  rewrite Hnames. rewrite skillsLoop_spec by exact Hnd. reflexivity.
Qed.

Lemma sessionsOrSample_cases sessionsData childId today draws k :
  (sessionsData <> [] ->
   fst (ProgressDashboard.sessionsOrSample sessionsData childId today draws k) = sessionsData)
  /\ (sessionsData = [] ->
      List.length (fst (ProgressDashboard.sessionsOrSample sessionsData childId today draws k))
      = 14%nat).
Proof.
  split.
  - destruct sessionsData; [intros H; contradiction H; reflexivity | reflexivity].
  - intros ->. cbn [ProgressDashboard.sessionsOrSample].
    exact (proj1 (generateSampleProgressData_spec childId 14 today draws k)).
Qed.

#[local] Arguments ProgressData.generateWeeklySummary : simpl never.
#[local] Arguments ProgressData.calculateSkillProgress : simpl never.
#[local] Arguments ProgressDashboard.sessionsOrSample : simpl never.
#[local] Arguments ProgressDashboard.progressDataOf : simpl never.
#[local] Arguments ProgressDashboard.currentTherapyType : simpl never.

(** With both queries answered, the therapy type on screen is replaced
    exactly when the child has a plan, and the skill chart is the one of the
    current therapy type. *)
Lemma loadProgress_type_and_chart
  (client : OpenAI.ProgressSummary -> result (option string))
  (plansStore : list PlanDoc) (sessionsStore : list ProgressData.Session)
  (childId : string) (todaySample todaySummary : Z)
  (draws : nat -> Q) (n : nat) (st : ProgressDashboard.State) :
  let st' := fst (ProgressDashboard.loadProgress (Ok tt) (Ok tt) client
                    plansStore sessionsStore childId todaySample todaySummary draws n st) in
  let docs := plansOfChild childId plansStore in
  (docs <> [] -> ProgressDashboard.therapyType st' = ProgressDashboard.currentTherapyType docs)
  /\ map fst (ProgressDashboard.skillProgress st')
     = ProgressData.skillNames (ProgressDashboard.currentTherapyType docs).
Proof.
  intros st' docs. subst st'. unfold ProgressDashboard.loadProgress. fold docs.
  destruct (ProgressDashboard.sessionsOrSample _ childId todaySample draws n)
    as [sessionsData n1].
  destruct (ProgressData.generateWeeklySummary sessionsData todaySummary draws n1)
    as [weekly n2].
  pose proof (calculateSkillProgress_names (ProgressDashboard.currentTherapyType docs)
                sessionsData draws n2) as Hskills.
  destruct (ProgressData.calculateSkillProgress (ProgressDashboard.currentTherapyType docs)
              sessionsData draws n2) as [skills n3].
  cbn [fst] in Hskills.
  destruct (0 <? List.length sessionsData)%nat;
    [destruct (OpenAI.generateProgressInsights client _) |];
    (split; [destruct docs; [intros H; contradiction H; reflexivity | intros _; reflexivity]
            | exact Hskills]).
Qed.

(** X9: loading the dashboard always ends with the loading flag cleared.
    If one of the two queries fails, the sessions, weekly summary, skill
    chart and insights on screen stay as they were.  If both answer, the
    sessions shown are never empty (the child's own records, or fourteen
    generated ones when there are none), the weekly summary has four buckets
    and the skill chart is the one of the latest plan's therapy type,
    ['behavior'] without a plan or a type; the therapy type on screen,
    however, is only replaced when the child has a plan.  A failed insights
    request leaves these statistics in place and keeps the earlier insights
    text; an answer without content gives the empty text. *)
Theorem X9_dashboard_load
  (plansQuery sessionsQuery : result unit)
  (client : OpenAI.ProgressSummary -> result (option string))
  (plansStore : list PlanDoc) (sessionsStore : list ProgressData.Session)
  (childId : string) (todaySample todaySummary : Z)
  (draws : nat -> Q) (n : nat) (st : ProgressDashboard.State) :
  let st' := fst (ProgressDashboard.loadProgress plansQuery sessionsQuery client
                    plansStore sessionsStore childId todaySample todaySummary draws n st) in
  let real := filter (fun s => String.eqb (ProgressData.childId s) childId) sessionsStore in
  let docs := plansOfChild childId plansStore in
  ProgressDashboard.loading st' = false
  /\ (is_thrown plansQuery = true \/ is_thrown sessionsQuery = true ->
      ProgressDashboard.sessions st' = ProgressDashboard.sessions st
      /\ ProgressDashboard.weeklySummary st' = ProgressDashboard.weeklySummary st
      /\ ProgressDashboard.skillProgress st' = ProgressDashboard.skillProgress st
      /\ ProgressDashboard.insights st' = ProgressDashboard.insights st)
  /\ (is_thrown plansQuery = false ->
      (docs = [] -> ProgressDashboard.therapyType st' = ProgressDashboard.therapyType st)
      /\ (docs <> [] ->
          ProgressDashboard.therapyType st' = ProgressDashboard.currentTherapyType docs))
  /\ (is_thrown plansQuery = false -> is_thrown sessionsQuery = false ->
      ProgressDashboard.sessions st' <> []
      /\ (real <> [] -> ProgressDashboard.sessions st' = real)
      /\ (real = [] -> List.length (ProgressDashboard.sessions st') = 14%nat)
      /\ List.length (ProgressDashboard.weeklySummary st') = 4%nat
      /\ map fst (ProgressDashboard.skillProgress st')
         = ProgressData.skillNames (ProgressDashboard.currentTherapyType docs)
      /\ match client (ProgressDashboard.progressDataOf (ProgressDashboard.sessions st')) with
         | Thrown _ => ProgressDashboard.insights st' = ProgressDashboard.insights st
         | Ok None => ProgressDashboard.insights st' = ""
         | Ok (Some text) => ProgressDashboard.insights st' = text
         end).
Proof.
  intros st' real docs. subst st'. unfold ProgressDashboard.loadProgress.
  fold real. fold docs.
  destruct plansQuery as [[] | e1].
  2:{ cbn. split; [reflexivity |]. split; [intros _; repeat split |].
      split; intros H; discriminate H. }
  destruct sessionsQuery as [[] | e2].
  2:{ destruct docs eqn:Ed; cbn.
      - split; [reflexivity |]. split; [intros _; repeat split |].
        split; [intros _; split; [reflexivity | intros H; contradiction H; reflexivity] |].
        intros _ H; discriminate H.
      - split; [reflexivity |]. split; [intros _; repeat split |].
        split; [intros _; split; [intros H; discriminate H | reflexivity] |].
        intros _ H; discriminate H. }
  pose proof (sessionsOrSample_nonempty real childId todaySample draws n) as Hne.
  destruct (sessionsOrSample_cases real childId todaySample draws n) as [Hreal Hsample].
  destruct (ProgressDashboard.sessionsOrSample real childId todaySample draws n)
    as [sessionsData n1] eqn:E1.
  cbn [fst] in Hne, Hreal, Hsample.
  pose proof (generateWeeklySummary_buckets sessionsData todaySummary draws n1) as Hweeks.
  destruct (ProgressData.generateWeeklySummary sessionsData todaySummary draws n1)
    as [weekly n2] eqn:E2.
  cbn [fst] in Hweeks.
  pose proof (calculateSkillProgress_names (ProgressDashboard.currentTherapyType docs)
                sessionsData draws n2) as Hskills.
  destruct (ProgressData.calculateSkillProgress (ProgressDashboard.currentTherapyType docs)
              sessionsData draws n2) as [skills n3] eqn:E3.
  cbn [fst] in Hskills.
  assert (Hpos : (0 <? List.length sessionsData)%nat = true).
  { apply Nat.ltb_lt. destruct sessionsData; [contradiction Hne; reflexivity | cbn; lia]. }
  rewrite Hpos. unfold OpenAI.generateProgressInsights.
  assert (Htype :
    (docs = [] ->
     ProgressDashboard.therapyType
       match docs with
       | [] => {| ProgressDashboard.sessions := ProgressDashboard.sessions st;
                  ProgressDashboard.insights := ProgressDashboard.insights st;
                  ProgressDashboard.loading := true;
                  ProgressDashboard.weeklySummary := ProgressDashboard.weeklySummary st;
                  ProgressDashboard.skillProgress := ProgressDashboard.skillProgress st;
                  ProgressDashboard.therapyType := ProgressDashboard.therapyType st |}
       | _ :: _ =>
           {| ProgressDashboard.sessions := ProgressDashboard.sessions st;
              ProgressDashboard.insights := ProgressDashboard.insights st;
              ProgressDashboard.loading := true;
              ProgressDashboard.weeklySummary := ProgressDashboard.weeklySummary st;
              ProgressDashboard.skillProgress := ProgressDashboard.skillProgress st;
              ProgressDashboard.therapyType := ProgressDashboard.currentTherapyType docs |}
       end = ProgressDashboard.therapyType st)
    /\ (docs <> [] ->
        ProgressDashboard.therapyType
          match docs with
          | [] => {| ProgressDashboard.sessions := ProgressDashboard.sessions st;
                     ProgressDashboard.insights := ProgressDashboard.insights st;
                     ProgressDashboard.loading := true;
                     ProgressDashboard.weeklySummary := ProgressDashboard.weeklySummary st;
                     ProgressDashboard.skillProgress := ProgressDashboard.skillProgress st;
                     ProgressDashboard.therapyType := ProgressDashboard.therapyType st |}
          | _ :: _ =>
              {| ProgressDashboard.sessions := ProgressDashboard.sessions st;
                 ProgressDashboard.insights := ProgressDashboard.insights st;
                 ProgressDashboard.loading := true;
                 ProgressDashboard.weeklySummary := ProgressDashboard.weeklySummary st;
                 ProgressDashboard.skillProgress := ProgressDashboard.skillProgress st;
                 ProgressDashboard.therapyType := ProgressDashboard.currentTherapyType docs |}
          end = ProgressDashboard.currentTherapyType docs)).
  { destruct docs; split; intros H; try reflexivity; try discriminate H.
    contradiction H; reflexivity. }
  assert (Hins :
    ProgressDashboard.insights
      match docs with
      | [] => {| ProgressDashboard.sessions := ProgressDashboard.sessions st;
                 ProgressDashboard.insights := ProgressDashboard.insights st;
                 ProgressDashboard.loading := true;
                 ProgressDashboard.weeklySummary := ProgressDashboard.weeklySummary st;
                 ProgressDashboard.skillProgress := ProgressDashboard.skillProgress st;
                 ProgressDashboard.therapyType := ProgressDashboard.therapyType st |}
      | _ :: _ =>
          {| ProgressDashboard.sessions := ProgressDashboard.sessions st;
             ProgressDashboard.insights := ProgressDashboard.insights st;
             ProgressDashboard.loading := true;
             ProgressDashboard.weeklySummary := ProgressDashboard.weeklySummary st;
             ProgressDashboard.skillProgress := ProgressDashboard.skillProgress st;
             ProgressDashboard.therapyType := ProgressDashboard.currentTherapyType docs |}
      end = ProgressDashboard.insights st)
    by (destruct docs; reflexivity).
  destruct (client (ProgressDashboard.progressDataOf sessionsData)) as [content | e] eqn:Ec;
    cbn [fst ProgressDashboard.sessions ProgressDashboard.insights ProgressDashboard.loading
         ProgressDashboard.weeklySummary ProgressDashboard.skillProgress
         ProgressDashboard.therapyType is_thrown].
  - split; [reflexivity |].
    split; [intros [H | H]; discriminate H |].
    split; [intros _; exact Htype |].
    intros _ _. rewrite Ec.
    split; [exact Hne |]. split; [exact Hreal |]. split; [exact Hsample |].
    split; [rewrite Hweeks; reflexivity |]. split; [exact Hskills |].
    destruct content as [text |]; unfold opt_or_else, or_else; [| reflexivity].
    destruct (String.eqb text "") eqn:Et; [| reflexivity].
    apply String.eqb_eq in Et. symmetry. exact Et.
  - split; [reflexivity |].
    split; [intros [H | H]; discriminate H |].
    split; [intros _; exact Htype |].
    intros _ _. rewrite Ec.
    split; [exact Hne |]. split; [exact Hreal |]. split; [exact Hsample |].
    split; [rewrite Hweeks; reflexivity |]. split; [exact Hskills |].
    exact Hins.
Qed.

Lemma X9_witness :
  List.length
    (ProgressDashboard.sessions
       (fst (ProgressDashboard.loadProgress (Ok tt) (Ok tt) (fun _ => Thrown "quota")
               Fakes.threePlans [] "child-1" Fakes.now Fakes.now Fakes.halves 0%nat
               ProgressDashboard.initialState)))
  = 14%nat
  /\ map fst
       (ProgressDashboard.skillProgress
          (fst (ProgressDashboard.loadProgress (Ok tt) (Ok tt) (fun _ => Thrown "quota")
                  Fakes.threePlans [] "child-1" Fakes.now Fakes.now Fakes.halves 0%nat
                  ProgressDashboard.initialState)))
     = ["Articulation"; "Vocabulary"; "Sentence Formation"; "Comprehension"].
Proof.
  destruct (X9_dashboard_load (Ok tt) (Ok tt) (fun _ => Thrown "quota")
              Fakes.threePlans [] "child-1" Fakes.now Fakes.now Fakes.halves 0%nat
              ProgressDashboard.initialState)
    as (_ & _ & _ & H).
  destruct (H eq_refl eq_refl) as (_ & _ & Hsample & _ & Hskills & _).
  split; [exact (Hsample eq_refl) | exact Hskills].
Defined.

(** ** From a submitted plan to the dashboard *)


(** X10: which skills the dashboard charts after a submission.  When the
    newly persisted plan is dated after the child's earlier plans and both
    dashboard queries answer, a plan created through the form, which stores
    no therapy type, makes the dashboard show the type ['behavior'] and chart
    the four behavior skills, whatever the summarization said; a plan created
    through the recorder makes it show the stored type and chart that type's
    skills. *)
Theorem X10_dashboard_follows_submitted_plan
  sv now language child currentUser onComplete
  (wf : World TreatmentPlanForm.State) (wr : World VoiceRecorder.State)
  (old : list PlanDoc) (doc : PlanDoc)
  (client : OpenAI.ProgressSummary -> result (option string))
  (sessionsStore : list ProgressData.Session) (todaySample todaySummary : Z)
  (draws : nat -> Q) (n : nat) (st : ProgressDashboard.State) :
  (forall q, In q old -> plan_childId q = child_id child -> (plan_createdAt q < now)%Z) ->
  let st' := fst (ProgressDashboard.loadProgress (Ok tt) (Ok tt) client (old ++ [doc])
                    sessionsStore (child_id child) todaySample todaySummary draws n st) in
  (plans wf = old ->
   plans (snd (TreatmentPlanForm.handleSubmit sv now language child currentUser
                 onComplete wf)) = (old ++ [doc])%list ->
   ProgressDashboard.therapyType st' = "behavior"
   /\ map fst (ProgressDashboard.skillProgress st')
      = ["Following Instructions"; "Social Skills"; "Self-Regulation"; "Task Completion"])
  /\ (plans wr = old ->
      plans (snd (VoiceRecorder.handleSubmit sv now language child currentUser wr))
      = (old ++ [doc])%list ->
      exists stored,
        plan_therapyType doc = Some stored
        /\ ProgressDashboard.therapyType st' = stored
        /\ map fst (ProgressDashboard.skillProgress st') = ProgressData.skillNames stored).
Proof.
  intros Holder st'.
  destruct (loadProgress_type_and_chart client (old ++ [doc]) sessionsStore (child_id child)
              todaySample todaySummary draws n st) as [Htype Hskills].
  fold st' in Htype, Hskills.
  split.
  - intros <- Hrun. apply form_persisted in Hrun.
    destruct Hrun as (user & voice & tr & sm & ts & en & _ & _ & _ & _ & _ & _ & _
                      & Hnone & Hchild & _ & _ & _ & Hat & _).
    rewrite <- Hat in Holder.
    destruct (latestPlan_appended (child_id child) (plans wf) doc Hchild Holder) as [Hne Hlatest].
    rewrite (Htype Hne), Hskills.
    unfold ProgressDashboard.currentTherapyType. rewrite Hlatest, Hnone.
    split; reflexivity.
  - intros <- Hrun. apply recorder_persisted in Hrun.
    destruct Hrun as (user & voice & tr & sm & ts & en & _ & _ & _ & _ & _ & _ & _
                      & Hsome & Hchild & _ & _ & _ & Hat & _).
    rewrite <- Hat in Holder.
    destruct (latestPlan_appended (child_id child) (plans wr) doc Hchild Holder) as [Hne Hlatest].
    exists (opt_or_else (sum_therapyType sm) "behavior").
    split; [exact Hsome |].
    rewrite (Htype Hne), Hskills.
    unfold ProgressDashboard.currentTherapyType. rewrite Hlatest, Hsome.
    assert (Hkeep : opt_or_else (Some (opt_or_else (sum_therapyType sm) "behavior"))
                      "behavior"
                    = opt_or_else (sum_therapyType sm) "behavior").
    { unfold opt_or_else at 1. unfold or_else at 1.
      destruct (String.eqb (opt_or_else (sum_therapyType sm) "behavior") "") eqn:E;
        [| reflexivity].
      apply String.eqb_eq in E. exfalso. revert E. unfold opt_or_else.
      destruct (sum_therapyType sm) as [t |]; [| discriminate].
      apply or_else_nonempty. discriminate. }
    rewrite Hkeep. split; reflexivity.
Qed.

Lemma X10_witness :
  exists doc,
    plans (snd (TreatmentPlanForm.handleSubmit Fakes.secondSuggestionOk Fakes.now "en"
                  Fakes.child (Some Fakes.therapist) true
                  (Fakes.withOnePlan (Fakes.form (Some Fakes.notesDocument)))))
    = (plans (Fakes.withOnePlan (Fakes.form (Some Fakes.notesDocument))) ++ [doc])%list
    /\ ProgressDashboard.therapyType
         (fst (ProgressDashboard.loadProgress (Ok tt) (Ok tt) (fun _ => Ok None)
                 (plans (Fakes.withOnePlan (Fakes.form (Some Fakes.notesDocument))) ++ [doc])
                 [] (child_id Fakes.child) Fakes.now Fakes.now Fakes.halves 0%nat
                 ProgressDashboard.initialState))
       = "behavior".
Proof.
  exists (last (plans (snd (TreatmentPlanForm.handleSubmit Fakes.secondSuggestionOk
                              Fakes.now "en" Fakes.child (Some Fakes.therapist) true
                              (Fakes.withOnePlan (Fakes.form (Some Fakes.notesDocument))))))
               (Fakes.planAt "" 0 "")).
  assert (Hrun :
    plans (snd (TreatmentPlanForm.handleSubmit Fakes.secondSuggestionOk Fakes.now "en"
                  Fakes.child (Some Fakes.therapist) true
                  (Fakes.withOnePlan (Fakes.form (Some Fakes.notesDocument)))))
    = (plans (Fakes.withOnePlan (Fakes.form (Some Fakes.notesDocument)))
       ++ [last (plans (snd (TreatmentPlanForm.handleSubmit Fakes.secondSuggestionOk
                               Fakes.now "en" Fakes.child (Some Fakes.therapist) true
                               (Fakes.withOnePlan (Fakes.form (Some Fakes.notesDocument))))))
                (Fakes.planAt "" 0 "")])%list)
    by (vm_compute; reflexivity).
  split; [exact Hrun |].
  assert (Holder : forall q,
             In q (plans (Fakes.withOnePlan (Fakes.form (Some Fakes.notesDocument)))) ->
             plan_childId q = child_id Fakes.child -> (plan_createdAt q < Fakes.now)%Z)
    by (intros q [<- | []] _; vm_compute; reflexivity).
  exact (proj1 (proj1 (X10_dashboard_follows_submitted_plan
                  Fakes.secondSuggestionOk Fakes.now "en" Fakes.child
                  (Some Fakes.therapist) true
                  (Fakes.withOnePlan (Fakes.form (Some Fakes.notesDocument)))
                  (Fakes.recorder None) _ _ (fun _ => Ok None) [] Fakes.now Fakes.now
                  Fakes.halves 0%nat ProgressDashboard.initialState Holder)
                  eq_refl Hrun)).
Defined.

(** ** The generated records, field by field *)

Section GeneratedRecords.

Import ProgressData.

Variables (childId : string) (days : nat) (today : Z) (draws : nat -> Q).






End GeneratedRecords.



(** ** The windows of the weekly summary *)





(** ** The demonstration data in the weekly summary *)








(** ** Sessions recorded through the feedback form *)

Lemma completionRate_all_completed (sessions : list ProgressData.Session) :
  sessions <> [] ->
  Forall (fun s => ProgressData.completed s = true) sessions ->
  ProgressDashboard.completionRate sessions = 100%Z.
Proof.
  intros Hne Hall.
  unfold ProgressDashboard.completionRate, ProgressDashboard.completedCount.
  rewrite filter_all by (apply forallb_forall; apply Forall_forall; exact Hall).
  apply completionRateOf_all. destruct sessions; [contradiction Hne; reflexivity | cbn; lia].
Qed.

(** X14: the feedback form.  Without a signed-in user or a selected child
    nothing happens.  Otherwise the collection of sessions gains at most one
    document and loses none: when the write is accepted, a document for the
    selected child with the entered feedback, mood and notes, dated now and
    always marked completed, and the inputs are cleared; when it is rejected,
    the collection is unchanged, the inputs are kept and an alert is raised.
    So a collection filled through the form holds completed sessions only,
    and the dashboard's completion rate over any child's sessions from it is
    100. *)
Theorem X14_feedback_is_always_completed
  (accepts : FeedbackForm.FeedbackDoc -> result unit) (now : Z)
  (currentUser : option User) (store : list FeedbackForm.FeedbackDoc)
  (u : FeedbackForm.State) :
  let out := FeedbackForm.handleSubmit accepts now currentUser store u in
  (currentUser = None \/ FeedbackForm.selectedChild u = None -> out = (store, u))
  /\ (forall user child,
        currentUser = Some user -> FeedbackForm.selectedChild u = Some child ->
        let doc :=
          {| FeedbackForm.fb_childId := child_id child;
             FeedbackForm.fb_parentId := uid user;
             FeedbackForm.fb_taskDescription := FeedbackForm.taskDescription u;
             FeedbackForm.fb_feedback := FeedbackForm.feedback u;
             FeedbackForm.fb_childMood := FeedbackForm.childMood u;
             FeedbackForm.fb_notes := FeedbackForm.notes u;
             FeedbackForm.fb_completed := true;
             FeedbackForm.fb_completedAt := now;
             FeedbackForm.fb_createdAt := now |} in
        FeedbackForm.loading (snd out) = false
        /\ FeedbackForm.selectedChild (snd out) = Some child
        /\ (is_thrown (accepts doc) = false ->
            fst out = (store ++ [doc])%list
            /\ FeedbackForm.success (snd out) = true
            /\ FeedbackForm.taskDescription (snd out) = ""
            /\ FeedbackForm.feedback (snd out) = None
            /\ FeedbackForm.childMood (snd out) = None
            /\ FeedbackForm.notes (snd out) = ""
            /\ FeedbackForm.alerts (snd out) = FeedbackForm.alerts u)
        /\ (is_thrown (accepts doc) = true ->
            fst out = store
            /\ FeedbackForm.success (snd out) = false
            /\ FeedbackForm.taskDescription (snd out) = FeedbackForm.taskDescription u
            /\ FeedbackForm.feedback (snd out) = FeedbackForm.feedback u
            /\ FeedbackForm.childMood (snd out) = FeedbackForm.childMood u
            /\ FeedbackForm.notes (snd out) = FeedbackForm.notes u
            /\ FeedbackForm.alerts (snd out)
               = (FeedbackForm.alerts u ++ ["Failed to submit feedback"])%list))
  /\ (Forall (fun d => FeedbackForm.fb_completed d = true) store ->
      Forall (fun d => FeedbackForm.fb_completed d = true) (fst out)
      /\ forall (toDate : Z -> option Z) (childId : string),
           let sessions :=
             filter (fun s => String.eqb (ProgressData.childId s) childId)
                    (map (FeedbackForm.asSession toDate) (fst out)) in
           sessions <> [] -> ProgressDashboard.completionRate sessions = 100%Z).
Proof.
  intros out.
  split; [| split].
  - subst out. unfold FeedbackForm.handleSubmit.
    intros [-> | Hc]; [reflexivity |]. rewrite Hc.
    destruct currentUser; reflexivity.
  - intros user child -> Hc doc. subst out. unfold FeedbackForm.handleSubmit.
    rewrite Hc. fold doc. destruct (accepts doc) as [[] | e]; cbn.
    + split; [reflexivity |]. split; [reflexivity |].
      split; [intros _; repeat split | intros H; discriminate H].
    + split; [reflexivity |]. split; [reflexivity |].
      split; [intros H; discriminate H | intros _; repeat split].
  - intros Hall.
    assert (Hout : Forall (fun d => FeedbackForm.fb_completed d = true) (fst out)).
    { subst out. unfold FeedbackForm.handleSubmit.
      destruct currentUser as [user |]; [| exact Hall].
      destruct (FeedbackForm.selectedChild u) as [child |]; [| exact Hall].
      match goal with |- context [accepts ?d] => destruct (accepts d) end;
        [| exact Hall].
      cbn [fst]. apply Forall_app. split; [exact Hall |].
      constructor; [reflexivity | constructor]. }
    split; [exact Hout |].
    intros toDate childId sessions Hne.
    apply completionRate_all_completed; [exact Hne |].
    apply Forall_forall. intros s Hs. unfold sessions in Hs.
    apply filter_In in Hs. destruct Hs as [Hs _].
    apply in_map_iff in Hs. destruct Hs as (d & <- & Hd).
    rewrite Forall_forall in Hout. exact (Hout d Hd).
Qed.

Lemma X14_witness :
  ProgressDashboard.completionRate
    (filter (fun s => String.eqb (ProgressData.childId s) "child-1")
       (map (FeedbackForm.asSession (fun d => Some d))
          (fst (FeedbackForm.handleSubmit (fun _ => Ok tt) Fakes.now (Some Fakes.parent)
                  [] Fakes.feedbackForm))))
  = 100%Z.
Proof.
  apply (proj2 (proj2 (proj2 (X14_feedback_is_always_completed
                  (fun _ => Ok tt) Fakes.now (Some Fakes.parent) [] Fakes.feedbackForm))
                  (Forall_nil _)) (fun d => Some d) "child-1").
  discriminate.
Defined.

(** ** Demonstration videos ([VideoUpload], [TreatmentPlanView]) *)

#[local] Arguments TreatmentPlanView.videoRef : simpl never.
#[local] Arguments TreatmentPlanView.handleVideoUploaded : simpl never.

(** X15: a run of the video upload.  Without a selected file nothing
    happens.  Otherwise the [treatmentPlans] and [children] collections are
    never written and the uploading flag ends cleared.  If the upload is
    rejected, nothing is stored; if the upload succeeds but the download URL
    cannot be obtained, the video stays in the bucket although no task refers
    to it; in both cases the plan on screen and the selected file are kept and
    a failure alert carries the error message.  If both succeed, the video is
    stored under [demo-videos/<now>_<name>], the plan on screen is updated by
    [handleVideoUploaded] with the URL, the selection is cleared, the
    progress is 100 and a success alert is raised. *)
Theorem X15_video_upload_run
  (sv : Services) (now : Z) (taskId : string) (w : World TreatmentPlanView.State) :
  let w' := snd (TreatmentPlanView.handleUpload sv now taskId w) in
  (TreatmentPlanView.videoFile (ui w) = None -> w' = w)
  /\ plans w' = plans w
  /\ children w' = children w
  /\ forall file,
       TreatmentPlanView.videoFile (ui w) = Some file ->
       let path := TreatmentPlanView.videoRef now file in
       let stored := storage_uploadBytes sv path {| file_name := TreatmentPlanView.video_name file |} in
       TreatmentPlanView.uploading (ui w') = false
       /\ (forall e, stored = Thrown e ->
             objects w' = objects w
             /\ TreatmentPlanView.treatmentPlan (ui w') = TreatmentPlanView.treatmentPlan (ui w)
             /\ TreatmentPlanView.uploadingVideoFor (ui w')
                = TreatmentPlanView.uploadingVideoFor (ui w)
             /\ TreatmentPlanView.videoFile (ui w') = Some file
             /\ TreatmentPlanView.alerts (ui w')
                = (TreatmentPlanView.alerts (ui w) ++ [("Failed to upload video: " ++ e)%string])%list)
       /\ (forall e, stored = Ok tt -> storage_getDownloadURL sv path = Thrown e ->
             objects w' = (objects w ++ [path])%list
             /\ TreatmentPlanView.treatmentPlan (ui w') = TreatmentPlanView.treatmentPlan (ui w)
             /\ TreatmentPlanView.uploadingVideoFor (ui w')
                = TreatmentPlanView.uploadingVideoFor (ui w)
             /\ TreatmentPlanView.videoFile (ui w') = Some file
             /\ TreatmentPlanView.alerts (ui w')
                = (TreatmentPlanView.alerts (ui w) ++ [("Failed to upload video: " ++ e)%string])%list)
       /\ (forall videoUrl, stored = Ok tt -> storage_getDownloadURL sv path = Ok videoUrl ->
             objects w' = (objects w ++ [path])%list
             /\ TreatmentPlanView.treatmentPlan (ui w')
                = TreatmentPlanView.treatmentPlan
                    (TreatmentPlanView.handleVideoUploaded taskId videoUrl (ui w))
             /\ TreatmentPlanView.uploadingVideoFor (ui w') = None
             /\ TreatmentPlanView.videoFile (ui w') = None
             /\ TreatmentPlanView.progress (ui w') = 100%Z
             /\ TreatmentPlanView.alerts (ui w')
                = (TreatmentPlanView.alerts (ui w) ++ ["Video uploaded successfully!"])%list).
Proof.
  intros w'. subst w'. unfold TreatmentPlanView.handleUpload.
  destruct w as [ps os cs u]. cbn [ui plans objects children].
  destruct (TreatmentPlanView.videoFile u) as [file |] eqn:Ef.
  2:{ cbn. split; [reflexivity |]. split; [reflexivity |]. split; [reflexivity |].
      intros file H. discriminate H. }
  split; [intros H; discriminate H |].
  run_async.
  destruct (storage_uploadBytes sv (TreatmentPlanView.videoRef now file)
              {| file_name := TreatmentPlanView.video_name file |}) as [[] | e1] eqn:Eu;
    [destruct (storage_getDownloadURL sv (TreatmentPlanView.videoRef now file))
       as [url | e2] eqn:Eg |]; cbn.
  - split; [reflexivity |]. split; [reflexivity |].
    intros f Hf. injection Hf as <-. rewrite Eu, Eg.
    split; [reflexivity |].
    split; [intros e H; discriminate H |].
    split; [intros e _ H; discriminate H |].
    intros videoUrl _ H. injection H as <-.
    unfold TreatmentPlanView.handleVideoUploaded. cbn.
    destruct (TreatmentPlanView.treatmentPlan u); cbn; repeat split.
  - split; [reflexivity |]. split; [reflexivity |].
    intros f Hf. injection Hf as <-. rewrite Eu, Eg.
    split; [reflexivity |].
    split; [intros e H; discriminate H |].
    split; [intros e _ H; injection H as <-; rewrite Ef; repeat split |].
    intros videoUrl _ H. discriminate H.
  - split; [reflexivity |]. split; [reflexivity |].
    intros f Hf. injection Hf as <-. rewrite Eu.
    split; [reflexivity |].
    split; [intros e H; injection H as <-; rewrite Ef; repeat split |].
    split; [intros e H; discriminate H |].
    intros videoUrl H. discriminate H.
Qed.

Lemma X15_witness :
  objects (snd (TreatmentPlanView.handleUpload Fakes.secondSuggestionOk Fakes.now
                  "task_100_1" (Fakes.planView (Some Fakes.clip))))
  = ["demo-videos/1762128000000_balance.mp4"]
  /\ plans (snd (TreatmentPlanView.handleUpload Fakes.secondSuggestionOk Fakes.now
                   "task_100_1" (Fakes.planView (Some Fakes.clip))))
     = [Fakes.planWithTasks]
  /\ TreatmentPlanView.videoFile
       (ui (snd (TreatmentPlanView.handleUpload Fakes.secondSuggestionOk Fakes.now
                   "task_100_1" (Fakes.planView (Some Fakes.clip)))))
     = None.
Proof.
  destruct (X15_video_upload_run Fakes.secondSuggestionOk Fakes.now "task_100_1"
              (Fakes.planView (Some Fakes.clip))) as (_ & Hplans & _ & Hrun).
  destruct (Hrun Fakes.clip eq_refl) as (_ & _ & _ & Hok).
  destruct (Hok "https://storage.example/demo-videos/1762128000000_balance.mp4"
              eq_refl eq_refl) as (Hobjects & _ & _ & Hfile & _).
  split; [exact Hobjects |]. split; [exact Hplans | exact Hfile].
Defined.

(** X16: what [handleVideoUploaded] changes in the plan on screen.  The
    upload widget is closed.  Without a plan nothing else happens.  With a
    plan, every task whose id is the given one gets the URL as its
    [demoVideoUrl] and keeps its other fields; every other task and every
    other field of the plan is kept, in the same order; when no task has the
    id, the tasks are unchanged. *)
Theorem X16_video_url_set_on_matching_tasks
  (taskId url : string) (u : TreatmentPlanView.State) :
  let u' := TreatmentPlanView.handleVideoUploaded taskId url u in
  TreatmentPlanView.uploadingVideoFor u' = None
  /\ TreatmentPlanView.videoFile u' = TreatmentPlanView.videoFile u
  /\ TreatmentPlanView.alerts u' = TreatmentPlanView.alerts u
  /\ (TreatmentPlanView.treatmentPlan u = None -> TreatmentPlanView.treatmentPlan u' = None)
  /\ forall plan,
       TreatmentPlanView.treatmentPlan u = Some plan ->
       exists tasks',
         TreatmentPlanView.treatmentPlan u'
         = Some (TreatmentPlanView.withTasks tasks' plan)
         /\ List.length tasks' = List.length (plan_dailyTasks plan)
         /\ map task_id tasks' = map task_id (plan_dailyTasks plan)
         /\ (forall k t,
               nth_error (plan_dailyTasks plan) k = Some t ->
               (task_id t = taskId ->
                nth_error tasks' k = Some (TreatmentPlanView.withVideo url t))
               /\ (task_id t <> taskId -> nth_error tasks' k = Some t))
         /\ (~ In taskId (map task_id (plan_dailyTasks plan)) ->
             tasks' = plan_dailyTasks plan).
Proof.
  intros u'. subst u'. unfold TreatmentPlanView.handleVideoUploaded.
  destruct (TreatmentPlanView.treatmentPlan u) as [plan |] eqn:Ep; cbn.
  - split; [reflexivity |]. split; [reflexivity |]. split; [reflexivity |].
    split; [intros H; discriminate H |].
    intros p Hp. injection Hp as <-.
    eexists. split; [reflexivity |].
    split; [apply length_map |].
    split.
    { rewrite map_map. apply map_ext. intros t.
      destruct (String.eqb (task_id t) taskId); reflexivity. }
    split.
    { intros k t Hk. rewrite nth_error_map, Hk. cbn.
      split; intros Hid.
      - apply String.eqb_eq in Hid. rewrite Hid. reflexivity.
      - apply String.eqb_neq in Hid. rewrite Hid. reflexivity. }
    intros Hnone. rewrite <- (map_id (plan_dailyTasks plan)) at 2.
    apply map_ext_in. intros t Ht.
    destruct (String.eqb (task_id t) taskId) eqn:E; [| reflexivity].
    apply String.eqb_eq in E. exfalso. apply Hnone. rewrite <- E.
    apply in_map. exact Ht.
  - rewrite Ep. split; [reflexivity |]. split; [reflexivity |]. split; [reflexivity |].
    split; [reflexivity |]. intros p Hp. discriminate Hp.
Qed.

Lemma X16_witness :
  exists tasks',
    TreatmentPlanView.treatmentPlan
      (TreatmentPlanView.handleVideoUploaded "task_100_1" "https://v"
         (ui (Fakes.planView None)))
    = Some (TreatmentPlanView.withTasks tasks' Fakes.planWithTasks)
    /\ nth_error tasks' 0 = Some (Fakes.dailyTask "task_100_0")
    /\ nth_error tasks' 1
       = Some (TreatmentPlanView.withVideo "https://v" (Fakes.dailyTask "task_100_1")).
Proof.
  destruct (proj2 (proj2 (proj2 (proj2 (X16_video_url_set_on_matching_tasks
              "task_100_1" "https://v" (ui (Fakes.planView None))))))
              Fakes.planWithTasks eq_refl)
    as (tasks' & Hplan & _ & _ & Hat & _).
  exists tasks'. split; [exact Hplan |]. split.
  - apply (proj2 (Hat 0%nat (Fakes.dailyTask "task_100_0") eq_refl)). discriminate.
  - apply (proj1 (Hat 1%nat (Fakes.dailyTask "task_100_1") eq_refl)). reflexivity.
Defined.

Lemma prefix_append (p s : string) :
  String.prefix p s = true <-> exists rest, s = (p ++ rest)%string.
Proof.
  revert s. induction p as [| c p IH]; intros s.
  - split; [intros _; exists s; reflexivity | intros _; destruct s; reflexivity].
  - destruct s as [| d s]; cbn.
    + split; [discriminate | intros (rest & H); discriminate H].
    + destruct (Ascii.ascii_dec c d) as [<- | Hne].
      * rewrite IH. split; intros (rest & H); exists rest.
        -- rewrite H. reflexivity.
        -- injection H as H. exact H.
      * split; [discriminate |]. intros (rest & H). injection H as H _.
        contradiction Hne. symmetry. exact H.
Qed.

(** X17: choosing a file in the upload widget.  A file is selected exactly
    when it is at most 50 MiB (52428800 bytes, inclusive) and its type starts
    with [video/], and then no alert is raised.  A rejected file raises one
    alert, the size being checked first, and leaves the earlier selection in
    place, so that a following upload sends the earlier file.  Nothing else
    on screen changes. *)
Theorem X17_file_choice_is_validated
  (chosen : option TreatmentPlanView.VideoFile) (u : TreatmentPlanView.State) :
  let u' := TreatmentPlanView.handleFileChange chosen u in
  TreatmentPlanView.treatmentPlan u' = TreatmentPlanView.treatmentPlan u
  /\ TreatmentPlanView.uploadingVideoFor u' = TreatmentPlanView.uploadingVideoFor u
  /\ TreatmentPlanView.uploading u' = TreatmentPlanView.uploading u
  /\ TreatmentPlanView.progress u' = TreatmentPlanView.progress u
  /\ (chosen = None -> u' = u)
  /\ forall file,
       chosen = Some file ->
       ((TreatmentPlanView.video_size file <= 52428800)%Z ->
        (exists subtype,
            TreatmentPlanView.video_type file = ("video/" ++ subtype)%string) ->
        TreatmentPlanView.videoFile u' = Some file
        /\ TreatmentPlanView.alerts u' = TreatmentPlanView.alerts u)
       /\ ((52428800 < TreatmentPlanView.video_size file)%Z ->
           TreatmentPlanView.videoFile u' = TreatmentPlanView.videoFile u
           /\ TreatmentPlanView.alerts u'
              = (TreatmentPlanView.alerts u
                 ++ ["Video file is too large. Maximum size is 50MB."])%list)
       /\ ((TreatmentPlanView.video_size file <= 52428800)%Z ->
           (forall subtype,
               TreatmentPlanView.video_type file <> ("video/" ++ subtype)%string) ->
           TreatmentPlanView.videoFile u' = TreatmentPlanView.videoFile u
           /\ TreatmentPlanView.alerts u'
              = (TreatmentPlanView.alerts u ++ ["Please select a valid video file."])%list).
Proof.
  intros u'. subst u'. unfold TreatmentPlanView.handleFileChange.
  destruct chosen as [file |].
  2:{ repeat (split; [reflexivity |]). intros file H. discriminate H. }
  change (50 * 1024 * 1024)%Z with 52428800%Z.
  destruct (Z.ltb_spec 52428800 (TreatmentPlanView.video_size file)) as [Hbig | Hfits].
  - repeat (split; [reflexivity |]). split; [intros H; discriminate H |].
    intros f Hf. injection Hf as <-.
    split; [intros H; lia |]. split; [intros _; split; reflexivity |].
    intros H; lia.
  - destruct (String.prefix "video/" (TreatmentPlanView.video_type file)) eqn:Ep;
      cbn [negb].
    + repeat (split; [reflexivity |]). split; [intros H; discriminate H |].
      intros f Hf. injection Hf as <-.
      split; [intros _ _; split; reflexivity |].
      split; [intros H; lia |].
      intros _ Hno. apply prefix_append in Ep. destruct Ep as (rest & Hrest).
      exfalso. exact (Hno rest Hrest).
    + repeat (split; [reflexivity |]). split; [intros H; discriminate H |].
      intros f Hf. injection Hf as <-.
      split.
      * intros _ Hsub. apply prefix_append in Hsub. rewrite Hsub in Ep. discriminate Ep.
      * split; [intros H; lia |]. intros _ _. split; reflexivity.
Qed.

Lemma X17_witness :
  TreatmentPlanView.videoFile
    (TreatmentPlanView.handleFileChange (Some Fakes.clip) (ui (Fakes.planView None)))
  = Some Fakes.clip.
Proof.
  apply (proj1 (proj2 (proj2 (proj2 (proj2 (proj2 (X17_file_choice_is_validated
                  (Some Fakes.clip) (ui (Fakes.planView None)))))))
                  Fakes.clip eq_refl)).
  - vm_compute. discriminate.
  - exists "mp4". reflexivity.
Defined.

(** ** Where a video URL can end up *)


(** A run of a submit handler leaves the plans alone or appends one. *)
Lemma form_plans_cases sv now language child currentUser onComplete
  (w : World TreatmentPlanForm.State) :
  let w' := snd (TreatmentPlanForm.handleSubmit sv now language child currentUser
                   onComplete w) in
  plans w' = plans w \/ exists doc, plans w' = (plans w ++ [doc])%list.
Proof.
  intros w'. subst w'.
  destruct currentUser as [user |];
    [destruct (TreatmentPlanForm.voiceFile (ui w)) as [voice |] eqn:Ev |].
  - destruct (FormRuns.form_run sv now language child user onComplete w Ev)
      as (_ & _ & [(Hp & _) | Hs]).
    + left. exact Hp.
    + destruct Hs as (vu & tr & sm & ts & en & _ & _ & _ & _ & _ & Hp & _).
      right. eexists. exact Hp.
  - left. rewrite form_guard by (right; exact Ev). reflexivity.
  - left. rewrite form_guard by (left; reflexivity). reflexivity.
Qed.

Lemma recorder_plans_cases sv now language child currentUser
  (w : World VoiceRecorder.State) :
  let w' := snd (VoiceRecorder.handleSubmit sv now language child currentUser w) in
  plans w' = plans w \/ exists doc, plans w' = (plans w ++ [doc])%list.
Proof.
  intros w'. subst w'.
  destruct currentUser as [user |];
    [destruct (VoiceRecorder.fileToProcess (ui w)) as [voice |] eqn:Ev |].
  - destruct (RecorderRuns.recorder_run sv now language child user w Ev)
      as (_ & [(Hp & _) | Hs]).
    + left. exact Hp.
    + destruct Hs as (vu & tr & sm & ts & en & _ & _ & _ & _ & _ & Hp & _).
      right. eexists. exact Hp.
  - left. rewrite recorder_guard by (right; exact Ev). reflexivity.
  - left. rewrite recorder_guard by (left; reflexivity). reflexivity.
Qed.

Lemma handleUpload_plans sv now taskId (w : World TreatmentPlanView.State) :
  plans (snd (TreatmentPlanView.handleUpload sv now taskId w)) = plans w.
Proof.
  unfold TreatmentPlanView.handleUpload. destruct w as [ps os cs u].
  cbn [ui]. destruct (TreatmentPlanView.videoFile u) as [file |]; [| reflexivity].
  run_async.
  destruct (storage_uploadBytes sv (TreatmentPlanView.videoRef now file)
              {| file_name := TreatmentPlanView.video_name file |}) as [[] | e1];
    [destruct (storage_getDownloadURL sv (TreatmentPlanView.videoRef now file))
       as [url | e2] |]; reflexivity.
Qed.

(** X18: no operation stores a demonstration video with a plan.  If no task
    of any persisted plan has a [demoVideoUrl], this is still so after a run
    of either submit handler and after a video upload, successful or not:
    the uploaded video is attached to the plan on the therapist's screen
    only.  The parent's task page, which shows a persisted plan, then shows
    tasks without a video. *)
Theorem X18_video_url_is_never_persisted
  sv now language child currentUser onComplete (taskId : string)
  (wf : World TreatmentPlanForm.State) (wr : World VoiceRecorder.State)
  (wv : World TreatmentPlanView.State) :
  let noVideo (store : list PlanDoc) :=
    forall p t, In p store -> In t (plan_dailyTasks p) -> demoVideoUrl t = None in
  (noVideo (plans wf) ->
   noVideo (plans (snd (TreatmentPlanForm.handleSubmit sv now language child currentUser
                          onComplete wf))))
  /\ (noVideo (plans wr) ->
      noVideo (plans (snd (VoiceRecorder.handleSubmit sv now language child currentUser
                             wr))))
  /\ (noVideo (plans wv) ->
      noVideo (plans (snd (TreatmentPlanView.handleUpload sv now taskId wv))))
  /\ forall (plansQuery : result unit) (childId : string) (page : World DailyTasks.State),
       noVideo (plans page) ->
       DailyTasks.treatmentPlan (ui page) = None ->
       forall p t,
         DailyTasks.treatmentPlan
           (ui (snd (DailyTasks.loadTreatmentPlan plansQuery childId page))) = Some p ->
         In t (plan_dailyTasks p) -> demoVideoUrl t = None.
Proof.
  intros noVideo.
  assert (Hnew : forall enriched tasks lang t,
             enrichTasks sv now lang tasks = Ok enriched -> In t enriched ->
             demoVideoUrl t = None).
  { intros enriched tasks lang t Hen Ht. apply enrichTasks_shape in Hen.
    destruct Hen as (_ & _ & _ & Hall). rewrite Forall_forall in Hall.
    exact (proj1 (proj2 (Hall t Ht))). }
  split; [| split; [| split]].
  - intros Hinv p t Hp Ht.
    destruct (form_plans_cases sv now language child currentUser onComplete wf)
      as [Hsame | (doc & Hdoc)].
    + rewrite Hsame in Hp. exact (Hinv p t Hp Ht).
    + rewrite Hdoc in Hp. apply in_app_or in Hp. destruct Hp as [Hp | [<- | []]].
      * exact (Hinv p t Hp Ht).
      * apply form_persisted in Hdoc.
        destruct Hdoc as (user & voice & tr & sm & ts & en & _ & _ & _ & _ & _ & Hen
                          & Htasks & _).
        rewrite Htasks in Ht. exact (Hnew en ts language t Hen Ht).
  - intros Hinv p t Hp Ht.
    destruct (recorder_plans_cases sv now language child currentUser wr)
      as [Hsame | (doc & Hdoc)].
    + rewrite Hsame in Hp. exact (Hinv p t Hp Ht).
    + rewrite Hdoc in Hp. apply in_app_or in Hp. destruct Hp as [Hp | [<- | []]].
      * exact (Hinv p t Hp Ht).
      * apply recorder_persisted in Hdoc.
        destruct Hdoc as (user & voice & tr & sm & ts & en & _ & _ & _ & _ & _ & Hen
                          & Htasks & _).
        rewrite Htasks in Ht. exact (Hnew en ts "en" t Hen Ht).
  - intros Hinv p t Hp Ht. rewrite handleUpload_plans in Hp. exact (Hinv p t Hp Ht).
  - intros plansQuery childId page Hinv Hfresh p t Hshown Ht.
    rewrite loadTreatmentPlan_shown in Hshown.
    destruct plansQuery as [[] | e]; [| rewrite Hfresh in Hshown; discriminate Hshown].
    apply latestPlan_max in Hshown. destruct Hshown as [Hin _].
    apply plansOfChild_In in Hin. exact (Hinv p t (proj1 Hin) Ht).
Qed.

Lemma X18_witness :
  exists p t,
    In p (plans (snd (TreatmentPlanView.handleUpload Fakes.secondSuggestionOk Fakes.now
                        "task_100_1" (Fakes.planView (Some Fakes.clip)))))
    /\ In t (plan_dailyTasks p)
    /\ task_id t = "task_100_1"
    /\ demoVideoUrl t = None.
Proof.
  exists Fakes.planWithTasks, (Fakes.dailyTask "task_100_1").
  assert (Hp : In Fakes.planWithTasks
                 (plans (snd (TreatmentPlanView.handleUpload Fakes.secondSuggestionOk
                                Fakes.now "task_100_1" (Fakes.planView (Some Fakes.clip))))))
    by (left; reflexivity).
  assert (Ht : In (Fakes.dailyTask "task_100_1") (plan_dailyTasks Fakes.planWithTasks))
    by (right; left; reflexivity).
  split; [exact Hp |]. split; [exact Ht |]. split; [reflexivity |].
  refine (proj1 (proj2 (proj2 (X18_video_url_is_never_persisted
                  Fakes.secondSuggestionOk Fakes.now "en" Fakes.child
                  (Some Fakes.therapist) true "task_100_1"
                  (Fakes.form None) (Fakes.recorder None)
                  (Fakes.planView (Some Fakes.clip))))) _ _ _ Hp Ht).
  intros p t [<- | []] [<- | [<- | []]]; reflexivity.
Defined.

(** ** The [children] collection under the handlers that write it *)

#[local] Arguments or_else : simpl never.

(** What [handleAddNewPatient] does to the collection. *)
Lemma handleAddNewPatient_children fs currentUser (w : World PatientSearch.State) :
  let w' := snd (PatientSearch.handleAddNewPatient fs currentUser w) in
  (children w' = children w
   /\ (forall user,
         currentUser = Some user -> getDocs_outcome fs = Ok tt ->
         allow_create fs user = true ->
         exists c, In c (children w)
                   /\ child_nationalId c = PatientSearch.newPatientId (ui w)))
  \/ (exists user,
        currentUser = Some user
        /\ getDocs_outcome fs = Ok tt
        /\ allow_create fs user = true
        /\ (forall c, In c (children w) ->
                      child_nationalId c <> PatientSearch.newPatientId (ui w))
        /\ children w'
           = (children w
              ++ [{| child_id := auto_id fs;
                     child_nationalId := PatientSearch.newPatientId (ui w);
                     child_name := PatientSearch.newPatientName (ui w);
                     child_parentId := "";
                     child_therapistId := Some (uid user) |}])%list
        /\ PatientSearch.error (ui w') = ""
        /\ PatientSearch.newPatientId (ui w') = ""
        /\ PatientSearch.patientsAdded (ui w') = S (PatientSearch.patientsAdded (ui w))).
Proof.
  intros w'. subst w'. destruct w as [ps os cs u]. cbn [ui children].
  unfold PatientSearch.handleAddNewPatient.
  destruct currentUser as [user |];
    [| left; split; [reflexivity | intros user H; discriminate H]].
  unfold getChildren, addChild. run_async.
  destruct (getDocs_outcome fs) as [[] | e] eqn:Eg; cbn.
  2:{ left. split; [reflexivity |]. intros user' _ H. discriminate H. }
  destruct (filter (fun d => String.eqb (child_nationalId d) (PatientSearch.newPatientId u)) cs)
    as [| c rest] eqn:Eq; cbn.
  - destruct (allow_create fs user) eqn:Ea; cbn.
    + right. exists user. split; [reflexivity |]. split; [reflexivity |].
      split; [exact Ea |]. split.
      * intros c Hc Hid.
        assert (Hin : In c (filter (fun d => String.eqb (child_nationalId d)
                                               (PatientSearch.newPatientId u)) cs))
          by (apply filter_In; split; [exact Hc | apply String.eqb_eq; exact Hid]).
        rewrite Eq in Hin. exact Hin.
      * repeat split.
    + left. split; [reflexivity |]. intros user' H _ Ha. injection H as <-.
      rewrite Ea in Ha. discriminate Ha.
  - left. split; [reflexivity |]. intros user' _ _ _. exists c.
    assert (Hin : In c (filter (fun d => String.eqb (child_nationalId d)
                                           (PatientSearch.newPatientId u)) cs))
      by (rewrite Eq; left; reflexivity).
    apply filter_In in Hin. destruct Hin as [Hin Hid].
    apply String.eqb_eq in Hid. split; assumption.
Qed.

(** What [handleAddChild] does to the collection and to the list of
    children on screen, case by case. *)
Lemma handleAddChild_outcome fs user (w : World ParentProfile.State) :
  let w' := snd (ParentProfile.handleAddChild fs (Some user) w) in
  let linkedTo (c : Child) :=
    {| child_id := child_id c; child_nationalId := child_nationalId c;
       child_name := ParentProfile.childName (ui w); child_parentId := uid user;
       child_therapistId := child_therapistId c |} in
  let mine (store : list Child) :=
    filter (fun d => String.eqb (child_parentId d) (uid user)) store in
  (children w', ParentProfile.childrenList (ui w'))
  = match getDocs_outcome fs with
    | Thrown _ => (children w, ParentProfile.childrenList (ui w))
    | Ok _ =>
        match filter (fun d => String.eqb (child_nationalId d)
                                 (ParentProfile.nationalId (ui w))) (children w) with
        | [] =>
            if allow_create fs user then
              let store :=
                (children w
                 ++ [{| child_id := auto_id fs;
                        child_nationalId := ParentProfile.nationalId (ui w);
                        child_name := ParentProfile.childName (ui w);
                        child_parentId := uid user;
                        child_therapistId := None |}])%list in
              (store, mine store)
            else (children w, ParentProfile.childrenList (ui w))
        | c :: _ =>
            if negb (String.eqb (child_parentId c) "")
               && negb (String.eqb (child_parentId c) (uid user))
            then (children w, ParentProfile.childrenList (ui w))
            else
              match find (fun d => String.eqb (child_id d) (child_id c)) (children w) with
              | None => (children w, ParentProfile.childrenList (ui w))
              | Some stored =>
                  if allow_update fs user stored then
                    let store :=
                      map (fun d => if String.eqb (child_id d) (child_id c)
                                    then linkedTo d else d) (children w) in
                    (store, mine store)
                  else (children w, ParentProfile.childrenList (ui w))
              end
        end
    end.
Proof.
  intros w' linkedTo mine. subst w' linkedTo mine.
  destruct w as [ps os cs u]. cbn [ui children].
  unfold ParentProfile.handleAddChild, ParentProfile.loadChildren, ParentProfile.setError,
    ParentProfile.setLoading, ParentProfile.setChildName, ParentProfile.setNationalId,
    ParentProfile.setShowAddChild, ParentProfile.setChildren, getChildren, updateChild,
    addChild.
  run_async.
  destruct (getDocs_outcome fs) as [[] | e] eqn:Eg; cbn; [| reflexivity].
  destruct (filter (fun d => String.eqb (child_nationalId d) (ParentProfile.nationalId u)) cs)
    as [| c rest] eqn:Eq; cbn.
  - destruct (allow_create fs user); cbn; reflexivity.
  - destruct (negb (String.eqb (child_parentId c) "")
              && negb (String.eqb (child_parentId c) (uid user))); cbn; [reflexivity |].
    destruct (find (fun d => String.eqb (child_id d) (child_id c)) cs) as [stored |]; cbn;
      [| reflexivity].
    destruct (allow_update fs user stored); cbn; reflexivity.
Qed.

(** What the two [handleAssignToMe] do to the collection. *)
Lemma search_handleAssignToMe_children fs user child (w : World PatientSearch.State) :
  children (snd (PatientSearch.handleAssignToMe fs (Some user) child w))
  = match find (fun d => String.eqb (child_id d) (child_id child)) (children w) with
    | Some stored =>
        if allow_update fs user stored then
          map (fun d => if String.eqb (child_id d) (child_id child)
                        then {| child_id := child_id d;
                                child_nationalId := child_nationalId d;
                                child_name := child_name d;
                                child_parentId := child_parentId d;
                                child_therapistId := Some (uid user) |}
                        else d) (children w)
        else children w
    | None => children w
    end.
Proof.
  destruct w as [ps os cs u]. cbn [children].
  unfold PatientSearch.handleAssignToMe, updateChild. run_async.
  destruct (find (fun d => String.eqb (child_id d) (child_id child)) cs) as [stored |]; cbn;
    [| reflexivity].
  destruct (allow_update fs user stored); cbn; reflexivity.
Qed.

Lemma list_handleAssignToMe_children fs user child (w : World PatientList.State) :
  children (snd (PatientList.handleAssignToMe fs (Some user) child w))
  = match find (fun d => String.eqb (child_id d) (child_id child)) (children w) with
    | Some stored =>
        if allow_update fs user stored then
          map (fun d => if String.eqb (child_id d) (child_id child)
                        then {| child_id := child_id d;
                                child_nationalId := child_nationalId d;
                                child_name := child_name d;
                                child_parentId := child_parentId d;
                                child_therapistId := Some (uid user) |}
                        else d) (children w)
        else children w
    | None => children w
    end.
Proof.
  destruct w as [ps os cs u]. cbn [children].
  unfold PatientList.handleAssignToMe, PatientList.alert, PatientList.setSearchResults,
    PatientList.setSearchNationalId, PatientList.setShowSearchForm, PatientList.onRefresh,
    updateChild.
  run_async.
  destruct (find (fun d => String.eqb (child_id d) (child_id child)) cs) as [stored |]; cbn;
    [| reflexivity].
  destruct (allow_update fs user stored); cbn; reflexivity.
Qed.

Lemma map_field_update {B} (f : Child -> B) (p : Child -> bool) (g : Child -> Child)
  (l : list Child) :
  (forall c, f (g c) = f c) ->
  map f (map (fun d => if p d then g d else d) l) = map f l.
Proof.
  intros H. rewrite map_map. apply map_ext. intros d. destruct (p d); [apply H | reflexivity].
Qed.

(** X19: National IDs stay unique.  If no two documents of the [children]
    collection share a National ID, this is still so after the therapist
    adds a new patient, after a parent adds a child, and after a therapist
    assigns a child from either search panel: the two handlers that create
    a document look the National ID up first, and no handler rewrites one. *)
Theorem X19_national_ids_stay_unique
  (fs : ChildrenStore) (currentUser : option User) (child : Child)
  (ws : World PatientSearch.State) (wp : World ParentProfile.State)
  (wl : World PatientList.State) :
  let unique (store : list Child) := NoDup (map child_nationalId store) in
  (unique (children ws) ->
   unique (children (snd (PatientSearch.handleAddNewPatient fs currentUser ws))))
  /\ (unique (children wp) ->
      unique (children (snd (ParentProfile.handleAddChild fs currentUser wp))))
  /\ (unique (children ws) ->
      unique (children (snd (PatientSearch.handleAssignToMe fs currentUser child ws))))
  /\ (unique (children wl) ->
      unique (children (snd (PatientList.handleAssignToMe fs currentUser child wl)))).
Proof.
  intros unique. subst unique. cbv beta.
  assert (Hfresh : forall (store : list Child) (new : Child),
             NoDup (map child_nationalId store) ->
             filter (fun d => String.eqb (child_nationalId d) (child_nationalId new)) store = [] ->
             NoDup (map child_nationalId (store ++ [new]))).
  { intros store new Hnd Hq. rewrite map_app. cbn [map].
    apply NoDup_app; [exact Hnd | repeat constructor; intros [] |].
    intros a Ha [<- | []]. apply in_map_iff in Ha. destruct Ha as (d & Hd & Hin).
    assert (Hf : In d (filter (fun d => String.eqb (child_nationalId d)
                                           (child_nationalId new)) store))
      by (apply filter_In; split; [exact Hin | apply String.eqb_eq; exact Hd]).
    rewrite Hq in Hf. exact Hf. }
  split; [| split; [| split]].
  - intros Hnd.
    destruct (handleAddNewPatient_children fs currentUser ws)
      as [[Hsame _] | (user & _ & _ & _ & Hnone & Hnew & _)].
    + rewrite Hsame. exact Hnd.
    + rewrite Hnew. apply Hfresh; [exact Hnd |]. cbn [child_nationalId].
      destruct (filter _ (children ws)) as [| c rest] eqn:Eq; [reflexivity |].
      exfalso.
      assert (Hin : In c (filter (fun d => String.eqb (child_nationalId d)
                                             (PatientSearch.newPatientId (ui ws)))
                            (children ws))) by (rewrite Eq; left; reflexivity).
      apply filter_In in Hin. destruct Hin as [Hin Hid]. apply String.eqb_eq in Hid.
      exact (Hnone c Hin Hid).
  - intros Hnd. destruct currentUser as [user |]; [| exact Hnd].
    pose proof (handleAddChild_outcome fs user wp) as Hout. cbv zeta in Hout.
    apply (f_equal fst) in Hout. cbn [fst] in Hout. rewrite Hout. clear Hout.
    destruct (getDocs_outcome fs) as [[] | e]; [| exact Hnd].
    destruct (filter (fun d => String.eqb (child_nationalId d)
                                 (ParentProfile.nationalId (ui wp))) (children wp))
      as [| c rest] eqn:Eq.
    + destruct (allow_create fs user); [| exact Hnd]. cbn [fst].
      apply Hfresh; [exact Hnd | exact Eq].
    + destruct (negb (String.eqb (child_parentId c) "")
                && negb (String.eqb (child_parentId c) (uid user))); [exact Hnd |].
      destruct (find _ (children wp)) as [stored |]; [| exact Hnd].
      destruct (allow_update fs user stored); [| exact Hnd]. cbn [fst].
      rewrite map_field_update by reflexivity. exact Hnd.
  - intros Hnd. destruct currentUser as [user |]; [| exact Hnd].
    rewrite search_handleAssignToMe_children.
    destruct (find _ (children ws)) as [stored |]; [| exact Hnd].
    destruct (allow_update fs user stored); [| exact Hnd].
    rewrite map_field_update by reflexivity. exact Hnd.
  - intros Hnd. destruct currentUser as [user |]; [| exact Hnd].
    rewrite list_handleAssignToMe_children.
    destruct (find _ (children wl)) as [stored |]; [| exact Hnd].
    destruct (allow_update fs user stored); [| exact Hnd].
    rewrite map_field_update by reflexivity. exact Hnd.
Qed.

Lemma X19_witness :
  map child_nationalId
    (children (snd (PatientSearch.handleAddNewPatient Fakes.openStore (Some Fakes.therapist)
                      (Fakes.patientSearch [Fakes.parentCreatedChild] "" "Lina" "555"))))
  = ["1234567890"; "555"]
  /\ NoDup (map child_nationalId
              (children (snd (PatientSearch.handleAddNewPatient Fakes.openStore
                                (Some Fakes.therapist)
                                (Fakes.patientSearch [Fakes.parentCreatedChild] ""
                                   "Lina" "555"))))).
Proof.
  split; [reflexivity |].
  apply (proj1 (X19_national_ids_stay_unique Fakes.openStore (Some Fakes.therapist)
                  Fakes.child
                  (Fakes.patientSearch [Fakes.parentCreatedChild] "" "Lina" "555")
                  (Fakes.parentProfile [] "" "") (Fakes.patientList [] ""))).
  repeat constructor. intros [].
Defined.

Lemma firstn_length_app {A} (l : list A) (extra : list A) :
  firstn (List.length l) (l ++ extra) = l.
Proof.
  rewrite firstn_app, firstn_all, Nat.sub_diag. cbn. apply app_nil_r.
Qed.

Lemma NoDup_map_In_eq {A B} (f : A -> B) (l : list A) (a b : A) :
  NoDup (map f l) -> In a l -> In b l -> f a = f b -> a = b.
Proof.
  induction l as [| x xs IH]; intros Hnd Ha Hb Hf; [destruct Ha |].
  cbn [map] in Hnd. inversion Hnd as [| ? ? Hx Hxs]; subst.
  destruct Ha as [<- | Ha], Hb as [<- | Hb].
  - reflexivity.
  - exfalso. apply Hx. rewrite Hf. apply in_map. exact Hb.
  - exfalso. apply Hx. rewrite <- Hf. apply in_map. exact Ha.
  - exact (IH Hxs Ha Hb Hf).
Qed.

(** X20: each side keeps the other side's link.  When a parent adds a
    child, the documents already in the collection keep their position, id,
    National ID and therapist; at most one document is added, and it has no
    therapist; with distinct document ids, a document linked to another
    parent is left exactly as it was.  When a therapist assigns a child from
    either panel, every document keeps its id, National ID, name and parent.
    When a therapist adds a new patient, the existing documents are left as
    they were. *)
Theorem X20_links_are_kept
  (fs : ChildrenStore) (currentUser : option User) (child : Child)
  (wp : World ParentProfile.State) (ws : World PatientSearch.State)
  (wl : World PatientList.State) :
  let added := children (snd (ParentProfile.handleAddChild fs currentUser wp)) in
  let assigned := children (snd (PatientSearch.handleAssignToMe fs currentUser child ws)) in
  let assigned' := children (snd (PatientList.handleAssignToMe fs currentUser child wl)) in
  let created := children (snd (PatientSearch.handleAddNewPatient fs currentUser ws)) in
  let n := List.length (children wp) in
  ((List.length added = n \/ List.length added = S n)
   /\ map child_id (firstn n added) = map child_id (children wp)
   /\ map child_nationalId (firstn n added) = map child_nationalId (children wp)
   /\ map child_therapistId (firstn n added) = map child_therapistId (children wp)
   /\ (forall new, nth_error added n = Some new -> child_therapistId new = None)
   /\ (NoDup (map child_id (children wp)) ->
       forall user k d,
         currentUser = Some user ->
         nth_error (children wp) k = Some d ->
         child_parentId d <> "" -> child_parentId d <> uid user ->
         nth_error added k = Some d))
  /\ (map child_id assigned = map child_id (children ws)
      /\ map child_nationalId assigned = map child_nationalId (children ws)
      /\ map child_name assigned = map child_name (children ws)
      /\ map child_parentId assigned = map child_parentId (children ws))
  /\ (map child_id assigned' = map child_id (children wl)
      /\ map child_nationalId assigned' = map child_nationalId (children wl)
      /\ map child_name assigned' = map child_name (children wl)
      /\ map child_parentId assigned' = map child_parentId (children wl))
  /\ firstn (List.length (children ws)) created = children ws.
Proof.
  intros added assigned assigned' created n.
  assert (Hn : n = List.length (children wp)) by reflexivity. clearbody n.
  split; [| split; [| split]].
  - subst added.
    assert (Hsame :
      (List.length (children wp) = n \/ List.length (children wp) = S n)
      /\ map child_id (firstn n (children wp)) = map child_id (children wp)
      /\ map child_nationalId (firstn n (children wp)) = map child_nationalId (children wp)
      /\ map child_therapistId (firstn n (children wp))
         = map child_therapistId (children wp)
      /\ (forall new, nth_error (children wp) n = Some new -> child_therapistId new = None)
      /\ (NoDup (map child_id (children wp)) ->
          forall user' k d,
            currentUser = Some user' ->
            nth_error (children wp) k = Some d ->
            child_parentId d <> "" -> child_parentId d <> uid user' ->
            nth_error (children wp) k = Some d)).
    { rewrite firstn_all2 by lia. split; [left; lia |]. repeat (split; [reflexivity |]).
      split.
      - intros new Hnew.
        assert (H : nth_error (children wp) n = None) by (apply nth_error_None; lia).
        rewrite H in Hnew. discriminate Hnew.
      - intros _ user' k d _ Hk _ _. exact Hk. }
    destruct currentUser as [user |]; [| exact Hsame].
    pose proof (handleAddChild_outcome fs user wp) as Hout. cbv zeta in Hout.
    apply (f_equal fst) in Hout. cbn [fst] in Hout. rewrite Hout. clear Hout.
    destruct (getDocs_outcome fs) as [[] | e]; [| exact Hsame].
    destruct (filter (fun d => String.eqb (child_nationalId d)
                                 (ParentProfile.nationalId (ui wp))) (children wp))
      as [| c rest] eqn:Eq.
    + destruct (allow_create fs user); [| exact Hsame]. cbn [fst].
      rewrite Hn, firstn_length_app.
      split; [right; rewrite length_app; cbn; lia |].
      repeat (split; [reflexivity |]).
      split.
      * intros new Hnew. rewrite nth_error_app2 in Hnew by lia.
        rewrite Nat.sub_diag in Hnew. cbn in Hnew. injection Hnew as <-. reflexivity.
      * intros _ user' k d _ Hk _ _. rewrite nth_error_app1; [exact Hk |].
        apply nth_error_Some. rewrite Hk. discriminate.
    + destruct (negb (String.eqb (child_parentId c) "")
                && negb (String.eqb (child_parentId c) (uid user))) eqn:Eother;
        [exact Hsame |].
      destruct (find _ (children wp)) as [stored |]; [| exact Hsame].
      destruct (allow_update fs user stored); [| exact Hsame]. cbn [fst].
      rewrite firstn_all2 by (rewrite length_map; lia).
      rewrite !map_field_update by reflexivity.
      split; [left; rewrite length_map; lia |]. repeat (split; [reflexivity |]).
      split.
      * intros new Hnew.
        match type of Hnew with
        | nth_error ?l ?k = _ =>
            assert (H : nth_error l k = None)
              by (apply nth_error_None; rewrite length_map; lia)
        end.
        rewrite H in Hnew. discriminate Hnew.
      * intros Hnd user' k d Hu Hk Hlinked Hnot. injection Hu as <-.
        rewrite nth_error_map, Hk. cbn [option_map].
        destruct (String.eqb (child_id d) (child_id c)) eqn:Eid; [| reflexivity].
        exfalso. apply String.eqb_eq in Eid.
        assert (Hc : In c (filter (fun d => String.eqb (child_nationalId d)
                                              (ParentProfile.nationalId (ui wp)))
                             (children wp))) by (rewrite Eq; left; reflexivity).
        apply filter_In in Hc. destruct Hc as [Hc _].
        assert (Hd : In d (children wp)) by (eapply nth_error_In; exact Hk).
        pose proof (NoDup_map_In_eq child_id (children wp) d c Hnd Hd Hc Eid) as Hdc.
        subst d.
        apply andb_false_iff in Eother. destruct Eother as [E | E];
          apply negb_false_iff in E; apply String.eqb_eq in E; contradiction.
  - subst assigned. destruct currentUser as [user |]; [| cbn; repeat split].
    rewrite search_handleAssignToMe_children.
    destruct (find _ (children ws)) as [stored |]; [| repeat split].
    destruct (allow_update fs user stored); [| repeat split].
    rewrite !map_field_update by reflexivity. repeat split.
  - subst assigned'. destruct currentUser as [user |]; [| cbn; repeat split].
    rewrite list_handleAssignToMe_children.
    destruct (find _ (children wl)) as [stored |]; [| repeat split].
    destruct (allow_update fs user stored); [| repeat split].
    rewrite !map_field_update by reflexivity. repeat split.
  - subst created.
    destruct (handleAddNewPatient_children fs currentUser ws)
      as [[Hsame _] | (user & _ & _ & _ & _ & Hnew & _)].
    + rewrite Hsame. apply firstn_all.
    + rewrite Hnew. apply firstn_length_app.
Qed.

Lemma X20_witness :
  nth_error
    (children (snd (ParentProfile.handleAddChild Fakes.openStore (Some Fakes.secondParent)
                      (Fakes.parentProfile
                         [Fakes.parentCreatedChild; Fakes.therapistCreatedChild]
                         "Lina" "777"))))
    0
  = Some Fakes.parentCreatedChild
  /\ map child_parentId
       (children (snd (ParentProfile.handleAddChild Fakes.openStore
                         (Some Fakes.secondParent)
                         (Fakes.parentProfile
                            [Fakes.parentCreatedChild; Fakes.therapistCreatedChild]
                            "Lina" "777"))))
     = ["parent-1"; "parent-2"].
Proof.
  split; [| reflexivity].
  destruct (X20_links_are_kept Fakes.openStore (Some Fakes.secondParent) Fakes.child
              (Fakes.parentProfile [Fakes.parentCreatedChild; Fakes.therapistCreatedChild]
                 "Lina" "777")
              (Fakes.patientSearch [] "" "" "") (Fakes.patientList [] ""))
    as ((_ & _ & _ & _ & _ & Hkept) & _).
  apply (Hkept ltac:(repeat constructor; cbn; intuition discriminate)
           Fakes.secondParent 0%nat Fakes.parentCreatedChild eq_refl eq_refl);
    discriminate.
Defined.

(** ** Creating and linking a child, in both orders *)

Lemma filter_none {A} (p : A -> bool) (l : list A) :
  (forall x, In x l -> p x = false) -> filter p l = [].
Proof.
  induction l as [| x xs IH]; intros H; [reflexivity |].
  cbn [filter]. rewrite (H x (or_introl eq_refl)). apply IH.
  intros y Hy. apply H. right. exact Hy.
Qed.

Lemma find_last {A} (p : A -> bool) (l : list A) (d : A) :
  (forall x, In x l -> p x = false) -> find p (l ++ [d]) = if p d then Some d else None.
Proof.
  induction l as [| x xs IH]; intros H; [reflexivity |].
  cbn [app find]. rewrite (H x (or_introl eq_refl)). apply IH.
  intros y Hy. apply H. right. exact Hy.
Qed.

Lemma map_untouched {A} (p : A -> bool) (g : A -> A) (l : list A) :
  (forall x, In x l -> p x = false) -> map (fun d => if p d then g d else d) l = l.
Proof.
  intros H. rewrite <- (map_id l) at 2. apply map_ext_in.
  intros x Hx. rewrite (H x Hx). reflexivity.
Qed.

Lemma loadMyPatients_shown fs user (w : World TherapistDashboard.State) :
  let w' := snd (TherapistDashboard.loadMyPatients fs (Some user) w) in
  children w' = children w
  /\ TherapistDashboard.loading (ui w') = false
  /\ TherapistDashboard.myPatients (ui w')
     = match getDocs_outcome fs with
       | Ok _ => filter (fun d => match child_therapistId d with
                                  | Some t => String.eqb t (uid user)
                                  | None => false
                                  end) (children w)
       | Thrown _ => TherapistDashboard.myPatients (ui w)
       end.
Proof.
  destruct w as [ps os cs u]. unfold TherapistDashboard.loadMyPatients, getChildren.
  run_async. destruct (getDocs_outcome fs) as [[] | e]; cbn; repeat split.
Qed.

(** X21: the therapist creates a patient and the parent then adds the child
    with the same National ID.  Provided the National ID was not in the
    collection, the id given to the new document is not that of an existing
    one, and both writes are accepted, no second document is created: the
    parent's request rewrites the therapist's document, which then carries
    the parent's id and the name the parent entered and still the
    therapist's id; every other document is untouched.  The child appears
    in the parent's list and in the therapist's patient list. *)
Theorem X21_therapist_creates_then_parent_links
  (fs1 fs2 fs3 : ChildrenStore) (therapist parent : User)
  (ws : World PatientSearch.State) (wp : World ParentProfile.State)
  (wd : World TherapistDashboard.State) :
  let N := PatientSearch.newPatientId (ui ws) in
  let linked :=
    {| child_id := auto_id fs1; child_nationalId := N;
       child_name := ParentProfile.childName (ui wp);
       child_parentId := uid parent; child_therapistId := Some (uid therapist) |} in
  getDocs_outcome fs1 = Ok tt -> allow_create fs1 therapist = true ->
  (forall c, In c (children ws) -> child_nationalId c <> N) ->
  (forall c, In c (children ws) -> child_id c <> auto_id fs1) ->
  children wp = children (snd (PatientSearch.handleAddNewPatient fs1 (Some therapist) ws)) ->
  ParentProfile.nationalId (ui wp) = N ->
  getDocs_outcome fs2 = Ok tt ->
  (forall stored, child_id stored = auto_id fs1 -> allow_update fs2 parent stored = true) ->
  let wp' := snd (ParentProfile.handleAddChild fs2 (Some parent) wp) in
  children wp' = (children ws ++ [linked])%list
  /\ ParentProfile.childrenList (ui wp')
     = (filter (fun d => String.eqb (child_parentId d) (uid parent)) (children ws)
        ++ [linked])%list
  /\ (children wd = children wp' -> getDocs_outcome fs3 = Ok tt ->
      TherapistDashboard.myPatients
        (ui (snd (TherapistDashboard.loadMyPatients fs3 (Some therapist) wd)))
      = (filter (fun d => match child_therapistId d with
                          | Some t => String.eqb t (uid therapist)
                          | None => false
                          end) (children ws)
         ++ [linked])%list).
Proof.
  intros N linked Hget1 Hcreate Hnew Hfresh Hstore Hnat Hget2 Hupdate wp'.
  set (created := {| child_id := auto_id fs1; child_nationalId := N;
                     child_name := PatientSearch.newPatientName (ui ws);
                     child_parentId := "";
                     child_therapistId := Some (uid therapist) |}).
  assert (Hcreated : children wp = (children ws ++ [created])%list).
  { rewrite Hstore.
    destruct (handleAddNewPatient_children fs1 (Some therapist) ws)
      as [[_ Hexists] | (user & Hu & _ & _ & _ & Hc & _)].
    - destruct (Hexists therapist eq_refl Hget1 Hcreate) as (c & Hc & Hid).
      exfalso. exact (Hnew c Hc Hid).
    - injection Hu as <-. exact Hc. }
  assert (Hnat' : forall x, In x (children ws) ->
                    String.eqb (child_nationalId x) N = false)
    by (intros x Hx; apply String.eqb_neq; exact (Hnew x Hx)).
  assert (Hid' : forall x, In x (children ws) ->
                   String.eqb (child_id x) (auto_id fs1) = false)
    by (intros x Hx; apply String.eqb_neq; exact (Hfresh x Hx)).
  pose proof (handleAddChild_outcome fs2 parent wp) as Hout. cbv zeta in Hout.
  fold wp' in Hout.
  rewrite Hget2, Hnat, Hcreated in Hout.
  rewrite filter_app, (filter_none _ _ Hnat') in Hout. cbn [filter app] in Hout.
  change (child_nationalId created) with N in Hout. rewrite String.eqb_refl in Hout.
  change (child_parentId created) with ""%string in Hout.
  change (child_id created) with (auto_id fs1) in Hout.
  rewrite String.eqb_refl in Hout. cbn [negb andb] in Hout.
  rewrite (find_last _ _ created Hid') in Hout.
  change (child_id created) with (auto_id fs1) in Hout.
  rewrite String.eqb_refl in Hout.
  rewrite (Hupdate created eq_refl) in Hout.
  rewrite map_app, (map_untouched _ _ _ Hid') in Hout. cbn [map] in Hout.
  change (child_id created) with (auto_id fs1) in Hout.
  rewrite String.eqb_refl in Hout.
  cbn [child_id child_nationalId child_therapistId created] in Hout.
  fold linked in Hout.
  injection Hout as Hchildren Hlist.
  split; [exact Hchildren |].
  split.
  - rewrite Hlist, filter_app. cbn [filter]. unfold linked at 1.
    cbn [child_parentId]. rewrite String.eqb_refl. reflexivity.
  - intros Hwd Hget3.
    destruct (loadMyPatients_shown fs3 therapist wd) as (_ & _ & Hshown).
    rewrite Hshown, Hget3, Hwd, Hchildren, filter_app. cbn [filter]. unfold linked at 1.
    cbn [child_therapistId]. rewrite String.eqb_refl. reflexivity.
Qed.

Lemma X21_witness :
  children
    (snd (ParentProfile.handleAddChild Fakes.openStore (Some Fakes.secondParent)
            (Fakes.parentProfile
               (children (snd (PatientSearch.handleAddNewPatient Fakes.openStore
                                 (Some Fakes.therapist)
                                 (Fakes.patientSearch [Fakes.parentCreatedChild] ""
                                    "Patient 555" "555"))))
               "Lina" "555")))
  = [Fakes.parentCreatedChild;
     {| child_id := "child-2"; child_nationalId := "555"; child_name := "Lina";
        child_parentId := "parent-2"; child_therapistId := Some "therapist-1" |}].
Proof.
  refine (proj1 (X21_therapist_creates_then_parent_links
                   Fakes.openStore Fakes.openStore Fakes.openStore
                   Fakes.therapist Fakes.secondParent
                   (Fakes.patientSearch [Fakes.parentCreatedChild] "" "Patient 555" "555")
                   (Fakes.parentProfile
                      (children (snd (PatientSearch.handleAddNewPatient Fakes.openStore
                                        (Some Fakes.therapist)
                                        (Fakes.patientSearch [Fakes.parentCreatedChild] ""
                                           "Patient 555" "555"))))
                      "Lina" "555")
                   (Fakes.therapistDashboard [])
                   eq_refl eq_refl _ _ eq_refl eq_refl eq_refl (fun _ _ => eq_refl))).
  - intros c [<- | []]. discriminate.
  - intros c [<- | []]. discriminate.
Defined.

Lemma handleSearch_shown fs (w : World PatientSearch.State) :
  let w' := snd (PatientSearch.handleSearch fs w) in
  children w' = children w
  /\ PatientSearch.loading (ui w') = false
  /\ (PatientSearch.searchResults (ui w'), PatientSearch.error (ui w'))
     = match getDocs_outcome fs with
       | Ok _ =>
           match filter (fun d => String.eqb (child_nationalId d)
                                    (PatientSearch.nationalId (ui w))) (children w) with
           | [] => ([], "No patient found with this National ID")
           | results => (results, "")
           end
       | Thrown e => ([], or_else e "Error searching for patient")
       end.
Proof.
  destruct w as [ps os cs u]. unfold PatientSearch.handleSearch, getChildren.
  run_async. destruct (getDocs_outcome fs) as [[] | e]; cbn; [| repeat split].
  destruct (filter (fun d => String.eqb (child_nationalId d) (PatientSearch.nationalId u)) cs);
    cbn; repeat split.
Qed.

Lemma handleAddNewPatient_refuses fs user (w : World PatientSearch.State) c :
  getDocs_outcome fs = Ok tt ->
  In c (children w) -> child_nationalId c = PatientSearch.newPatientId (ui w) ->
  let w' := snd (PatientSearch.handleAddNewPatient fs (Some user) w) in
  children w' = children w
  /\ PatientSearch.error (ui w') = "A patient with this National ID already exists"
  /\ PatientSearch.alerts (ui w') = PatientSearch.alerts (ui w).
Proof.
  intros Hget Hc Hid. destruct w as [ps os cs u]. cbn [ui children] in *.
  unfold PatientSearch.handleAddNewPatient, getChildren, addChild. run_async.
  rewrite Hget. cbn.
  destruct (filter (fun d => String.eqb (child_nationalId d) (PatientSearch.newPatientId u)) cs)
    as [| c' rest] eqn:Eq; cbn.
  - exfalso.
    assert (Hin : In c (filter (fun d => String.eqb (child_nationalId d)
                                           (PatientSearch.newPatientId u)) cs))
      by (apply filter_In; split; [exact Hc | apply String.eqb_eq; exact Hid]).
    rewrite Eq in Hin. exact Hin.
  - repeat split.
Qed.

(** X22: the parent adds a child first and a therapist then finds and
    assigns it.  Provided the National ID was not in the collection, the new
    document's id is not that of an existing one and the writes are
    accepted, the parent's request creates one document without a therapist;
    the therapist's search by that National ID returns exactly this document;
    assigning it stores the therapist's id in it, keeps the parent's id and
    the name, and touches no other document; and a therapist who afterwards
    tries to add a new patient with the same National ID is refused, the
    collection staying as it is. *)
Theorem X22_parent_creates_then_therapist_assigns
  (fs1 fs2 fs3 fs4 : ChildrenStore) (parent therapist other : User)
  (wp : World ParentProfile.State) (ws ws' : World PatientSearch.State) :
  let N := ParentProfile.nationalId (ui wp) in
  let created :=
    {| child_id := auto_id fs1; child_nationalId := N;
       child_name := ParentProfile.childName (ui wp);
       child_parentId := uid parent; child_therapistId := None |} in
  let assigned :=
    {| child_id := auto_id fs1; child_nationalId := N;
       child_name := ParentProfile.childName (ui wp);
       child_parentId := uid parent; child_therapistId := Some (uid therapist) |} in
  getDocs_outcome fs1 = Ok tt -> allow_create fs1 parent = true ->
  (forall c, In c (children wp) -> child_nationalId c <> N) ->
  (forall c, In c (children wp) -> child_id c <> auto_id fs1) ->
  children ws = children (snd (ParentProfile.handleAddChild fs1 (Some parent) wp)) ->
  PatientSearch.nationalId (ui ws) = N ->
  getDocs_outcome fs2 = Ok tt ->
  (forall stored, child_id stored = auto_id fs1 -> allow_update fs3 therapist stored = true) ->
  let searched := snd (PatientSearch.handleSearch fs2 ws) in
  let done := snd (PatientSearch.handleAssignToMe fs3 (Some therapist) created searched) in
  children ws = (children wp ++ [created])%list
  /\ PatientSearch.searchResults (ui searched) = [created]
  /\ PatientSearch.error (ui searched) = ""
  /\ children done = (children wp ++ [assigned])%list
  /\ PatientSearch.searchResults (ui done) = []
  /\ PatientSearch.patientsAdded (ui done) = S (PatientSearch.patientsAdded (ui ws))
  /\ (children ws' = children done -> PatientSearch.newPatientId (ui ws') = N ->
      getDocs_outcome fs4 = Ok tt ->
      let refused := snd (PatientSearch.handleAddNewPatient fs4 (Some other) ws') in
      children refused = children done
      /\ PatientSearch.error (ui refused) = "A patient with this National ID already exists").
Proof.
  intros N created assigned Hget1 Hcreate Hnew Hfresh Hstore Hnat Hget2 Hupdate
    searched done.
  assert (Hnat' : forall x, In x (children wp) ->
                    String.eqb (child_nationalId x) N = false)
    by (intros x Hx; apply String.eqb_neq; exact (Hnew x Hx)).
  assert (Hid' : forall x, In x (children wp) ->
                   String.eqb (child_id x) (auto_id fs1) = false)
    by (intros x Hx; apply String.eqb_neq; exact (Hfresh x Hx)).
  assert (Hcreated : children ws = (children wp ++ [created])%list).
  { rewrite Hstore.
    pose proof (handleAddChild_outcome fs1 parent wp) as Hout. cbv zeta in Hout.
    fold N in Hout.
    rewrite Hget1, (filter_none _ _ Hnat'), Hcreate in Hout. cbv zeta in Hout.
    injection Hout as Hchildren _. exact Hchildren. }
  destruct (handleSearch_shown fs2 ws) as (Hsc & _ & Hshown). fold searched in Hsc, Hshown.
  rewrite Hget2, Hnat, Hcreated, filter_app, (filter_none _ _ Hnat') in Hshown.
  cbn [filter app] in Hshown. change (child_nationalId created) with N in Hshown.
  rewrite String.eqb_refl in Hshown. injection Hshown as Hresults Herror.
  assert (Hdone : children done = (children wp ++ [assigned])%list).
  { unfold done. rewrite search_handleAssignToMe_children, Hsc, Hcreated.
    change (child_id created) with (auto_id fs1).
    rewrite (find_last (fun d => String.eqb (child_id d) (auto_id fs1))
               (children wp) created Hid').
    change (child_id created) with (auto_id fs1). rewrite String.eqb_refl.
    rewrite (Hupdate created eq_refl).
    rewrite map_app.
    rewrite (map_untouched (fun d => String.eqb (child_id d) (auto_id fs1)) _ _ Hid').
    cbn [map].
    change (child_id created) with (auto_id fs1). rewrite String.eqb_refl.
    reflexivity. }
  split; [exact Hcreated |]. split; [exact Hresults |]. split; [exact Herror |].
  split; [exact Hdone |].
  assert (Hui : PatientSearch.searchResults (ui done) = []
                /\ PatientSearch.patientsAdded (ui done)
                   = S (PatientSearch.patientsAdded (ui searched))).
  { unfold done. clear Hdone.
    assert (Hfind : find (fun d => String.eqb (child_id d) (auto_id fs1))
                      (children searched) = Some created).
    { rewrite Hsc, Hcreated.
      rewrite (find_last (fun d => String.eqb (child_id d) (auto_id fs1))
                 (children wp) created Hid').
      change (child_id created) with (auto_id fs1). rewrite String.eqb_refl. reflexivity. }
    destruct searched as [ps os cs u]. cbn [children ui] in *.
    unfold PatientSearch.handleAssignToMe, updateChild. run_async.
    rewrite Hfind, (Hupdate created eq_refl). cbn. split; reflexivity. }
  destruct Hui as [Hcleared Hadded].
  split; [exact Hcleared |].
  split.
  { rewrite Hadded. f_equal. clear.
    destruct ws as [ps os cs u]. unfold searched, PatientSearch.handleSearch, getChildren.
    run_async. destruct (getDocs_outcome fs2) as [[] | e]; cbn; [| reflexivity].
    destruct (filter _ cs); reflexivity. }
  intros Hws' Hnew' Hget4 refused.
  destruct (handleAddNewPatient_refuses fs4 other ws' assigned Hget4) as (Hc & He & _).
  - rewrite Hws', Hdone. apply in_or_app. right. left. reflexivity.
  - rewrite Hnew'. reflexivity.
  - fold refused in Hc, He. split; [rewrite Hc; exact Hws' | exact He].
Qed.

Lemma X22_witness :
  children
    (snd (PatientSearch.handleAssignToMe Fakes.openStore (Some Fakes.therapist)
            {| child_id := "child-2"; child_nationalId := "555"; child_name := "Lina";
               child_parentId := "parent-2"; child_therapistId := None |}
            (snd (PatientSearch.handleSearch Fakes.openStore
                    (Fakes.patientSearch
                       (children (snd (ParentProfile.handleAddChild Fakes.openStore
                                         (Some Fakes.secondParent)
                                         (Fakes.parentProfile [Fakes.parentCreatedChild]
                                            "Lina" "555"))))
                       "555" "" "")))))
  = [Fakes.parentCreatedChild;
     {| child_id := "child-2"; child_nationalId := "555"; child_name := "Lina";
        child_parentId := "parent-2"; child_therapistId := Some "therapist-1" |}].
Proof.
  refine (proj1 (proj2 (proj2 (proj2 (X22_parent_creates_then_therapist_assigns
                   Fakes.openStore Fakes.openStore Fakes.openStore Fakes.openStore
                   Fakes.secondParent Fakes.therapist Fakes.otherTherapist
                   (Fakes.parentProfile [Fakes.parentCreatedChild] "Lina" "555")
                   (Fakes.patientSearch
                      (children (snd (ParentProfile.handleAddChild Fakes.openStore
                                        (Some Fakes.secondParent)
                                        (Fakes.parentProfile [Fakes.parentCreatedChild]
                                           "Lina" "555"))))
                      "555" "" "")
                   (Fakes.patientSearch [] "" "" "")
                   eq_refl eq_refl _ _ eq_refl eq_refl eq_refl (fun _ _ => eq_refl)))))).
  - intros c [<- | []]. discriminate.
  - intros c [<- | []]. discriminate.
Defined.

(** ** The therapist's view of a plan ([TreatmentPlanView.loadTreatmentPlan]) *)

#[local] Arguments ProgressData.generateSampleProgressData : simpl never.
#[local] Arguments DailyTasks.loadTreatmentPlan : simpl never.
#[local] Arguments ProgressDashboard.loadProgress : simpl never.

(** X23: loading the therapist's view of a child.  The loading flag ends
    cleared and the upload widget is untouched.  If the plan query fails,
    the plan, sessions and skill chart on screen stay.  If it answers, the
    view shows the child's latest persisted plan, the same one as the
    parent's task page, or none; so a demonstration video attached on screen
    only is gone after a refresh.  Sessions and skills are recomputed only
    when there is a plan and the session query answers: the sessions are then
    never empty (the child's records, or fourteen generated ones) and the
    chart has the skills of the plan's therapy type, ['behavior'] if it has
    none, which are the skills the parent's dashboard charts for the same
    collection. *)
Theorem X23_therapist_view_load
  (plansQuery sessionsQuery : result unit)
  (plansStore : list PlanDoc) (sessionsStore : list ProgressData.Session)
  (child : Child) (today : Z) (draws : nat -> Q) (n : nat) (u : TreatmentPlanView.State) :
  let u' := fst (TreatmentPlanView.loadTreatmentPlan plansQuery sessionsQuery plansStore
                   sessionsStore child today draws n u) in
  let real :=
    filter (fun s => String.eqb (ProgressData.childId s) (child_id child)) sessionsStore in
  TreatmentPlanView.loading u' = false
  /\ (TreatmentPlanView.uploadingVideoFor u' = TreatmentPlanView.uploadingVideoFor u
      /\ TreatmentPlanView.videoFile u' = TreatmentPlanView.videoFile u
      /\ TreatmentPlanView.alerts u' = TreatmentPlanView.alerts u)
  /\ (is_thrown plansQuery = true ->
      TreatmentPlanView.treatmentPlan u' = TreatmentPlanView.treatmentPlan u
      /\ TreatmentPlanView.sessions u' = TreatmentPlanView.sessions u
      /\ TreatmentPlanView.skillProgress u' = TreatmentPlanView.skillProgress u)
  /\ (is_thrown plansQuery = false ->
      TreatmentPlanView.treatmentPlan u'
      = latestPlan (plansOfChild (child_id child) plansStore)
      /\ (forall page : World DailyTasks.State,
            plans page = plansStore ->
            DailyTasks.treatmentPlan
              (ui (snd (DailyTasks.loadTreatmentPlan (Ok tt) (child_id child) page)))
            = TreatmentPlanView.treatmentPlan u')
      /\ ((forall p t, In p plansStore -> In t (plan_dailyTasks p) -> demoVideoUrl t = None) ->
          forall plan t,
            TreatmentPlanView.treatmentPlan u' = Some plan ->
            In t (plan_dailyTasks plan) -> demoVideoUrl t = None)
      /\ (TreatmentPlanView.treatmentPlan u' = None \/ is_thrown sessionsQuery = true ->
          TreatmentPlanView.sessions u' = TreatmentPlanView.sessions u
          /\ TreatmentPlanView.skillProgress u' = TreatmentPlanView.skillProgress u)
      /\ (forall plan,
            TreatmentPlanView.treatmentPlan u' = Some plan ->
            is_thrown sessionsQuery = false ->
            TreatmentPlanView.sessions u' <> []
            /\ (real <> [] -> TreatmentPlanView.sessions u' = real)
            /\ (real = [] -> List.length (TreatmentPlanView.sessions u') = 14%nat)
            /\ map fst (TreatmentPlanView.skillProgress u')
               = ProgressData.skillNames (opt_or_else (plan_therapyType plan) "behavior")
            /\ forall client sessionsStore' todaySample todaySummary draws' n' st,
                 map fst (TreatmentPlanView.skillProgress u')
                 = map fst (ProgressDashboard.skillProgress
                              (fst (ProgressDashboard.loadProgress (Ok tt) (Ok tt) client
                                      plansStore sessionsStore' (child_id child)
                                      todaySample todaySummary draws' n' st))))).
Proof.
  intros u' real. subst u'. unfold TreatmentPlanView.loadTreatmentPlan.
  destruct plansQuery as [[] | e]; cbn [is_thrown].
  2:{ cbn. split; [reflexivity |]. split; [repeat split |].
      split; [intros _; repeat split | intros H; discriminate H]. }
  destruct (latestPlan (plansOfChild (child_id child) plansStore)) as [plan |] eqn:El.
  2:{ cbn. split; [reflexivity |]. split; [repeat split |].
      split; [intros H; discriminate H |]. intros _.
      split; [reflexivity |].
      split; [intros page Hpage; rewrite loadTreatmentPlan_shown, Hpage; exact El |].
      split; [intros _ plan t H; discriminate H |].
      split; [intros _; split; reflexivity |].
      intros plan H. discriminate H. }
  assert (Hagree : forall page : World DailyTasks.State,
             plans page = plansStore ->
             DailyTasks.treatmentPlan
               (ui (snd (DailyTasks.loadTreatmentPlan (Ok tt) (child_id child) page)))
             = Some plan)
    by (intros page Hpage; rewrite loadTreatmentPlan_shown, Hpage; exact El).
  assert (Hvideo :
    (forall p t, In p plansStore -> In t (plan_dailyTasks p) -> demoVideoUrl t = None) ->
    forall t, In t (plan_dailyTasks plan) -> demoVideoUrl t = None).
  { intros Hinv t Ht. apply latestPlan_max in El. destruct El as [Hin _].
    apply plansOfChild_In in Hin. exact (Hinv plan t (proj1 Hin) Ht). }
  unfold TreatmentPlanView.loadProgressData. fold real.
  destruct sessionsQuery as [[] | e2]; cbn [is_thrown].
  2:{ cbn. split; [reflexivity |]. split; [repeat split |].
      split; [intros H; discriminate H |]. intros _.
      split; [reflexivity |]. split; [exact Hagree |].
      split; [intros Hinv p t Hp; injection Hp as <-; exact (Hvideo Hinv t) |].
      split; [intros _; split; reflexivity |].
      intros p _ H. discriminate H. }
  assert (Hchoice : exists sessionsData n1,
             match real with
             | [] => ProgressData.generateSampleProgressData (child_id child) 14 today
                       draws n
             | _ :: _ => (real, n)
             end = (sessionsData, n1)
             /\ sessionsData <> []
             /\ (real <> [] -> sessionsData = real)
             /\ (real = [] -> List.length sessionsData = 14%nat)).
  { clearbody real. destruct real as [| s rest].
    - destruct (generateSampleProgressData_spec (child_id child) 14 today draws n)
        as [Hlen _].
      destruct (ProgressData.generateSampleProgressData (child_id child) 14 today draws n)
        as [sessionsData n1].
      cbn [fst] in Hlen. exists sessionsData, n1. split; [reflexivity |].
      split; [intros Hnil; rewrite Hnil in Hlen; discriminate Hlen |].
      split; [intros H; contradiction H; reflexivity | intros _; exact Hlen].
    - exists (s :: rest), n. split; [reflexivity |]. split; [discriminate |].
      split; [intros _; reflexivity | intros H; discriminate H]. }
  destruct Hchoice as (sessionsData & n1 & Hchosen & Hne & Hreal & Hsample).
  rewrite Hchosen.
  pose proof (calculateSkillProgress_names (opt_or_else (plan_therapyType plan) "behavior")
                sessionsData draws n1) as Hskills.
  destruct (ProgressData.calculateSkillProgress
              (opt_or_else (plan_therapyType plan) "behavior") sessionsData draws n1)
    as [skills n2].
  cbn [fst] in Hskills. cbn.
  split; [reflexivity |]. split; [repeat split |].
  split; [intros H; discriminate H |]. intros _.
  split; [reflexivity |]. split; [exact Hagree |].
  split; [intros Hinv p t Hp; injection Hp as <-; exact (Hvideo Hinv t) |].
  split; [intros [H | H]; discriminate H |].
  intros p Hp _. injection Hp as <-.
  split; [exact Hne |]. split; [exact Hreal |]. split; [exact Hsample |].
  split; [exact Hskills |].
  intros client sessionsStore' todaySample todaySummary draws' n' st.
  rewrite Hskills.
  rewrite (proj2 (loadProgress_type_and_chart client plansStore sessionsStore'
                    (child_id child) todaySample todaySummary draws' n' st)).
  unfold ProgressDashboard.currentTherapyType. rewrite El. reflexivity.
Qed.

Lemma X23_witness :
  TreatmentPlanView.treatmentPlan
    (fst (TreatmentPlanView.loadTreatmentPlan (Ok tt) (Ok tt) Fakes.threePlans []
            Fakes.child Fakes.now Fakes.halves 0%nat (ui (Fakes.planView None))))
  = Some (Fakes.planAt "child-1" 200 "second")
  /\ map fst
       (TreatmentPlanView.skillProgress
          (fst (TreatmentPlanView.loadTreatmentPlan (Ok tt) (Ok tt) Fakes.threePlans []
                  Fakes.child Fakes.now Fakes.halves 0%nat (ui (Fakes.planView None)))))
     = ["Articulation"; "Vocabulary"; "Sentence Formation"; "Comprehension"].
Proof.
  destruct (X23_therapist_view_load (Ok tt) (Ok tt) Fakes.threePlans [] Fakes.child
              Fakes.now Fakes.halves 0%nat (ui (Fakes.planView None)))
    as (_ & _ & _ & H).
  destruct (H eq_refl) as (Hplan & _ & _ & _ & Hchart).
  split; [exact Hplan |].
  destruct (Hchart (Fakes.planAt "child-1" 200 "second") Hplan eq_refl)
    as (_ & _ & _ & Hskills & _).
  exact Hskills.
Defined.

(** ** The therapist's feedback list ([TherapistFeedback.loadFeedback]) *)

Section SortDescendingOrder.

Context {A : Type} (key : A -> Z).





End SortDescendingOrder.













(** ** The assistant ([Chatbot], [chatWithAssistant]) *)

Lemma concat_repeat_snoc {A} (x : list A) (k : nat) :
  (List.concat (repeat x k) ++ x)%list = List.concat (repeat x (S k)).
Proof.
  induction k as [| k IH]; cbn [repeat List.concat].
  - rewrite app_nil_r. reflexivity.
  - rewrite <- app_assoc, IH. reflexivity.
Qed.

(** X26: one turn of the conversation.  A blank input, or a send while a
    request is pending, changes nothing and sends nothing.  Otherwise the
    request carries the language branch, the user context and the whole
    conversation so far (the greeting and earlier apologies included)
    followed by the new message as typed; the conversation gains exactly the
    user's message and one assistant message: the answer, the empty text for
    an answer without content, or a fixed apology in the interface language
    when the request fails.  The input is cleared and the loading flag
    reset.  So a conversation that alternates between assistant and user,
    starting as the reset leaves it, keeps alternating. *)
Theorem X26_chat_turn
  (trim : string -> string)
  (client : OpenAI.ChatTurn (option Chatbot.UserContext) -> result (option string))
  (language : string) (u : Chatbot.State) :
  let u' := Chatbot.handleSend trim client language u in
  let asked := {| OpenAI.role := OpenAI.user; OpenAI.content := Chatbot.input u |} in
  let request :=
    {| OpenAI.turn_arabic := String.eqb language "ar";
       OpenAI.turn_userContext := Chatbot.userContext u;
       OpenAI.turn_messages := (Chatbot.messages u ++ [asked])%list |} in
  (trim (Chatbot.input u) = "" \/ Chatbot.loading u = true -> u' = u)
  /\ (trim (Chatbot.input u) <> "" -> Chatbot.loading u = false ->
      exists reply,
        Chatbot.messages u'
        = (Chatbot.messages u
           ++ [asked; {| OpenAI.role := OpenAI.assistant; OpenAI.content := reply |}])%list
        /\ Chatbot.input u' = ""
        /\ Chatbot.loading u' = false
        /\ Chatbot.userContext u' = Chatbot.userContext u
        /\ match client request with
           | Ok (Some text) => reply = text
           | Ok None => reply = ""
           | Thrown _ =>
               reply = if String.eqb language "ar"
                       then "عذراً، حدث خطأ. يرجى المحاولة مرة أخرى."
                       else "I'm sorry, I encountered an error. Please try again."
           end)
  /\ map OpenAI.role (Chatbot.messages (Chatbot.resetMessages language u))
     = [OpenAI.assistant]
  /\ (forall k,
        map OpenAI.role (Chatbot.messages u)
        = OpenAI.assistant :: List.concat (repeat [OpenAI.user; OpenAI.assistant] k) ->
        exists k',
          map OpenAI.role (Chatbot.messages u')
          = OpenAI.assistant :: List.concat (repeat [OpenAI.user; OpenAI.assistant] k')).
Proof.
  intros u' asked request.
  assert (Hsent : trim (Chatbot.input u) <> "" -> Chatbot.loading u = false ->
            exists reply,
              Chatbot.messages u'
              = (Chatbot.messages u
                 ++ [asked; {| OpenAI.role := OpenAI.assistant;
                               OpenAI.content := reply |}])%list
              /\ Chatbot.input u' = ""
              /\ Chatbot.loading u' = false
              /\ Chatbot.userContext u' = Chatbot.userContext u
              /\ match client request with
                 | Ok (Some text) => reply = text
                 | Ok None => reply = ""
                 | Thrown _ =>
                     reply = if String.eqb language "ar"
                             then "عذراً، حدث خطأ. يرجى المحاولة مرة أخرى."
                             else "I'm sorry, I encountered an error. Please try again."
                 end).
  { intros Hinput Hidle. subst u'. unfold Chatbot.handleSend.
    apply String.eqb_neq in Hinput. rewrite Hinput, Hidle. cbn [orb].
    unfold OpenAI.chatWithAssistant. fold asked. fold request.
    destruct (client request) as [[text |] | e].
    - exists text. cbn. rewrite <- app_assoc. repeat split.
      unfold opt_or_else, or_else.
      destruct (String.eqb text "") eqn:Et; [| reflexivity].
      apply String.eqb_eq in Et. rewrite Et. reflexivity.
    - exists "". cbn. rewrite <- app_assoc. repeat split.
    - eexists. cbn. rewrite <- app_assoc. repeat split. }
  assert (Hblocked : trim (Chatbot.input u) = "" \/ Chatbot.loading u = true -> u' = u).
  { subst u'. unfold Chatbot.handleSend. intros [Hblank | Hbusy].
    - rewrite Hblank. reflexivity.
    - rewrite Hbusy, orb_true_r. reflexivity. }
  split; [exact Hblocked |]. split; [exact Hsent |]. split; [reflexivity |].
  intros k Hk.
  destruct (String.eqb (trim (Chatbot.input u)) "") eqn:Eb.
  - apply String.eqb_eq in Eb. rewrite (Hblocked (or_introl Eb)). exists k. exact Hk.
  - apply String.eqb_neq in Eb. destruct (Chatbot.loading u) eqn:El.
    + rewrite (Hblocked (or_intror eq_refl)). exists k. exact Hk.
    + destruct (Hsent Eb eq_refl) as (reply & Hm & _). exists (S k).
      rewrite Hm, map_app, Hk. cbn [map OpenAI.role asked app].
      rewrite <- concat_repeat_snoc. reflexivity.
Qed.

Lemma X26_witness :
  Chatbot.messages
    (Chatbot.handleSend (fun s => s) (fun _ => Thrown "quota") "en"
       {| Chatbot.messages := [{| OpenAI.role := OpenAI.assistant;
                                  OpenAI.content := Chatbot.getInitialMessage "en" |}];
          Chatbot.input := "How do I do this exercise?";
          Chatbot.loading := false;
          Chatbot.userContext := None |})
  = [{| OpenAI.role := OpenAI.assistant;
        OpenAI.content := Chatbot.getInitialMessage "en" |};
     {| OpenAI.role := OpenAI.user; OpenAI.content := "How do I do this exercise?" |};
     {| OpenAI.role := OpenAI.assistant;
        OpenAI.content := "I'm sorry, I encountered an error. Please try again." |}].
Proof.
  destruct (proj1 (proj2 (X26_chat_turn (fun s => s) (fun _ => Thrown "quota") "en"
              {| Chatbot.messages := [{| OpenAI.role := OpenAI.assistant;
                                         OpenAI.content := Chatbot.getInitialMessage "en" |}];
                 Chatbot.input := "How do I do this exercise?";
                 Chatbot.loading := false;
                 Chatbot.userContext := None |}))
              ltac:(discriminate) eq_refl) as (reply & Hm & _ & _ & _ & Hreply).
  rewrite Hm. cbv beta iota in Hreply. rewrite Hreply. reflexivity.
Defined.

Lemma loadPlans_all (plansQuery : string -> result unit) (plansStore : list PlanDoc)
  (children : list Child) : forall acc,
  (forall c, In c children -> is_thrown (plansQuery (child_id c)) = false) ->
  Chatbot.loadPlans plansQuery plansStore children acc
  = Ok (acc ++ flat_map (fun c => plansOfChild (child_id c) plansStore) children)%list.
Proof.
  induction children as [| c rest IH]; intros acc H; cbn [Chatbot.loadPlans flat_map].
  - rewrite app_nil_r. reflexivity.
  - pose proof (H c (or_introl eq_refl)) as Hc.
    destruct (plansQuery (child_id c)) as [[] | e]; [| discriminate Hc].
    rewrite IH by (intros d Hd; apply H; right; exact Hd).
    rewrite app_assoc. reflexivity.
Qed.

Lemma loadPlans_fails (plansQuery : string -> result unit) (plansStore : list PlanDoc)
  (children : list Child) : forall acc c,
  In c children -> is_thrown (plansQuery (child_id c)) = true ->
  is_thrown (Chatbot.loadPlans plansQuery plansStore children acc) = true.
Proof.
  induction children as [| d rest IH]; intros acc c Hc Hfail; [destruct Hc |].
  cbn [Chatbot.loadPlans].
  destruct (plansQuery (child_id d)) as [[] | e] eqn:Ed; [| reflexivity].
  destruct Hc as [-> | Hc]; [rewrite Ed in Hfail; discriminate Hfail |].
  exact (IH _ c Hc Hfail).
Qed.

(** X27: the context given to the assistant.  Loading it never touches the
    conversation.  It is all or nothing: if the query for the children or the
    plan query of any one child of the signed-in parent fails, the earlier
    context stays.  Otherwise the context lists exactly this parent's
    children, by name and id, and, child by child, the persisted plans of
    these children reduced to the goals and to the title, description and
    rationale of each task; no plan of another parent's child is included. *)
Theorem X27_assistant_context_is_the_parents_own
  (childrenQuery : result unit) (plansQuery : string -> result unit)
  (user : User) (userName userRole : string)
  (childrenStore : list Child) (plansStore : list PlanDoc) (u : Chatbot.State) :
  let u' := Chatbot.loadUserContext childrenQuery plansQuery (Some user) userName userRole
              childrenStore plansStore u in
  let own := filter (fun d => String.eqb (child_parentId d) (uid user)) childrenStore in
  (Chatbot.messages u' = Chatbot.messages u
   /\ Chatbot.input u' = Chatbot.input u
   /\ Chatbot.loading u' = Chatbot.loading u)
  /\ (is_thrown childrenQuery = true
      \/ (exists c, In c own /\ is_thrown (plansQuery (child_id c)) = true) ->
      u' = u)
  /\ (is_thrown childrenQuery = false ->
      (forall c, In c own -> is_thrown (plansQuery (child_id c)) = false) ->
      exists ctx,
        Chatbot.userContext u' = Some ctx
        /\ Chatbot.ctx_userName ctx = userName
        /\ Chatbot.ctx_role ctx = userRole
        /\ Chatbot.ctx_children ctx = map (fun c => (child_name c, child_id c)) own
        /\ Chatbot.ctx_treatmentPlans ctx
           = map Chatbot.planContextOf
               (flat_map (fun c => plansOfChild (child_id c) plansStore) own)
        /\ forall plan,
             In plan (Chatbot.ctx_treatmentPlans ctx) ->
             exists c,
               In c childrenStore /\ child_parentId c = uid user
               /\ Chatbot.ctx_childId plan = child_id c).
Proof.
  intros u' own. subst u'. unfold Chatbot.loadUserContext. fold own.
  destruct childrenQuery as [[] | e]; cbn [is_thrown].
  2:{ split; [repeat split |]. split; [intros _; reflexivity | intros H; discriminate H]. }
  destruct (Chatbot.loadPlans plansQuery plansStore own []) as [treatmentPlans | e] eqn:El.
  - split; [repeat split |]. split.
    + intros [H | (c & Hc & Hfail)]; [discriminate H |].
      pose proof (loadPlans_fails plansQuery plansStore own [] c Hc Hfail) as Hf.
      rewrite El in Hf. discriminate Hf.
    + intros _ Hall. rewrite (loadPlans_all plansQuery plansStore own [] Hall) in El.
      injection El as <-. cbn [app].
      eexists. split; [reflexivity |]. cbn.
      repeat (split; [reflexivity |]).
      intros plan Hplan. apply in_map_iff in Hplan. destruct Hplan as (tp & <- & Htp).
      apply in_flat_map in Htp. destruct Htp as (c & Hc & Htp).
      apply plansOfChild_In in Htp. destruct Htp as [_ Hid].
      unfold own in Hc. apply filter_In in Hc. destruct Hc as [Hc Hp].
      apply String.eqb_eq in Hp. exists c. repeat split; assumption.
  - split; [repeat split |]. split; [intros _; reflexivity |].
    intros _ Hall. rewrite (loadPlans_all plansQuery plansStore own [] Hall) in El.
    discriminate El.
Qed.

Lemma X27_witness :
  exists ctx,
    Chatbot.userContext
      (Chatbot.loadUserContext (Ok tt) (fun _ => Ok tt) (Some Fakes.parent) "Dana" "parent"
         [Fakes.child; Fakes.therapistCreatedChild] Fakes.threePlans
         {| Chatbot.messages := []; Chatbot.input := ""; Chatbot.loading := false;
            Chatbot.userContext := None |})
    = Some ctx
    /\ Chatbot.ctx_children ctx = [("Sami", "child-1")]
    /\ map Chatbot.ctx_childId (Chatbot.ctx_treatmentPlans ctx) = ["child-1"; "child-1"].
Proof.
  destruct (proj2 (proj2 (X27_assistant_context_is_the_parents_own
              (Ok tt) (fun _ => Ok tt) Fakes.parent "Dana" "parent"
              [Fakes.child; Fakes.therapistCreatedChild] Fakes.threePlans
              {| Chatbot.messages := []; Chatbot.input := ""; Chatbot.loading := false;
                 Chatbot.userContext := None |}))
              eq_refl (fun _ _ => eq_refl))
    as (ctx & Hctx & _ & _ & Hchildren & Hplans & _).
  exists ctx. split; [exact Hctx |]. split; [exact Hchildren |].
  rewrite Hplans. reflexivity.
Defined.
